(** * School-clinic appointment client: filter/sort pipeline, status-driven
      actions, check-in scanner, chat transcript, login errors, time format.

    Shallow embedding of the browser scripts
      - [admin-dashboard.js]   (modules [Admin], [Pipeline], [AdminPage]),
      - the student dashboard  (modules [Student], [StudentPage]),
      - [login.js]             (module [Login]),
      - the registration form  (module [Register]),
    followed by the theorems about them.

    Conventions of the embedding.
      - A JavaScript string is a [string].  What the platform does to text
        by the Unicode tables ([toLowerCase], [toUpperCase], [trim]) is a
        parameter of the handlers that apply it to text of any kind: the
        search of the table ([Pipeline]) and the chat ([Student]).  The
        module [JsString] has these functions as they are on ASCII text;
        they stand for the platform in the examples, and in the tests that
        compare lowered text with ASCII keywords.
      - A template is a tree of markup with holes; the page it becomes
        when the values of the holes hold markup of their own is
        [parsed].
      - A JavaScript number that the scripts compute with is an integer
        well inside the exactly representable range (an hour, a priority
        band, a time value in milliseconds); it is a [Z], and [NaN] is
        [None] of [option Z].
      - The platform ([Date], [fetch], the dialog library, the scanner
        widget, the DOM) is not part of the repository.  What a handler
        asks of it is recorded as an event of a trace; what the handler
        receives from it is an argument of the handler. *)

From Stdlib Require Import String Ascii List ZArith Lia Bool Arith.
From Stdlib Require Import Permutation Sorted DecimalString.
Import ListNotations.
Open Scope string_scope.
Open Scope Z_scope.

Set Implicit Arguments.

(* ===================================================================== *)
(** ** JavaScript strings *)
(* ===================================================================== *)

Module JsString.

(** [String.prototype.toLowerCase] as it is on ASCII text: the table of
    the letters A to Z. *)
Definition lowerChar (c : ascii) : ascii :=
  let n := nat_of_ascii c in
  if ((65 <=? n) && (n <=? 90))%nat then ascii_of_nat (n + 32) else c.

Fixpoint toLowerCase (s : string) : string :=
  match s with
  | EmptyString => EmptyString
  | String c s' => String (lowerChar c) (toLowerCase s')
  end.

(** [s.startsWith(t)]. *)
Fixpoint startsWith (s t : string) : bool :=
  match t, s with
  | EmptyString, _ => true
  | String _ _, EmptyString => false
  | String b t', String a s' => Ascii.eqb a b && startsWith s' t'
  end.

(** [s.includes(t)]: [t] occurs in [s] as a contiguous run. *)
Fixpoint includes (s t : string) : bool :=
  startsWith s t ||
  match s with
  | EmptyString => false
  | String _ s' => includes s' t
  end.

(** The white space of [trim] and of [parseInt] that is ASCII (TAB, LF,
    VT, FF, CR, SP). *)
Definition isWhite (c : ascii) : bool :=
  let n := nat_of_ascii c in
  ((9 <=? n) && (n <=? 13) || (n =? 32))%nat.

Fixpoint trimStart (s : string) : string :=
  match s with
  | EmptyString => EmptyString
  | String c s' => if isWhite c then trimStart s' else s
  end.

(** Drops the trailing white space: a white character is kept only when
    something that is kept follows it. *)
Fixpoint trimEnd (s : string) : string :=
  match s with
  | EmptyString => EmptyString
  | String c s' =>
      match trimEnd s' with
      | EmptyString => if isWhite c then EmptyString else String c EmptyString
      | r => String c r
      end
  end.

(** [String.prototype.trim] as it is on ASCII text. *)
Definition trim (s : string) : string := trimEnd (trimStart s).

(** [s.split(sep)] for a one-character separator: never empty. *)
Fixpoint split (sep : ascii) (s : string) : list string :=
  match s with
  | EmptyString => [EmptyString]
  | String c s' =>
      if Ascii.eqb c sep then EmptyString :: split sep s'
      else match split sep s' with
           | [] => [String c EmptyString]
           | p :: ps => String c p :: ps
           end
  end.

(** [String.prototype.toUpperCase] as it is on ASCII text.  (The
    templates use it for the label of a status, which is text of the page
    and decides nothing.) *)
Definition upperChar (c : ascii) : ascii :=
  let n := nat_of_ascii c in
  if ((97 <=? n) && (n <=? 122))%nat then ascii_of_nat (n - 32) else c.


(** [s.charAt(0).toUpperCase() + s.slice(1)]. *)
Definition capitalize (s : string) : string :=
  match s with
  | EmptyString => EmptyString
  | String c s' => String (upperChar c) s'
  end.

(** [s.replace(/\n/g, '<br>')]. *)
Fixpoint breakLines (s : string) : string :=
  match s with
  | EmptyString => EmptyString
  | String c s' =>
      if Ascii.eqb c "010"%char then "<br>" ++ breakLines s'
      else String c (breakLines s')
  end.

(** [xs[i]]: [undefined] ([None]) past the end. *)
Definition at_ (xs : list string) (i : nat) : option string := nth_error xs i.

(** [String(v)] of a string or [undefined], as a template hole prints it. *)
Definition show (v : option string) : string :=
  match v with
  | Some s => s
  | None => "undefined"
  end.

(** Decimal digits of an integer, as [String(n)] prints them. *)
Definition ofZ (n : Z) : string := NilZero.string_of_int (Z.to_int n).

(** Value of a digit in radix 10 or 16, [None] when [c] is not one. *)
Definition digitValue (radix : Z) (c : ascii) : option Z :=
  let n := Z.of_nat (nat_of_ascii c) in
  let v :=
    if (48 <=? n) && (n <=? 57) then Some (n - 48)
    else if (97 <=? n) && (n <=? 102) then Some (n - 87)
    else if (65 <=? n) && (n <=? 70) then Some (n - 55)
    else None in
  match v with
  | Some d => if d <? radix then Some d else None
  | None => None
  end.

(** Longest prefix of digits, read left to right; the flag tells whether
    one digit at least was read. *)
Fixpoint readDigits (radix : Z) (s : string) (acc : Z) (seen : bool)
  : Z * bool :=
  match s with
  | EmptyString => (acc, seen)
  | String c s' =>
      match digitValue radix c with
      | Some d => readDigits radix s' (acc * radix + d) true
      | None => (acc, seen)
      end
  end.

Definition readNumber (radix : Z) (s : string) : option Z :=
  match readDigits radix s 0 false with
  | (n, true) => Some n
  | (_, false) => None
  end.

(** [parseInt(s)] with no radix argument: leading white space, a sign,
    the prefix [0x] or [0X] for radix 16, then the longest run of digits;
    [NaN] ([None]) when there is no digit. *)
Definition parseUnsigned (s : string) : option Z :=
  match s with
  | String "0" (String "x" r) => readNumber 16 r
  | String "0" (String "X" r) => readNumber 16 r
  | _ => readNumber 10 s
  end.

Definition parseInt (s : string) : option Z :=
  match trimStart s with
  | String "-" r => option_map Z.opp (parseUnsigned r)
  | String "+" r => parseUnsigned r
  | r => parseUnsigned r
  end.

End JsString.

Import JsString.

(* ===================================================================== *)
(** ** JavaScript values as the handlers see them *)
(* ===================================================================== *)

Module Js.

(** A property read off a parsed JSON document.  [VNum] stands for a
    number (the handlers only ever look at whether it is zero); [VObject]
    for any object or array. *)
Inductive value :=
| VUndefined
| VNull
| VBool (b : bool)
| VNum (n : Z)
| VStr (s : string)
| VObject.

(** [ToBoolean]. *)
Definition truthy (v : value) : bool :=
  match v with
  | VUndefined | VNull => false
  | VBool b => b
  | VNum n => negb (n =? 0)
  | VStr s => negb (s =? "")%string
  | VObject => true
  end.

(** [typeof v === 'string']. *)
Definition isString (v : value) : bool :=
  match v with VStr _ => true | _ => false end.

(** [v === "lit"] for a string literal. *)
Definition strictEqStr (v : value) (lit : string) : bool :=
  match v with VStr s => (s =? lit)%string | _ => false end.

(** [o || d] on an optional string field: the field when it is present
    and not empty. *)
Definition orElse (o : option string) (d : string) : string :=
  match o with
  | Some s => if (s =? "")%string then d else s
  | None => d
  end.

(** What [await response.json()] yields: [null], or a value whose
    properties are read by name ([VUndefined] for a property it lacks). *)
Inductive Data :=
| DNull
| DValue (prop : string -> value).

Inductive Body :=
| BodyInvalid                 (* [response.json()] rejects *)
| BodyJson (data : Data).

(** How a [fetch] ends. *)
Inductive FetchResult :=
| NetworkError                (* the promise of [fetch] rejects *)
| Response (status : Z) (body : Body).

(** [response.ok]: the status is in the range 200-299. *)
Definition ok (status : Z) : bool := (200 <=? status) && (status <=? 299).

(** One entry of the chat transcript. *)
Record Turn := { role : string; message : value }.

(** The JSON bodies the scripts send. *)
Inductive Payload :=
| NoBody
| StatusUpdate (status admin_note : string)
| ChatTurn (message : string) (history : list Turn)
| Credentials (email password : string).

Record Request := {
  url : string;
  method : string;
  headers : list (string * string);
  body : Payload }.

(** The options of [Swal.fire]. *)
Record Dialog := {
  icon : string;
  title : string;
  text : value;
  timer : option Z;
  showConfirmButton : bool;
  confirmButtonColor : option string }.

End Js.

Import Js.

(* ===================================================================== *)
(** ** Handlers that run to completion, or throw *)
(* ===================================================================== *)

(** A handler reads and writes the script's global variables (the state
    [S]), asks the platform for effects (the events [E], in the order they
    are asked for) and either returns or throws; what it wrote and asked
    for before it threw stays. *)
Module Run.
Section Run.
Variables S E : Type.

Inductive Outcome (A : Type) :=
| Returned (a : A)
| Thrown.

Definition M (A : Type) : Type := S -> Outcome A * S * list E.

Definition ret {A} (a : A) : M A := fun s => (Returned a, s, []).

Definition bind {A B} (c : M A) (k : A -> M B) : M B :=
  fun s =>
    match c s with
    | (Returned a, s1, t1) =>
        match k a s1 with
        | (o, s2, t2) => (o, s2, (t1 ++ t2)%list)
        end
    | (Thrown _, s1, t1) => (Thrown B, s1, t1)
    end.

Definition throw {A} : M A := fun s => (Thrown A, s, []).

(** [try { c } catch (e) { h }] *)
Definition tryCatch {A} (c : M A) (h : M A) : M A :=
  fun s =>
    match c s with
    | (Returned a, s1, t1) => (Returned a, s1, t1)
    | (Thrown _, s1, t1) =>
        match h s1 with
        | (o, s2, t2) => (o, s2, (t1 ++ t2)%list)
        end
    end.

Definition emit (e : E) : M unit := fun s => (Returned tt, s, [e]).
Definition get : M S := fun s => (Returned s, s, []).
Definition put (s : S) : M unit := fun _ => (Returned tt, s, []).

Definition trace {A} (r : Outcome A * S * list E) : list E := snd r.
Definition final {A} (r : Outcome A * S * list E) : S := snd (fst r).
Definition outcome {A} (r : Outcome A * S * list E) : Outcome A :=
  fst (fst r).
End Run.

Arguments Returned {A} a.
Arguments Thrown {A}.
Arguments ret {S E A} a.
Arguments throw {S E A}.
Arguments emit {S E} e.
Arguments get {S E}.
Arguments put {S E} s.
End Run.

Declare Scope js_scope.
Delimit Scope js_scope with js.
Notation "x <- c ;; k" := (Run.bind c (fun x => k))
  (at level 61, c at next level, right associativity) : js_scope.
Notation "c ;; k" := (Run.bind c (fun _ => k))
  (at level 61, right associativity) : js_scope.

(* ===================================================================== *)
(** ** The appointment record and the rendered markup *)
(* ===================================================================== *)

(** One element of the array that [GET /appointments] returns.  The fields
    the scripts guard with [||] or [!] may be missing. *)
Record Appointment := {
  id : Z;
  student_name : string;
  student_email : option string;
  service_type : option string;
  urgency : option string;
  appointment_date : string;
  appointment_time : option string;
  reason : string;
  booking_mode : string;
  status : string;
  admin_note : option string }.

#[local] Set Warnings "-register-all".

(** The markup a template literal denotes, as the tree the browser builds
    from it.  [Interp] is a [${...}] hole in element content, inserted as it
    is; [Button f arg] is [<button onclick="f(arg)" ...>]. *)
Inductive Html :=
| Text (s : string)
| Interp (s : string)
| Elem (tag : string) (attrs : list (string * string)) (children : list Html)
| Button (handler arg : string) (attrs : list (string * string))
         (children : list Html).

(** The buttons of a piece of markup, in document order, each with the
    function it calls and its caption. *)
Fixpoint caption (h : Html) : string :=
  match h with
  | Text s => s
  | Interp s => s
  | Elem _ _ cs | Button _ _ _ cs =>
      (fix go (l : list Html) : string :=
         match l with
         | [] => ""
         | c :: l' => caption c ++ go l'
         end) cs
  end.

Fixpoint buttons (h : Html) : list (string * string) :=
  match h with
  | Text _ | Interp _ => []
  | Elem _ _ cs =>
      (fix go (l : list Html) : list (string * string) :=
         match l with
         | [] => []
         | c :: l' => (buttons c ++ go l')%list
         end) cs
  | Button f _ _ cs => [(f, caption h)]
  end.


(** *** Templates and the page *)

(** A template is a string, and the browser parses it with the values of
    its holes already in it: [innerHTML] and [insertAdjacentHTML] escape
    nothing.  The tree above is what the template denotes when no value
    holds a character that is special at the place where it is spliced;
    [inert] says so of a tree.  [parsed] is the page for values that hold
    markup of their own in element content. *)

(** [s] has none of the characters [bad]. *)
Fixpoint lacks (bad : list ascii) (s : string) : bool :=
  match s with
  | EmptyString => true
  | String c s' => negb (existsb (Ascii.eqb c) bad) && lacks bad s'
  end.

(** Text that stays text in element content: it has neither the
    less-than sign nor the ampersand. *)
Definition plainText (s : string) : bool := lacks ["<"; "&"]%char s.

(** Text that stays inside an attribute value written in double quotes. *)
Definition plainValue (s : string) : bool := lacks ["034"; "&"]%char s.

(** Text that stays inside the argument of an [onclick] written in single
    quotes, as that of [generateTicket] is; the arguments of the handlers
    written in double quotes are numbers. *)
Definition plainArgument (s : string) : bool := lacks ["'"; "&"]%char s.

(** A piece of markup without holes. *)
Fixpoint holeFree (h : Html) : bool :=
  match h with
  | Text _ => true
  | Interp _ => false
  | Elem _ _ cs | Button _ _ _ cs =>
      (fix go (l : list Html) : bool :=
         match l with
         | [] => true
         | c :: l' => holeFree c && go l'
         end) cs
  end.

(** Every value spliced into the markup is plain where it stands, and the
    captions of the buttons are free of holes. *)
Fixpoint inert (h : Html) : bool :=
  match h with
  | Text _ => true
  | Interp s => plainText s
  | Elem _ attrs cs =>
      forallb (fun kv => plainValue (snd kv)) attrs
      && (fix go (l : list Html) : bool :=
            match l with
            | [] => true
            | c :: l' => inert c && go l'
            end) cs
  | Button _ arg attrs cs =>
      plainArgument arg
      && forallb (fun kv => plainValue (snd kv)) attrs
      && holeFree h
  end.

(** A run of text nodes. *)
Definition textOnly (l : list Html) : bool :=
  forallb (fun h => match h with Text _ => true | _ => false end) l.

Section Parsed.
(** What the HTML parser makes of a text spliced into element content,
    when the markup in it is balanced: the nodes it adds to the element
    that holds the hole. *)
Variable parseText : string -> list Html.

(** The nodes a piece of the template becomes on the page. *)
Fixpoint parsed (h : Html) : list Html :=
  match h with
  | Text s => [Text s]
  | Interp s => parseText s
  | Elem tag attrs cs =>
      [ Elem tag attrs
          ((fix go (l : list Html) : list Html :=
              match l with
              | [] => []
              | c :: l' => (parsed c ++ go l')%list
              end) cs) ]
  | Button f arg attrs cs =>
      [ Button f arg attrs
          ((fix go (l : list Html) : list Html :=
              match l with
              | [] => []
              | c :: l' => (parsed c ++ go l')%list
              end) cs) ]
  end.

End Parsed.

(* ===================================================================== *)
(** ** [Array.prototype.sort] with a comparator *)
(* ===================================================================== *)

(** The sort is stable, and a comparator result that is [NaN] counts as 0.
    For a consistent comparator the sorted array is thereby determined: the
    rearrangement in which no element is followed by one that compares
    below it and elements that compare equal keep their order.  It is
    computed here by inserting each element, from the last to the first, in
    front of the first element that does not compare below it.  (For an
    inconsistent comparator the language leaves the order to the engine;
    the result is a rearrangement of the array all the same.  What is
    proved of the order is proved of records that the comparator orders
    consistently; without that premise only what holds of every
    rearrangement is stated.) *)
Section ArraySort.
Variable A : Type.
Variable comparefn : A -> A -> option Z.

Definition sortCompare (x y : A) : Z :=
  match comparefn x y with
  | Some v => v
  | None => 0
  end.

Fixpoint insertSorted (x : A) (l : list A) : list A :=
  match l with
  | [] => [x]
  | y :: l' =>
      if sortCompare x y <=? 0 then x :: y :: l'
      else y :: insertSorted x l'
  end.

Fixpoint sort (l : list A) : list A :=
  match l with
  | [] => []
  | x :: l' => insertSorted x (sort l')
  end.
End ArraySort.

(* ===================================================================== *)
(** ** admin-dashboard.js *)
(* ===================================================================== *)

Module Admin.

Definition API_URL : string := "/api".

(** The three controls [applyFiltersAndSort] reads: [#status-filter],
    [#search-input] and [#sort-order]. *)
Record FilterState := {
  statusFilter : string;
  searchInput : string;
  sortChoice : string }.

(** *** Filtering *)

Definition matchesStatus (statusFilter : string) (apt : Appointment) : bool :=
  (statusFilter =? "all")%string || (status apt =? statusFilter)%string.

Definition matchesSearch (searchTerm : string) (apt : Appointment) : bool :=
  includes (toLowerCase (student_name apt)) searchTerm.

Definition matchesType (sortChoice : string) (apt : Appointment) : bool :=
  let service := toLowerCase (orElse (service_type apt) "") in
  let urgency := toLowerCase (orElse (urgency apt) "") in
  if (sortChoice =? "clearance-urgent")%string then
    includes service "clearance"
    && ((urgency =? "urgent")%string || (urgency =? "high")%string)
  else if (sortChoice =? "consultation-urgent")%string then
    includes service "consultation"
    && ((urgency =? "urgent")%string || (urgency =? "high")%string)
  else if (sortChoice =? "clearance-normal")%string then
    includes service "clearance"
    && ((urgency =? "normal")%string || (urgency =? "low")%string)
  else if (sortChoice =? "consultation-normal")%string then
    includes service "consultation"
    && ((urgency =? "normal")%string || (urgency =? "low")%string)
  else true.

(** The callback of [allAppointments.filter]. *)
Definition keep (fs : FilterState) (apt : Appointment) : bool :=
  let searchTerm := toLowerCase (searchInput fs) in
  matchesStatus (statusFilter fs) apt
  && matchesSearch searchTerm apt
  && matchesType (sortChoice fs) apt.

(** *** Sorting *)

(** What [statusPriority[key]] evaluates to when it is not [undefined]:
    a band of the table, or a member that every object inherits (a
    function, or the prototype itself), named by its key. *)
Inductive Priority :=
| Band (n : Z)
| Inherited (key : string).

(** The property names of [Object.prototype]. *)
Definition objectPrototypeKeys : list string :=
  [ "constructor"; "__defineGetter__"; "__defineSetter__";
    "hasOwnProperty"; "__lookupGetter__"; "__lookupSetter__";
    "isPrototypeOf"; "propertyIsEnumerable"; "toString"; "valueOf";
    "__proto__"; "toLocaleString" ].

Definition isInherited (key : string) : bool :=
  existsb (String.eqb key) objectPrototypeKeys.

Definition statusPriority (key : string) : option Priority :=
  if (key =? "pending")%string then Some (Band 1)
  else if (key =? "approved")%string then Some (Band 2)
  else if (key =? "completed")%string then Some (Band 3)
  else if (key =? "rejected")%string then Some (Band 3)
  else if (key =? "canceled")%string then Some (Band 3)
  else if isInherited key then Some (Inherited key)
  else None.

(** [statusPriority[s] || 99]: the bands 1, 2, 3 and the inherited
    members are all truthy. *)
Definition priorityOf (s : string) : Priority :=
  match statusPriority s with
  | Some p => p
  | None => Band 99
  end.

(** [p !== q]: numbers by value, objects by identity. *)
Definition strictNeq (p q : Priority) : bool :=
  match p, q with
  | Band a, Band b => negb (a =? b)
  | Inherited j, Inherited k => negb (j =? k)%string
  | _, _ => true
  end.

(** [p - q]: an object converts to [NaN]. *)
Definition minus (p q : Priority) : option Z :=
  match p, q with
  | Band a, Band b => Some (a - b)
  | _, _ => None
  end.

Section WithDate.
(** The time value of [new Date(s)] in milliseconds, [None] for an
    invalid date. *)
Variable dateValue : string -> option Z.

(** [dateB - dateA] on two [Date] objects. *)
Definition dateMinus (b a : string) : option Z :=
  match dateValue b, dateValue a with
  | Some tb, Some ta => Some (tb - ta)
  | _, _ => None
  end.

(** The comparator handed to [filtered.sort]. *)
Definition comparefn (a b : Appointment) : option Z :=
  let priorityA := priorityOf (status a) in
  let priorityB := priorityOf (status b) in
  if strictNeq priorityA priorityB then minus priorityA priorityB
  else dateMinus (appointment_date b) (appointment_date a).

(** The array that [applyFiltersAndSort] hands to
    [displayAppointments]. *)
Definition applyFiltersAndSort (allAppointments : list Appointment)
    (fs : FilterState) : list Appointment :=
  let filtered := filter (keep fs) allAppointments in
  sort comparefn filtered.
End WithDate.

(** *** The time of day *)

(** [hour >= 12], false for [NaN]. *)
Definition geq12 (hour : option Z) : bool :=
  match hour with
  | Some h => 12 <=? h
  | None => false
  end.

(** [hour % 12]: the remainder has the sign of [hour]. *)
Definition mod12 (hour : option Z) : option Z :=
  option_map (fun h => Z.rem h 12) hour.

(** [hour ? hour : 12]: zero and [NaN] are falsy. *)
Definition orTwelve (hour : option Z) : Z :=
  match hour with
  | Some h => if h =? 0 then 12 else h
  | None => 12
  end.

Definition formatTime (timeStr : option string) : string :=
  match timeStr with
  | None => ""
  | Some t =>
      if (t =? "")%string then ""
      else
        let parts := split ":" t in
        let hour := parseInt (show (at_ parts 0)) in
        let minutes := at_ parts 1 in
        let ampm := if geq12 hour then "PM" else "AM" in
        let hour := mod12 hour in
        let hour := orTwelve hour in
        ofZ hour ++ ":" ++ show minutes ++ " " ++ ampm
  end.

(** *** The table of appointments *)

Section Render.
(** [new Date(d).toLocaleDateString('en-US', {month: 'short', day:
    'numeric', year: 'numeric'})]. *)
Variable toLocaleDateString : string -> string.

Definition formatDate (d : string) : string := toLocaleDateString d.

(** The row shown when there is nothing to list. *)
Definition noResults : Html :=
  Elem "tr" []
    [ Elem "td"
        [("colspan", "7"); ("style", "text-align:center; padding: 20px;")]
        [ Text "No appointments found matching these criteria." ] ].

(** One row of the table (the white space between the tags is left out). *)
Definition row (apt : Appointment) : Html :=
  let urgency := orElse (urgency apt) "Low" in
  let urgencyClass :=
    if (toLowerCase urgency =? "urgent")%string
       || (toLowerCase urgency =? "high")%string
    then "color: var(--danger); font-weight:bold;"
    else "color: var(--success);" in
  let statusLabel := capitalize (status apt) in
  let niceTime := formatTime (appointment_time apt) in
  let isAI := (booking_mode apt =? "ai_chatbot")%string in
  let modeBadge :=
    if isAI
    then [ Elem "i" [("class", "fas fa-robot"); ("title", "Booked by AI");
                     ("style", "color:#9b59b6;")] [];
           Text " AI" ]
    else [ Elem "i" [("class", "fas fa-user"); ("title", "Manual Booking");
                     ("style", "color:#7f8c8d;")] [];
           Text " Web" ] in
  Elem "tr" []
    [ Elem "td" []
        [ Interp (formatDate (appointment_date apt));
          Elem "br" [] [];
          Elem "small" [] [Interp niceTime] ];
      Elem "td" []
        [ Elem "span" [("style", "font-weight:bold")]
            [Interp (student_name apt)];
          Elem "br" [] [];
          Elem "small" [("style", "color:#666")]
            [Interp (orElse (student_email apt) "")] ];
      Elem "td" [] [Interp (orElse (service_type apt) "General")];
      Elem "td" [] [Elem "span" [("style", urgencyClass)] [Interp urgency]];
      Elem "td" []
        [ Elem "span" [("class", "status-pill " ++ status apt)]
            [Interp statusLabel] ];
      Elem "td" [("style", "text-align:center;")] modeBadge;
      Elem "td" []
        [ Elem "div" [("class", "action-buttons")]
            [ Button "openAppointmentModal" (ofZ (id apt))
                [("class", "btn-primary");
                 ("style", "padding: 5px 10px; font-size: 0.8rem;")]
                [Text "View"];
              Button "deleteAppointment" (ofZ (id apt))
                [("class", "btn-delete")]
                [Elem "i" [("class", "fas fa-trash")] []] ] ] ].

(** The children of [#appointments-list] once [displayAppointments(data)]
    has run. *)
Definition displayAppointments (data : list Appointment) : list Html :=
  if (List.length data =? 0)%nat then [noResults]
  else map row data.

(** What the table shows for a store and a state of the controls. *)
Definition render (dateValue : string -> option Z)
    (allAppointments : list Appointment) (fs : FilterState) : list Html :=
  displayAppointments (applyFiltersAndSort dateValue allAppointments fs).
End Render.

(** *** The script's variables and the parts of the page it drives *)

Record State := {
  allAppointments : list Appointment;
  currentAppointmentId : option Z;
  (** [html5QrcodeScanner] holds a scanner (it is not [null]) *)
  html5QrcodeScanner : bool;
  (** [#scan-result] *)
  scanResult : string;
  (** [style.display] of [.modal-actions], the container of the page's
      approve and reject buttons *)
  modalActionsDisplay : string;
  (** [style.display] of [#reject-form] *)
  rejectFormDisplay : string;
  (** [style.display] of [#appointment-modal] *)
  appointmentModalDisplay : string }.

Definition setScanner (b : bool) (s : State) : State :=
  {| allAppointments := allAppointments s;
     currentAppointmentId := currentAppointmentId s;
     html5QrcodeScanner := b;
     scanResult := scanResult s;
     modalActionsDisplay := modalActionsDisplay s;
     rejectFormDisplay := rejectFormDisplay s;
     appointmentModalDisplay := appointmentModalDisplay s |}.

Definition setScanResult (html : string) (s : State) : State :=
  {| allAppointments := allAppointments s;
     currentAppointmentId := currentAppointmentId s;
     html5QrcodeScanner := html5QrcodeScanner s;
     scanResult := html;
     modalActionsDisplay := modalActionsDisplay s;
     rejectFormDisplay := rejectFormDisplay s;
     appointmentModalDisplay := appointmentModalDisplay s |}.

(** *** The modal of one appointment *)

(** [allAppointments.find(a => a.id === id)] *)
Definition findById (l : list Appointment) (i : Z) : option Appointment :=
  find (fun a => id a =? i) l.

(** [openAppointmentModal(id)].  (It also writes the record's fields into
    [#appointment-details]: see [appointmentDetails]; that pane is not
    part of [State].) *)
Definition openAppointmentModal (i : Z) (s : State) : State :=
  match findById (allAppointments s) i with
  | None => s
  | Some apt =>
      {| allAppointments := allAppointments s;
         currentAppointmentId := Some i;
         html5QrcodeScanner := html5QrcodeScanner s;
         scanResult := scanResult s;
         modalActionsDisplay :=
           if negb (status apt =? "pending")%string then "none" else "flex";
         rejectFormDisplay := "none";
         appointmentModalDisplay := "flex" |}
  end.

Section Details.
(** [String.prototype.toUpperCase] *)
Variable toUpperCase : string -> string.

End Details.

(** *** The check-in scanner *)

(** What is left to run later: the function given to [.then] of a dialog
    or to [setTimeout]. *)
Inductive Callback :=
| StartScanner              (* [startScanner] *)
| ReadyThenStartScanner.    (* writes [#scan-result], then [startScanner()] *)

Inductive Event :=
| ScannerClear                  (* [html5QrcodeScanner.clear()] *)
| ScannerRender                 (* [new Html5QrcodeScanner(...).render(...)] *)
| Fetch (r : Request)
| Swal (d : Dialog) (whenClosed : option Callback)
| SetTimeout (cb : Callback) (ms : Z)
| ConsoleError.

Definition M := Run.M State Event.

Open Scope js_scope.

Definition startScanner : M unit :=
  s <- Run.get ;;
  if html5QrcodeScanner s then Run.ret tt
  else Run.put (setScanner true s) ;; Run.emit ScannerRender.

Definition stopScanner : M unit :=
  s <- Run.get ;;
  if html5QrcodeScanner s
  then Run.emit ScannerClear ;; Run.put (setScanner false s)
  else Run.ret tt.

Definition writeScanResult (html : string) : M unit :=
  s <- Run.get ;; Run.put (setScanResult html s).

(** What a pending callback does when the platform runs it. *)
Definition runCallback (cb : Callback) : M unit :=
  match cb with
  | StartScanner => startScanner
  | ReadyThenStartScanner =>
      writeScanResult "Ready for next student." ;; startScanner
  end.

(** [await fetch(url, options)] when the network answers [net]. *)
Definition fetch (r : Request) (net : FetchResult) : M (Z * Body) :=
  Run.emit (Fetch r) ;;
  match net with
  | NetworkError => Run.throw
  | Response status body => Run.ret (status, body)
  end.

(** [await response.json()] *)
Definition json (b : Body) : M Data :=
  match b with
  | BodyInvalid => Run.throw
  | BodyJson d => Run.ret d
  end.

(** [data.name]: reading a property of [null] throws. *)
Definition prop (d : Data) (name : string) : M value :=
  match d with
  | DNull => Run.throw
  | DValue p => Run.ret (p name)
  end.

(** [Swal.fire(title, text, icon)] *)
Definition alert (title : string) (text : value) (icon : string) : Dialog :=
  {| icon := icon; title := title; text := text; timer := None;
     showConfirmButton := true; confirmButtonColor := None |}.

Section WithToken.
(** [localStorage.getItem('token')], read when the script loads. *)
Variable token : string.

Definition checkInRequest (appointmentId : string) : Request :=
  {| url := API_URL ++ "/appointments/" ++ appointmentId;
     method := "PUT";
     headers := [ ("Content-Type", "application/json");
                  ("Authorization", "Bearer " ++ token) ];
     body := StatusUpdate "completed" "Verified via QR Scan" |}.

(** [onScanSuccess(decodedText, decodedResult)], the network answering
    [net] to its request. *)
Definition onScanSuccess (decodedText : string) (net : FetchResult) : M unit :=
  stopScanner ;;
  let appointmentId := decodedText in
  writeScanResult ("Processing ID: " ++ appointmentId ++ "...") ;;
  Run.tryCatch
    (response <- fetch (checkInRequest appointmentId) net ;;
     data <- json (snd response) ;;
     if ok (fst response) then
       Run.emit
         (Swal {| icon := "success"; title := "Verified!";
                  text := VStr ("Student is cleared for entry. (ID: "
                                ++ appointmentId ++ ")");
                  timer := Some 2500; showConfirmButton := false;
                  confirmButtonColor := None |}
               (Some ReadyThenStartScanner))
     else
       detail <- prop data "detail" ;;
       if strictEqStr detail "ALREADY_SCANNED"
          || strictEqStr detail "already_scanned"
       then
         Run.emit
           (Swal {| icon := "warning"; title := "ALREADY USED";
                    text := VStr "This ticket has already been scanned!";
                    timer := None; showConfirmButton := true;
                    confirmButtonColor := Some "#f39c12" |}
                 (Some StartScanner))
       else
         Run.emit
           (Swal (alert "Error"
                    (if truthy detail then detail else VStr "Server Error")
                    "error") None) ;;
         Run.emit (SetTimeout StartScanner 2000))
    (Run.emit ConsoleError ;;
     Run.emit (Swal (alert "Error" (VStr "Connection Error") "error") None) ;;
     Run.emit (SetTimeout StartScanner 2000)).
End WithToken.

Close Scope js_scope.

End Admin.

(* ===================================================================== *)
(** ** The filter of the table on any text *)
(* ===================================================================== *)

(** [Admin.matchesSearch] lowers the student's name and the search term
    with the table of the letters A to Z, which is what the platform does
    on ASCII text.  Here the filter and the pipeline are taken with the
    platform's [toLowerCase] as it is on every text: [Admin.keep] is
    [Pipeline.keep] at that table.  The category test stays
    [Admin.matchesType]: it compares the lowered text with ASCII keywords
    only. *)
Module Pipeline.
Section WithPlatform.
(** [String.prototype.toLowerCase] *)
Variable toLowerCase : string -> string.
Variable dateValue : string -> option Z.

Definition matchesSearch (searchTerm : string) (apt : Appointment) : bool :=
  includes (toLowerCase (student_name apt)) searchTerm.

(** The callback of [allAppointments.filter]. *)
Definition keep (fs : Admin.FilterState) (apt : Appointment) : bool :=
  let searchTerm := toLowerCase (Admin.searchInput fs) in
  Admin.matchesStatus (Admin.statusFilter fs) apt
  && matchesSearch searchTerm apt
  && Admin.matchesType (Admin.sortChoice fs) apt.

(** The array that [applyFiltersAndSort] hands to
    [displayAppointments]. *)
Definition applyFiltersAndSort (allAppointments : list Appointment)
    (fs : Admin.FilterState) : list Appointment :=
  let filtered := filter (keep fs) allAppointments in
  sort (Admin.comparefn dateValue) filtered.

(** What the table shows for a store and a state of the controls. *)
Definition render (toLocaleDateString : string -> string)
    (allAppointments : list Appointment) (fs : Admin.FilterState)
    : list Html :=
  Admin.displayAppointments toLocaleDateString
    (applyFiltersAndSort allAppointments fs).
End WithPlatform.
End Pipeline.

(* ===================================================================== *)
(** ** The student dashboard *)
(* ===================================================================== *)

Module Student.

Definition API_URL : string := "/api".

(** *** The list of appointments *)

(** [filterAppointments()]: the array handed to [displayAppointments] when
    [#status-filter] holds [filter]. *)
Definition filterAppointments (allAppointments : list Appointment)
    (filter : string) : list Appointment :=
  if (filter =? "all")%string then allAppointments
  else List.filter (fun apt => (status apt =? filter)%string) allAppointments.

Definition formatTime (timeStr : option string) : string :=
  match timeStr with
  | None => ""
  | Some t =>
      if (t =? "")%string then ""
      else
        let '(hours, minutes) :=
          match split ":" t with
          | [] => (None, None)
          | [h] => (Some h, None)
          | h :: m :: _ => (Some h, Some m)
          end in
        let hour := parseInt (show hours) in
        let ampm := if Admin.geq12 hour then "PM" else "AM" in
        let hour := Admin.mod12 hour in
        let hour := Admin.orTwelve hour in
        ofZ hour ++ ":" ++ show minutes ++ " " ++ ampm
  end.

Section Render.
(** [new Date(d).toDateString()] *)
Variable toDateString : string -> string.
(** [JSON.stringify(apt)] *)
Variable stringify : Appointment -> string.

(** The paragraph shown when there is nothing to list. *)
Definition noResults : Html := Elem "p" [] [Text "No appointments found"].

Definition deleteStyle : string :=
  "background-color: #ffcdd2; color: #c62828;".

Definition columnStyle : string :=
  "display:flex; flex-direction:column; gap:5px; width:100%;".

(** [actionButtonsHtml] *)
Definition actionButtonsHtml (apt : Appointment) : list Html :=
  if (status apt =? "pending")%string then
    [ Button "cancelAppointment" (ofZ (id apt)) [("class", "btn-cancel")]
        [Text "Cancel Request"] ]
  else if (status apt =? "approved")%string then
    [ Elem "div" [("style", columnStyle)]
        [ Button "generateTicket" (stringify apt)
            [("class", "btn-primary"); ("style", "background-color:#2ecc71;")]
            [Elem "i" [("class", "fas fa-download")] [];
             Text "Download Ticket"];
          Button "deleteHistory" (ofZ (id apt))
            [("class", "btn-cancel"); ("style", deleteStyle)]
            [Text "Cancel Appointment"] ] ]
  else if (status apt =? "completed")%string then
    [ Elem "div" [("style", columnStyle)]
        [ Elem "span"
            [("style",
              "color:green; font-weight:bold; text-align:left; padding:5px;")]
            [Text "Visit Completed"];
          Button "deleteHistory" (ofZ (id apt))
            [("class", "btn-cancel"); ("style", deleteStyle)]
            [Text "Delete History"] ] ]
  else
    [ Button "deleteHistory" (ofZ (id apt))
        [("class", "btn-cancel"); ("style", deleteStyle)]
        [Text "Delete History"] ].

(** [adminNoteHtml]: the note of a rejected appointment, when there is
    one. *)
Definition adminNoteHtml (apt : Appointment) : list Html :=
  match admin_note apt with
  | Some note =>
      if (status apt =? "rejected")%string && negb (note =? "")%string then
        [ Elem "div" [("class", "admin-note-box")]
            [ Elem "i" [("class", "fas fa-exclamation-circle")] [];
              Elem "strong" [] [Text "Reason for Rejection:"];
              Elem "br" [] [];
              Interp note ] ]
      else []
  | None => []
  end.

(** One card of the list (the white space between the tags is left
    out). *)
Definition card (apt : Appointment) : Html :=
  let niceDate := toDateString (appointment_date apt) in
  let niceTime := formatTime (appointment_time apt) in
  let statusLabel := capitalize (status apt) in
  let modeBadge :=
    if (booking_mode apt =? "ai_chatbot")%string
    then [ Elem "span"
             [("style",
               "font-size:0.8rem; background:#f3e5f5; color:#8e44ad; padding:2px 6px; border-radius:4px;")]
             [Elem "i" [("class", "fas fa-robot")] []; Text " AI Booking"] ]
    else [] in
  Elem "div" [("class", "appointment-card status-" ++ status apt)]
    [ Elem "div" [("class", "apt-header")]
        [ Elem "span" [("class", "apt-date")] [Interp niceDate];
          Elem "span" [("class", "status-pill " ++ status apt)]
            [Interp statusLabel] ];
      Elem "div" [("class", "apt-body")]
        ([ Elem "p" []
             ([Elem "strong" [] [Text "Time:"]; Interp niceTime] ++ modeBadge);
           Elem "p" []
             [Elem "strong" [] [Text "Service:"];
              Interp (orElse (service_type apt) "General")];
           Elem "p" []
             [Elem "strong" [] [Text "Urgency:"];
              Interp (orElse (urgency apt) "Low")];
           Elem "p" []
             [Elem "strong" [] [Text "Reason:"]; Interp (reason apt)] ]
         ++ adminNoteHtml apt);
      Elem "div" [("class", "apt-actions")] (actionButtonsHtml apt) ].

(** The children of [#appointments-list] once
    [displayAppointments(appointments)] has run. *)
Definition displayAppointments (appointments : list Appointment)
    : list Html :=
  if (List.length appointments =? 0)%nat then [noResults]
  else map card appointments.

(** What the list shows for a store and a value of [#status-filter]. *)
Definition render (allAppointments : list Appointment) (filter : string)
    : list Html :=
  displayAppointments (filterAppointments allAppointments filter).
End Render.

(** *** The chat with the assistant *)

Record State := {
  allAppointments : list Appointment;
  chatHistory : list Turn;
  (** [#chat-input], what is typed in it *)
  chatInput : string;
  (** [#chat-messages]: the sender and the markup of each bubble *)
  chatMessages : list (string * string) }.

Inductive Event :=
| Fetch (r : Request)
| LoadAppointments            (* a call of [loadAppointments()] *)
| ConsoleError.

Definition M := Run.M State Event.

Open Scope js_scope.

(** [addChatMessage(sender, message)]: [message.replace] throws unless the
    message is a string. *)
Definition addChatMessage (sender : string) (message : value) : M unit :=
  match message with
  | VStr m =>
      s <- Run.get ;;
      Run.put {| allAppointments := allAppointments s;
                 chatHistory := chatHistory s;
                 chatInput := chatInput s;
                 chatMessages :=
                   (chatMessages s ++ [(sender, breakLines m)])%list |}
  | _ => Run.throw
  end.

Definition clearInput : M unit :=
  s <- Run.get ;;
  Run.put {| allAppointments := allAppointments s;
             chatHistory := chatHistory s;
             chatInput := "";
             chatMessages := chatMessages s |}.

(** [chatHistory.push(turn)] *)
Definition push (turn : Turn) : M unit :=
  s <- Run.get ;;
  Run.put {| allAppointments := allAppointments s;
             chatHistory := (chatHistory s ++ [turn])%list;
             chatInput := chatInput s;
             chatMessages := chatMessages s |}.

(** What [await fetch(...)] yields once the network has answered [net]:
    the response, or an exception. *)
Definition settle (net : FetchResult) : M (Z * Body) :=
  match net with
  | NetworkError => Run.throw
  | Response status body => Run.ret (status, body)
  end.

Definition json (b : Body) : M Data :=
  match b with
  | BodyInvalid => Run.throw
  | BodyJson d => Run.ret d
  end.

Definition prop (d : Data) (name : string) : M value :=
  match d with
  | DNull => Run.throw
  | DValue p => Run.ret (p name)
  end.

Section WithToken.
Variable token : string.
(** [String.prototype.trim] and [String.prototype.toLowerCase], as the
    platform has them on every text. *)
Variable trim : string -> string.
Variable toLowerCase : string -> string.

(** [v.toLowerCase()]: throws unless [v] is a string. *)
Definition lowered (v : value) : M string :=
  match v with
  | VStr s => Run.ret (toLowerCase s)
  | _ => Run.throw
  end.

Definition chatRequest (message : string) (history : list Turn) : Request :=
  {| url := API_URL ++ "/chat";
     method := "POST";
     headers := [ ("Content-Type", "application/json");
                  ("Authorization", "Bearer " ++ token) ];
     body := ChatTurn message history |}.

(** [sendChatMessage()] runs in two stretches.  The first goes up to the
    call of [fetch], where the function suspends; it yields the message
    when a request was sent, and nothing when the input was blank. *)
Definition beforeAwait : M (option string) :=
  s <- Run.get ;;
  let message := trim (chatInput s) in
  if (message =? "")%string then Run.ret None
  else
    addChatMessage "user" (VStr message) ;;
    clearInput ;;
    push {| role := "user"; Js.message := VStr message |} ;;
    s1 <- Run.get ;;
    Run.emit (Fetch (chatRequest message (chatHistory s1))) ;;
    Run.ret (Some message).

(** The second stretch runs when the network has answered [net]: the rest
    of the [try] block, or the [catch] block. *)
Definition afterAwait (net : FetchResult) : M unit :=
  Run.tryCatch
    (response <- settle net ;;
     data <- json (snd response) ;;
     reply <- prop data "response" ;;
     push {| role := "model"; Js.message := reply |} ;;
     addChatMessage "bot" reply ;;
     low1 <- lowered reply ;;
     if includes low1 "booked" then Run.emit LoadAppointments
     else
       low2 <- lowered reply ;;
       if includes low2 "canceled" then Run.emit LoadAppointments
       else Run.ret tt)
    (Run.emit ConsoleError ;;
     addChatMessage "bot"
       (VStr "Sorry, I encountered an error. Please try again.")).

(** [sendChatMessage()] when nothing else runs while it waits. *)
Definition sendChatMessage (net : FetchResult) : M unit :=
  sent <- beforeAwait ;;
  match sent with
  | None => Run.ret tt
  | Some _ => afterAwait net
  end.

(** A step of a chat session: the student types [typed] and sends it, or
    the answer [net] to a request that is under way arrives. *)
Inductive Step :=
| Submit (typed : string)
| Settle (net : FetchResult).

Definition type (typed : string) : M unit :=
  s <- Run.get ;;
  Run.put {| allAppointments := allAppointments s;
             chatHistory := chatHistory s;
             chatInput := typed;
             chatMessages := chatMessages s |}.

Definition step (st : Step) : M unit :=
  match st with
  | Submit typed => type typed ;; _ <- beforeAwait ;; Run.ret tt
  | Settle net => afterAwait net
  end.

(** A session: its steps in the order they occur. *)
Fixpoint session (steps : list Step) : M unit :=
  match steps with
  | [] => Run.ret tt
  | st :: rest => step st ;; session rest
  end.
End WithToken.

Close Scope js_scope.

End Student.

(* ===================================================================== *)
(** ** login.js *)
(* ===================================================================== *)

Module Login.

Definition API_URL : string := "http://localhost:8000/api".

Inductive Event :=
| Fetch (r : Request)
| SetItem (key : string) (v : value)     (* [localStorage.setItem] *)
| Toast (d : Dialog) (redirect : option string)
| Swal (d : Dialog)
| ConsoleError.

(** The handler keeps no variable of its own between two submissions. *)
Definition M := Run.M unit Event.

Open Scope js_scope.

Definition fetch (r : Request) (net : FetchResult) : M (Z * Body) :=
  Run.emit (Fetch r) ;;
  match net with
  | NetworkError => Run.throw
  | Response status body => Run.ret (status, body)
  end.

Definition json (b : Body) : M Data :=
  match b with
  | BodyInvalid => Run.throw
  | BodyJson d => Run.ret d
  end.

Definition prop (d : Data) (name : string) : M value :=
  match d with
  | DNull => Run.throw
  | DValue p => Run.ret (p name)
  end.

Definition loginRequest (email password : string) : Request :=
  {| url := API_URL ++ "/login";
     method := "POST";
     headers := [("Content-Type", "application/json")];
     body := Credentials email password |}.

Definition invalidCredentials : string := "Invalid email or password.".
Definition invalidEmailFormat : string :=
  "Please enter a valid email address format.".
Definition cannotConnect : string := "Cannot connect to the server.".

(** The page the toast's [.then] sends the browser to. *)
Definition landing (role : value) : option string :=
  if strictEqStr role "student" then Some "student-dashboard.html"
  else if strictEqStr role "admin" || strictEqStr role "super_admin"
  then Some "admin-dashboard.html"
  else None.

(** The text of the dialog for a response that is not [ok]. *)
Definition errorText (status : Z) (data : Data) : M value :=
  let errorText := VStr invalidCredentials in
  if status =? 422 then Run.ret (VStr invalidEmailFormat)
  else
    detail <- prop data "detail" ;;
    if truthy detail && isString detail then Run.ret detail
    else Run.ret errorText.

(** The [submit] listener of [#login-form], the network answering [net]. *)
Definition submit (email password : string) (net : FetchResult) : M unit :=
  Run.tryCatch
    (response <- fetch (loginRequest email password) net ;;
     data <- json (snd response) ;;
     if ok (fst response) then
       token <- prop data "token" ;;
       Run.emit (SetItem "token" token) ;;
       role <- prop data "role" ;;
       Run.emit (SetItem "role" role) ;;
       user_id <- prop data "user_id" ;;
       Run.emit (SetItem "user_id" user_id) ;;
       full_name <- prop data "full_name" ;;
       Run.emit (SetItem "full_name"
                   (if truthy full_name then full_name else VStr "User")) ;;
       Run.emit
         (Toast {| icon := "success"; title := "Signed in successfully";
                   text := VUndefined; timer := Some 1500;
                   showConfirmButton := false; confirmButtonColor := None |}
                (landing role))
     else
       message <- errorText (fst response) data ;;
       Run.emit
         (Swal {| icon := "error"; title := "Login Failed"; text := message;
                  timer := None; showConfirmButton := true;
                  confirmButtonColor := Some "#e74c3c" |}))
    (Run.emit ConsoleError ;;
     Run.emit
       (Swal {| icon := "error"; title := "Server Error";
                text := VStr cannotConnect; timer := None;
                showConfirmButton := true;
                confirmButtonColor := Some "#e74c3c" |})).

Close Scope js_scope.

End Login.

(* ===================================================================== *)
(** ** A date parser for the examples *)
(* ===================================================================== *)

Module Calendar.

(** The days from 1970-01-01 to the day [d] of the month [m] of the year
    [y]. *)
Definition daysFromCivil (y m d : Z) : Z :=
  let y' := if m <=? 2 then y - 1 else y in
  let era := y' / 400 in
  let yoe := y' - era * 400 in
  let mp := if m <=? 2 then m + 9 else m - 3 in
  let doy := (153 * mp + 2) / 5 + d - 1 in
  let doe := yoe * 365 + yoe / 4 - yoe / 100 + doy in
  era * 146097 + doe - 719468.

Definition isLeap (y : Z) : bool :=
  ((y mod 4 =? 0) && negb (y mod 100 =? 0)) || (y mod 400 =? 0).

Definition daysInMonth (y m : Z) : Z :=
  if m =? 2 then (if isLeap y then 29 else 28)
  else if (m =? 4) || (m =? 6) || (m =? 9) || (m =? 11) then 30
  else 31.

(** A run of exactly [n] decimal digits. *)
Definition isDigit (c : ascii) : bool :=
  match digitValue 10 c with
  | Some _ => true
  | None => false
  end.

Definition fixedDigits (n : nat) (s : string) : option Z :=
  if (String.length s =? n)%nat && forallb isDigit (list_ascii_of_string s)
  then readNumber 10 s
  else None.

(** [new Date("YYYY-MM-DD")] on a calendar date: midnight UTC of that day,
    in milliseconds since 1970-01-01.  Every other string, a day that the
    month does not have included, is taken to be an invalid date here; the
    theorems hold for whatever parser the browser has, this one only feeds
    the examples, whose dates are days of the calendar. *)
Definition isoDateValue (s : string) : option Z :=
  match split "-" s with
  | [ys; ms; ds] =>
      match fixedDigits 4 ys, fixedDigits 2 ms, fixedDigits 2 ds with
      | Some y, Some m, Some d =>
          if (1 <=? m) && (m <=? 12) && (1 <=? d) && (d <=? daysInMonth y m)
          then Some (daysFromCivil y m d * 86400000)
          else None
      | _, _, _ => None
      end
  | _ => None
  end.

End Calendar.

(* ===================================================================== *)
(** ** Requests and dialogs of the other handlers *)
(* ===================================================================== *)

Module Http.

(** A call of [fetch]: the JSON body is an object of string fields, in the
    order the script writes them; [None] when the call has no body. *)
Record Call := {
  url : string;
  method : string;
  headers : list (string * string);
  fields : option (list (string * string)) }.

(** The headers of a call that carries the bearer token and a JSON body,
    and of one that carries the token alone. *)
Definition jsonAuth (token : string) : list (string * string) :=
  [ ("Content-Type", "application/json");
    ("Authorization", "Bearer " ++ token) ].

Definition auth (token : string) : list (string * string) :=
  [ ("Authorization", "Bearer " ++ token) ].

(** The options of a [Swal.fire] that asks for a confirmation. *)
Record Question := {
  qTitle : string;
  qText : string;
  qIcon : string;
  confirmButtonText : string }.

(** [Swal.fire(title, text, icon)] *)
Definition alert (title : string) (text : value) (icon : string) : Dialog :=
  {| icon := icon; title := title; text := text; timer := None;
     showConfirmButton := true; confirmButtonColor := None |}.

(** [v || d] on a property read off a response. *)
Definition orText (v : value) (d : string) : value :=
  if truthy v then v else VStr d.

End Http.

(* ===================================================================== *)
(** ** The student dashboard: booking, removal, greeting *)
(* ===================================================================== *)

Module StudentPage.

Definition API_URL : string := "/api".

(** The page-load guard: [!token || role !== 'student'] sends the browser
    back to the login page.  [None] is a key that [localStorage] lacks. *)
Definition unauthorized (token role : option string) : bool :=
  negb (truthy (match token with Some t => VStr t | None => VNull end))
  || negb (match role with Some r => (r =? "student")%string | None => false end).

(** The fields of [#booking-form]. *)
Record BookingForm := {
  bookType : string;
  bookDate : string;
  bookTime : string;
  bookUrgency : string;
  bookReason : string }.

Inductive Event :=
| Fetch (c : Http.Call)
| Swal (d : Dialog)
| Ask (q : Http.Question)
| FormReset                     (* [form.reset()] *)
| LoadAppointments              (* a call of [loadAppointments()] *)
| ConsoleError.

(** These handlers keep no variable of the script. *)
Definition M := Run.M unit Event.

Open Scope js_scope.

Definition fetch (c : Http.Call) (net : FetchResult) : M (Z * Body) :=
  Run.emit (Fetch c) ;;
  match net with
  | NetworkError => Run.throw
  | Response status body => Run.ret (status, body)
  end.

Definition json (b : Body) : M Data :=
  match b with
  | BodyInvalid => Run.throw
  | BodyJson d => Run.ret d
  end.

Definition prop (d : Data) (name : string) : M value :=
  match d with
  | DNull => Run.throw
  | DValue p => Run.ret (p name)
  end.

(** [!s] on a string. *)
Definition blank (s : string) : bool := (s =? "")%string.

(** [timeRaw.length === 5 ? timeRaw + ":00" : timeRaw] *)
Definition withSeconds (timeRaw : string) : string :=
  if (String.length timeRaw =? 5)%nat then timeRaw ++ ":00" else timeRaw.

Section WithToken.
Variable token : string.

Definition bookingCall (f : BookingForm) : Http.Call :=
  {| Http.url := API_URL ++ "/appointments";
     Http.method := "POST";
     Http.headers := Http.jsonAuth token;
     Http.fields :=
       Some [ ("appointment_date", bookDate f);
              ("appointment_time", withSeconds (bookTime f));
              ("service_type", bookType f);
              ("urgency", bookUrgency f);
              ("reason", bookReason f);
              ("booking_mode", "standard") ] |}.

(** [handleBooking(e)], the network answering [net] to its request. *)
Definition handleBooking (f : BookingForm) (net : FetchResult) : M unit :=
  let serviceType := bookType f in
  let date := bookDate f in
  let timeRaw := bookTime f in
  let urgency := bookUrgency f in
  let reason := bookReason f in
  if blank serviceType || blank date || blank timeRaw || blank reason
     || blank urgency
  then
    Run.emit (Swal (Http.alert "Missing Details"
                      (VStr "Please fill in all required fields.")
                      "warning"))
  else
    Run.tryCatch
      (response <- fetch (bookingCall f) net ;;
       data <- json (snd response) ;;
       if negb (ok (fst response)) then
         detail <- prop data "detail" ;;
         Run.emit (Swal (Http.alert "Booking Failed"
                           (Http.orText detail "Could not book appointment.")
                           "error"))
       else
         Run.emit (Swal {| icon := "success"; title := "Booked!";
                           text := VStr "Your appointment has been scheduled.";
                           timer := None; showConfirmButton := true;
                           confirmButtonColor := Some "#1E88E5" |}) ;;
         Run.emit FormReset ;;
         Run.emit LoadAppointments)
      (Run.emit ConsoleError ;;
       Run.emit (Swal (Http.alert "Error"
                         (VStr "Connection error. Please try again.")
                         "error"))).

Definition removalCall (id : Z) : Http.Call :=
  {| Http.url := API_URL ++ "/appointments/" ++ ofZ id;
     Http.method := "DELETE";
     Http.headers := Http.auth token;
     Http.fields := None |}.

(** [deleteOrCancel(id, successMsg)] *)
Definition deleteOrCancel (id : Z) (successMsg : string) (net : FetchResult)
    : M unit :=
  Run.tryCatch
    (response <- fetch (removalCall id) net ;;
     if ok (fst response) then
       Run.emit (Swal (Http.alert "Done!" (VStr successMsg) "success")) ;;
       Run.emit LoadAppointments
     else
       Run.emit (Swal (Http.alert "Error" (VStr "Failed to update.") "error")))
    (Run.emit ConsoleError ;;
     Run.emit (Swal (Http.alert "Error" (VStr "Connection failed.") "error"))).

(** [deleteHistory(id)]: [isConfirmed] is how the student answers the
    question. *)
Definition deleteHistory (id : Z) (isConfirmed : bool) (net : FetchResult)
    : M unit :=
  Run.emit (Ask {| Http.qTitle := "Are you sure?";
                   Http.qText := "You are about to remove this appointment.";
                   Http.qIcon := "warning";
                   Http.confirmButtonText := "Yes, proceed" |}) ;;
  if isConfirmed then deleteOrCancel id "Appointment removed." net
  else Run.ret tt.

(** [cancelAppointment(id)] *)
Definition cancelAppointment (id : Z) (isConfirmed : bool)
    (net : FetchResult) : M unit :=
  Run.emit (Ask {| Http.qTitle := "Cancel Request?";
                   Http.qText := "Are you sure you want to cancel?";
                   Http.qIcon := "question";
                   Http.confirmButtonText := "Yes, cancel it" |}) ;;
  if isConfirmed
  then deleteOrCancel id "Appointment canceled successfully." net
  else Run.ret tt.
End WithToken.

Close Scope js_scope.

(** *** The greeting of the assistant *)

Definition greeting : string :=
  "Hello! I'm here to help you book an appointment. Please tell me when you'd like to visit the clinic and what's the reason for your visit.".

(** [initChatbot()]: the greeting is added when [#chat-messages] has no
    child. *)
Definition initChatbot : Student.M unit :=
  Run.bind Run.get (fun s =>
    if (List.length (Student.chatMessages s) =? 0)%nat
    then Student.addChatMessage "bot" (VStr greeting)
    else Run.ret tt).

End StudentPage.

(* ===================================================================== *)
(** ** admin-dashboard.js: the page around the table *)
(* ===================================================================== *)

Module AdminPage.

Definition API_URL : string := "/api".

(** The page-load guard: [!token || (role !== 'admin' && role !==
    'super_admin')] shows "Unauthorized" and goes back to the login page. *)
Definition unauthorized (token role : option string) : bool :=
  negb (truthy (match token with Some t => VStr t | None => VNull end))
  || match role with
     | Some r => negb (r =? "admin")%string && negb (r =? "super_admin")%string
     | None => true
     end.

(** The text of [#user-role]. *)
Definition roleText (role : option string) : string :=
  match role with
  | Some r => if (r =? "super_admin")%string then "Super Admin" else "Admin"
  | None => "Admin"
  end.

(** *** The table of users *)

(** One element of the array that [GET /users] returns. *)
Record User := {
  userId : Z;
  full_name : string;
  email : string;
  role : string;
  created_at : string }.

(** The two role filters of [loadUsers]; any other value of
    [#user-role-filter] keeps every user. *)
Definition filterUsers (filter : string) (users : list User) : list User :=
  if (filter =? "student")%string then
    List.filter (fun u => (role u =? "student")%string) users
  else if (filter =? "admin")%string then
    List.filter (fun u => (role u =? "admin")%string
                          || (role u =? "super_admin")%string) users
  else users.

(** [roleColor] and [roleLabel] *)
Definition roleBadge (r : string) : string * string :=
  if (r =? "student")%string then ("green", "Student")
  else if (r =? "super_admin")%string then ("purple", "Super Admin")
  else ("blue", "Admin").

Definition noUsers : Html :=
  Elem "tr" []
    [ Elem "td" [("colspan", "5"); ("style", "text-align:center; padding: 20px;")]
        [ Text "No users found." ] ].

Section Users.
(** [new Date(d).toLocaleDateString()] *)
Variable toLocaleDate : string -> string.

Definition userRow (u : User) : Html :=
  let '(roleColor, roleLabel) := roleBadge (role u) in
  Elem "tr" []
    [ Elem "td" [] [Interp (full_name u)];
      Elem "td" [] [Interp (email u)];
      Elem "td" []
        [ Elem "span" [("style", "color: " ++ roleColor ++ "; font-weight:bold;")]
            [Interp roleLabel] ];
      Elem "td" [] [Interp (toLocaleDate (created_at u))];
      Elem "td" []
        [ Button "deleteUser" (ofZ (userId u)) [("class", "btn-delete")]
            [Elem "i" [("class", "fas fa-trash")] []] ] ].

(** The children of [#users-list] once [loadUsers] has filled it from an
    array of users; [filterElement] is the value of [#user-role-filter],
    [None] when the page has no such control. *)
Definition usersTable (filterElement : option string) (users : list User)
    : list Html :=
  let filter := match filterElement with Some v => v | None => "all" end in
  let users := filterUsers filter users in
  if (List.length users =? 0)%nat then [noUsers]
  else map userRow users.
End Users.

(** *** The variables of the script and the parts of the page *)

Record State := {
  core : Admin.State;
  (** [#status-filter], [#search-input], [#sort-order] *)
  controls : Admin.FilterState;
  (** the children of [#appointments-list] *)
  appointmentsList : list Html;
  (** the children of [#users-list] *)
  usersList : list Html;
  (** [#admin-note], what is typed in it *)
  adminNote : string;
  (** [style.display] of [#add-user-modal] *)
  addUserModalDisplay : string;
  (** the panes ([.tab-content]) whose [style.display] is not [none] *)
  shownPanes : list string;
  (** the buttons ([.tab-btn]) of class [active] *)
  activeButtons : list string }.

Definition setCore (c : Admin.State) (s : State) : State :=
  {| core := c; controls := controls s;
     appointmentsList := appointmentsList s; usersList := usersList s;
     adminNote := adminNote s; addUserModalDisplay := addUserModalDisplay s;
     shownPanes := shownPanes s; activeButtons := activeButtons s |}.

Definition setAppointmentsList (l : list Html) (s : State) : State :=
  {| core := core s; controls := controls s;
     appointmentsList := l; usersList := usersList s;
     adminNote := adminNote s; addUserModalDisplay := addUserModalDisplay s;
     shownPanes := shownPanes s; activeButtons := activeButtons s |}.

Definition setUsersList (l : list Html) (s : State) : State :=
  {| core := core s; controls := controls s;
     appointmentsList := appointmentsList s; usersList := l;
     adminNote := adminNote s; addUserModalDisplay := addUserModalDisplay s;
     shownPanes := shownPanes s; activeButtons := activeButtons s |}.

Definition setAddUserModal (d : string) (s : State) : State :=
  {| core := core s; controls := controls s;
     appointmentsList := appointmentsList s; usersList := usersList s;
     adminNote := adminNote s; addUserModalDisplay := d;
     shownPanes := shownPanes s; activeButtons := activeButtons s |}.

Definition setTabs (panes buttons : list string) (s : State) : State :=
  {| core := core s; controls := controls s;
     appointmentsList := appointmentsList s; usersList := usersList s;
     adminNote := adminNote s; addUserModalDisplay := addUserModalDisplay s;
     shownPanes := panes; activeButtons := buttons |}.

Definition setStore (store : list Appointment) (c : Admin.State)
    : Admin.State :=
  {| Admin.allAppointments := store;
     Admin.currentAppointmentId := Admin.currentAppointmentId c;
     Admin.html5QrcodeScanner := Admin.html5QrcodeScanner c;
     Admin.scanResult := Admin.scanResult c;
     Admin.modalActionsDisplay := Admin.modalActionsDisplay c;
     Admin.rejectFormDisplay := Admin.rejectFormDisplay c;
     Admin.appointmentModalDisplay := Admin.appointmentModalDisplay c |}.

Definition setAppointmentModal (d : string) (c : Admin.State) : Admin.State :=
  {| Admin.allAppointments := Admin.allAppointments c;
     Admin.currentAppointmentId := Admin.currentAppointmentId c;
     Admin.html5QrcodeScanner := Admin.html5QrcodeScanner c;
     Admin.scanResult := Admin.scanResult c;
     Admin.modalActionsDisplay := Admin.modalActionsDisplay c;
     Admin.rejectFormDisplay := Admin.rejectFormDisplay c;
     Admin.appointmentModalDisplay := d |}.

Inductive Event :=
| Core (e : Admin.Event)        (* an event of the scanner's functions *)
| Fetch (c : Http.Call)
| Swal (d : Dialog)
| Ask (q : Http.Question)
| LoadAppointments              (* a call of [loadAppointments()] *)
| LoadUsers                     (* a call of [loadUsers()] *)
| ClearStorage                  (* [localStorage.clear()] *)
| Redirect (href : string)
| ConsoleError.

Definition M := Run.M State Event.

(** A function of the scanner part, run on the page. *)
Definition lift {A : Type} (c : Admin.M A) : M A :=
  fun s =>
    match c (core s) with
    | (o, c', tr) => (o, setCore c' s, map Core tr)
    end.

Open Scope js_scope.

Definition fetch (c : Http.Call) (net : FetchResult) : M (Z * Body) :=
  Run.emit (Fetch c) ;;
  match net with
  | NetworkError => Run.throw
  | Response status body => Run.ret (status, body)
  end.

Definition json (b : Body) : M Data :=
  match b with
  | BodyInvalid => Run.throw
  | BodyJson d => Run.ret d
  end.

Definition prop (d : Data) (name : string) : M value :=
  match d with
  | DNull => Run.throw
  | DValue p => Run.ret (p name)
  end.

(** [closeModal('appointment-modal')] and [closeModal('add-user-modal')],
    the two uses the script makes of [closeModal(id)]. *)
Definition closeAppointmentModal : M unit :=
  s <- Run.get ;; Run.put (setCore (setAppointmentModal "none" (core s)) s).

Definition closeAddUserModal : M unit :=
  s <- Run.get ;; Run.put (setAddUserModal "none" s).

Definition showAddUserModal : M unit :=
  s <- Run.get ;; Run.put (setAddUserModal "flex" s).

(** [logout()] *)
Definition logout (isConfirmed : bool) : M unit :=
  Run.emit (Ask {| Http.qTitle := "Sign out?";
                   Http.qText := "You will return to the login screen.";
                   Http.qIcon := "question";
                   Http.confirmButtonText := "Yes, logout" |}) ;;
  if isConfirmed
  then Run.emit ClearStorage ;; Run.emit (Redirect "index.html")
  else Run.ret tt.

(** [${currentAppointmentId}] in a URL: [null] prints as "null". *)
Definition showId (i : option Z) : string :=
  match i with
  | Some n => ofZ n
  | None => "null"
  end.

(** What [GET /appointments] answers: not JSON, an array of records, or
    a JSON value that is no array (such a value has no [filter] that can
    be called). *)
Inductive Listing :=
| ListingInvalid
| ListingOf (items : list Appointment)
| ListingOther.

(** The page, and whether [allAppointments] holds an array: [loadAppointments]
    assigns to it whatever JSON value a 2xx response carries.  When it
    holds an array, that array is the one of [core]; when it does not, the
    array of [core] is no longer what the variable holds. *)
Record Loaded := {
  page : State;
  holdsArray : bool }.

Inductive ListResult :=
| ListNetworkError
| ListResponse (status : Z) (body : Listing).

(** What [GET /users] answers: not JSON; an array of users; a JSON value
    that is no array but has a [length] of 0 (the empty string, an object
    whose [length] is 0); any other JSON value ([null], a number, a
    boolean, a string that is not empty, an object without a [length] of
    0).  None of the values that are no array has a [filter] or a
    [forEach] that can be called. *)
Inductive UsersBody :=
| UsersInvalid
| UsersOf (items : list User)
| UsersEmptyLike
| UsersOther.

Inductive UsersResult :=
| UsersNetworkError
| UsersResponse (status : Z) (body : UsersBody).

Definition errorRow : Html :=
  Elem "tr" []
    [ Elem "td" [("colspan", "7"); ("style", "text-align:center; color:red;")]
        [ Text "Error loading data." ] ].

Section WithPlatform.
Variable token : string.
(** [String.prototype.toLowerCase] *)
Variable toLowerCase : string -> string.
Variable dateValue : string -> option Z.
Variable toLocaleDateString : string -> string.
Variable toLocaleDate : string -> string.
(** Whether the page has a pane of the given id. *)
Variable hasPane : string -> bool.

(** [applyFiltersAndSort()] on the page: the controls are read, the table
    is written; [allAppointments.filter] throws when the variable holds no
    array. *)
Definition applyFiltersAndSort : Run.M Loaded Event unit :=
  l <- Run.get ;;
  if holdsArray l then
    Run.put
      {| page :=
           setAppointmentsList
             (Pipeline.render toLowerCase dateValue toLocaleDateString
                (Admin.allAppointments (core (page l))) (controls (page l)))
             (page l);
         holdsArray := true |}
  else Run.throw.

Definition listCall : Http.Call :=
  {| Http.url := API_URL ++ "/appointments";
     Http.method := "GET";
     Http.headers := Http.auth token;
     Http.fields := None |}.

(** [loadAppointments()] *)
Definition loadAppointments (net : ListResult) : Run.M Loaded Event unit :=
  Run.tryCatch
    (Run.emit (Fetch listCall) ;;
     match net with
     | ListNetworkError => Run.throw
     | ListResponse status body =>
         if negb (ok status) then Run.throw
         else
           match body with
           | ListingInvalid => Run.throw
           | ListingOf items =>
               l <- Run.get ;;
               Run.put {| page := setCore (setStore items (core (page l)))
                                    (page l);
                          holdsArray := true |} ;;
               applyFiltersAndSort
           | ListingOther =>
               l <- Run.get ;;
               Run.put {| page := page l; holdsArray := false |} ;;
               applyFiltersAndSort
           end
     end)
    (Run.emit ConsoleError ;;
     l <- Run.get ;;
     Run.put {| page := setAppointmentsList [errorRow] (page l);
                holdsArray := holdsArray l |}).

Definition deleteCall (id : Z) : Http.Call :=
  {| Http.url := API_URL ++ "/appointments/" ++ ofZ id;
     Http.method := "DELETE";
     Http.headers := Http.auth token;
     Http.fields := None |}.

(** [deleteAppointment(id)] *)
Definition deleteAppointment (id : Z) (isConfirmed : bool)
    (net : FetchResult) : M unit :=
  Run.emit (Ask {| Http.qTitle := "Delete Record?";
                   Http.qText := "This action cannot be undone.";
                   Http.qIcon := "warning";
                   Http.confirmButtonText := "Yes, delete it" |}) ;;
  if isConfirmed then
    Run.tryCatch
      (response <- fetch (deleteCall id) net ;;
       if ok (fst response) then
         Run.emit (Swal (Http.alert "Deleted!"
                           (VStr "Record has been removed.") "success")) ;;
         Run.emit LoadAppointments
       else
         Run.emit (Swal (Http.alert "Error"
                           (VStr "Failed to delete record.") "error")))
      (Run.emit ConsoleError)
  else Run.ret tt.

Definition updateCall (id : option Z) (status note : string) : Http.Call :=
  {| Http.url := API_URL ++ "/appointments/" ++ showId id;
     Http.method := "PUT";
     Http.headers := Http.jsonAuth token;
     Http.fields := Some [("status", status); ("admin_note", note)] |}.

(** [updateAppointmentStatus(status)] *)
Definition updateAppointmentStatus (status : string) (net : FetchResult)
    : M unit :=
  s <- Run.get ;;
  let note := adminNote s in
  _ <- fetch (updateCall (Admin.currentAppointmentId (core s)) status note)
         net ;;
  closeAppointmentModal ;;
  Run.emit (Swal {| icon := "success"; title := "Updated!";
                    text := VStr ("Appointment marked as " ++ status ++ ".");
                    timer := Some 1500; showConfirmButton := false;
                    confirmButtonColor := None |}) ;;
  Run.emit LoadAppointments.

Definition usersCall : Http.Call :=
  {| Http.url := API_URL ++ "/users";
     Http.method := "GET";
     Http.headers := Http.auth token;
     Http.fields := None |}.

(** [loadUsers()]; [filterElement] is the value of [#user-role-filter].  A
    JSON answer that is not an array makes [users.filter] throw under the
    two role filters, before the table is touched.  Under any other filter
    the table is emptied first; then a value whose [length] is 0 gets the
    placeholder row, as an empty array does, and for any other value
    [users.length] or [users.forEach] throws. *)
Definition loadUsers (filterElement : option string) (net : UsersResult)
    : M unit :=
  Run.tryCatch
    (Run.emit (Fetch usersCall) ;;
     match net with
     | UsersNetworkError => Run.throw
     | UsersResponse _ UsersInvalid => Run.throw
     | UsersResponse _ (UsersOf users) =>
         s <- Run.get ;;
         Run.put (setUsersList (usersTable toLocaleDate filterElement users) s)
     | UsersResponse _ UsersEmptyLike =>
         let filter := match filterElement with Some v => v | None => "all" end in
         if (filter =? "student")%string || (filter =? "admin")%string
         then Run.throw
         else
           s <- Run.get ;; Run.put (setUsersList [] s) ;;
           s1 <- Run.get ;; Run.put (setUsersList [noUsers] s1)
     | UsersResponse _ UsersOther =>
         let filter := match filterElement with Some v => v | None => "all" end in
         if (filter =? "student")%string || (filter =? "admin")%string
         then Run.throw
         else s <- Run.get ;; Run.put (setUsersList [] s) ;; Run.throw
     end)
    (Run.emit ConsoleError).

Definition deleteUserCall (id : Z) : Http.Call :=
  {| Http.url := API_URL ++ "/users/" ++ ofZ id;
     Http.method := "DELETE";
     Http.headers := Http.auth token;
     Http.fields := None |}.

(** [deleteUser(id)] *)
Definition deleteUser (id : Z) (isConfirmed : bool) (net : FetchResult)
    : M unit :=
  Run.emit (Ask {| Http.qTitle := "Delete User?";
                   Http.qText := "This will also delete their appointments.";
                   Http.qIcon := "warning";
                   Http.confirmButtonText := "Yes, delete user" |}) ;;
  if isConfirmed then
    Run.tryCatch
      (response <- fetch (deleteUserCall id) net ;;
       if ok (fst response) then
         Run.emit (Swal (Http.alert "Deleted!"
                           (VStr "User has been removed.") "success")) ;;
         Run.emit LoadUsers
       else
         data <- json (snd response) ;;
         detail <- prop data "detail" ;;
         Run.emit (Swal (Http.alert "Error"
                           (Http.orText detail "Failed to delete user.")
                           "error")))
      (Run.emit (Swal (Http.alert "Error"
                         (VStr "Server connection error.") "error")))
  else Run.ret tt.

(** The fields of the form of [#add-user-modal]. *)
Record NewUser := {
  newFullName : string;
  newEmail : string;
  newPassword : string;
  newRole : string }.

Definition createUserCall (u : NewUser) : Http.Call :=
  {| Http.url := API_URL ++ "/admin/create-user";
     Http.method := "POST";
     Http.headers := Http.jsonAuth token;
     Http.fields :=
       Some [ ("full_name", newFullName u); ("email", newEmail u);
              ("password", newPassword u); ("role", newRole u) ] |}.

(** [handleNewUser(e)] *)
Definition handleNewUser (u : NewUser) (net : FetchResult) : M unit :=
  res <- fetch (createUserCall u) net ;;
  if ok (fst res) then
    Run.emit (Swal (Http.alert "Success"
                      (VStr "User created successfully.") "success")) ;;
    closeAddUserModal ;;
    Run.emit LoadUsers
  else
    Run.emit (Swal (Http.alert "Error"
                      (VStr "Failed to create user. Email might exist.")
                      "error")).

(** [showTab(tabName)], [clicked] being the button of the event: every
    pane is hidden and every button loses [active]; the pane
    [tabName-tab] is shown (reading its [style] throws when the page has
    no such pane) and the button becomes active; the scanner runs on the
    scanner tab only; the two lists are reloaded on their tabs. *)
Definition showTab (tabName clicked : string) : M unit :=
  s <- Run.get ;;
  Run.put (setTabs [] [] s) ;;
  (if hasPane (tabName ++ "-tab") then
     s1 <- Run.get ;; Run.put (setTabs [tabName ++ "-tab"] [] s1)
   else Run.throw) ;;
  s2 <- Run.get ;;
  Run.put (setTabs (shownPanes s2) [clicked] s2) ;;
  (if (tabName =? "scanner")%string then lift Admin.startScanner
   else lift Admin.stopScanner) ;;
  (if (tabName =? "appointments")%string then Run.emit LoadAppointments
   else Run.ret tt) ;;
  (if (tabName =? "users")%string then Run.emit LoadUsers
   else Run.ret tt).

(** What happens on the page, one thing at a time: a tab is chosen, a
    ticket is decoded (the network answering the check-in), a pending
    callback of the scan handler runs. *)
Inductive Op :=
| ShowTab (tabName clicked : string)
| Decoded (decodedText : string) (net : FetchResult)
| Fire (cb : Admin.Callback).

Definition perform (op : Op) : M unit :=
  match op with
  | ShowTab tabName clicked => showTab tabName clicked
  | Decoded decodedText net => lift (Admin.onScanSuccess token decodedText net)
  | Fire cb => lift (Admin.runCallback cb)
  end.

(** The operations in turn; one that throws ends with its own handler
    only, the next runs all the same. *)
Fixpoint performAll (ops : list Op) : M unit :=
  match ops with
  | [] => Run.ret tt
  | op :: rest =>
      Run.tryCatch (perform op) (Run.ret tt) ;; performAll rest
  end.
End WithPlatform.

Close Scope js_scope.

End AdminPage.

(* ===================================================================== *)
(** ** The registration form *)
(* ===================================================================== *)

Module Register.

Definition API_URL : string := "http://localhost:8000/api".

(** The fields of [#register-form]. *)
Record Form := {
  fullName : string;
  email : string;
  password : string;
  confirmPassword : string }.

Inductive Event :=
| Fetch (c : Http.Call)
| Swal (d : Dialog) (thenGoTo : option string).

Definition M := Run.M unit Event.

Open Scope js_scope.

Definition fetch (c : Http.Call) (net : FetchResult) : M (Z * Body) :=
  Run.emit (Fetch c) ;;
  match net with
  | NetworkError => Run.throw
  | Response status body => Run.ret (status, body)
  end.

Definition json (b : Body) : M Data :=
  match b with
  | BodyInvalid => Run.throw
  | BodyJson d => Run.ret d
  end.

Definition prop (d : Data) (name : string) : M value :=
  match d with
  | DNull => Run.throw
  | DValue p => Run.ret (p name)
  end.

Definition registerCall (f : Form) : Http.Call :=
  {| Http.url := API_URL ++ "/register";
     Http.method := "POST";
     Http.headers := [("Content-Type", "application/json")];
     Http.fields :=
       Some [ ("full_name", fullName f); ("email", email f);
              ("password", password f) ] |}.

Definition colored (icon title : string) (text : value) (color : string)
    : Dialog :=
  {| icon := icon; title := title; text := text; timer := None;
     showConfirmButton := true; confirmButtonColor := Some color |}.

(** The [submit] listener of [#register-form]. *)
Definition submit (f : Form) (net : FetchResult) : M unit :=
  if negb (password f =? confirmPassword f)%string then
    Run.emit (Swal (colored "error" "Password Mismatch"
                      (VStr "Your passwords do not match. Please try again.")
                      "#e74c3c") None)
  else
    Run.tryCatch
      (response <- fetch (registerCall f) net ;;
       data <- json (snd response) ;;
       if ok (fst response) then
         Run.emit (Swal (colored "success" "Registration Successful!"
                           (VStr "You can now login to your account.")
                           "#1E88E5") (Some "index.html"))
       else
         detail <- prop data "detail" ;;
         Run.emit (Swal (colored "warning" "Registration Failed"
                           (Http.orText detail "Something went wrong.")
                           "#e74c3c") None))
      (Run.emit (Swal (colored "error" "Connection Error"
                         (VStr "Could not connect to server. Is it running?")
                         "#e74c3c") None)).

Close Scope js_scope.

End Register.

Unset Implicit Arguments.

(* ===================================================================== *)
(** ** The words of the specification *)
(* ===================================================================== *)

(** [t] occurs in [s] when the case of letters is disregarded: some
    contiguous run of [s] is [t] up to case. *)
Definition occursIgnoringCase (t s : string) : Prop :=
  exists pre mid post,
    s = pre ++ mid ++ post /\ toLowerCase mid = toLowerCase t.

(** The four compound choices of the category selector: the keyword looked
    for in the service and the two accepted spellings of the urgency. *)
Definition categories : list (string * (string * (string * string))) :=
  [ ("clearance-urgent", ("clearance", ("urgent", "high")));
    ("consultation-urgent", ("consultation", ("urgent", "high")));
    ("clearance-normal", ("clearance", ("normal", "low")));
    ("consultation-normal", ("consultation", ("normal", "low"))) ].

(** A record is in a category: the keyword occurs in its service type up
    to case, and its urgency, in lower case, is one of the two spellings.
    A missing field counts as the empty string. *)
Definition inCategory (keyword u1 u2 : string) (apt : Appointment) : Prop :=
  occursIgnoringCase keyword (orElse (service_type apt) "")
  /\ (toLowerCase (orElse (urgency apt) "") = u1
      \/ toLowerCase (orElse (urgency apt) "") = u2).

(** The priority band of a status as the comparator of the table has it:
    the three bands of the table, and 99 for a status the table lacks. *)
Definition band (s : string) : Z :=
  if (s =? "pending")%string then 1
  else if (s =? "approved")%string then 2
  else if (s =? "completed")%string || (s =? "rejected")%string
          || (s =? "canceled")%string then 3
  else 99.

(** The band of a status in the words of the specification: every status
    other than pending and approved is in band 3. *)
Definition specBand (s : string) : Z :=
  if (s =? "pending")%string then 1
  else if (s =? "approved")%string then 2
  else 3.

(** A list is in the order of the two keys, for a given reading of the
    bands: of any two of its records, the one listed first is in a lower
    band, or in the same band with a date that is not earlier. *)
Definition inBandDateOrder (bandOf : string -> Z)
    (dateValue : string -> option Z) (out : list Appointment) : Prop :=
  forall i j a b ta tb,
    (i < j)%nat ->
    nth_error out i = Some a ->
    nth_error out j = Some b ->
    dateValue (appointment_date a) = Some ta ->
    dateValue (appointment_date b) = Some tb ->
    bandOf (status a) < bandOf (status b)
    \/ (bandOf (status a) = bandOf (status b) /\ tb <= ta).

(** A record the comparator orders consistently: its date is a valid one
    and its status does not name a member inherited by every object. *)
Definition sortable (dateValue : string -> option Z) (apt : Appointment)
    : Prop :=
  (exists t, dateValue (appointment_date apt) = Some t)
  /\ Admin.isInherited (status apt) = false.

(** [a] may stand before [b]: both dates are valid, and [a] is in a lower
    band, or in the same band with a date that is not earlier. *)
Definition mayPrecede (dateValue : string -> option Z) (a b : Appointment)
    : Prop :=
  exists ta tb,
    dateValue (appointment_date a) = Some ta
    /\ dateValue (appointment_date b) = Some tb
    /\ (band (status a) < band (status b)
        \/ (band (status a) = band (status b) /\ tb <= ta)).

(** The records of band [k] dated [t], among those the comparator orders
    consistently. *)
Definition hasKeys (dateValue : string -> option Z) (k t : Z)
    (apt : Appointment) : bool :=
  (band (status apt) =? k)
  && negb (Admin.isInherited (status apt))
  && match dateValue (appointment_date apt) with
     | Some t' => t' =? t
     | None => false
     end.

(** *** The check-in scan *)



(** The [detail] of a response, [undefined] when there is none to read. *)
Definition detailOf (body : Body) : value :=
  match body with
  | BodyJson (DValue p) => p "detail"
  | _ => VUndefined
  end.




Definition scanTimeouts (tr : list Admin.Event) : list (Admin.Callback * Z) :=
  flat_map (fun e => match e with
                     | Admin.SetTimeout cb ms => [(cb, ms)]
                     | _ => []
                     end) tr.

Definition scanDialogs (tr : list Admin.Event)
    : list (Dialog * option Admin.Callback) :=
  flat_map (fun e => match e with
                     | Admin.Swal d cb => [(d, cb)]
                     | _ => []
                     end) tr.


(** *** The login errors *)

(** The dialogs a run of the login handler shows. *)
Definition loginDialogs (tr : list Login.Event) : list Dialog :=
  flat_map (fun e => match e with Login.Swal d => [d] | _ => [] end) tr.

(** The message for a response that is not 2xx, in the words of the
    specification: the friendly one exactly for the status 422, otherwise
    the detail when it is a string, and the generic one when it is not. *)
Definition claimedLoginMessage (status : Z) (detail : value) : value :=
  if status =? 422 then VStr Login.invalidEmailFormat
  else if isString detail then detail
  else VStr Login.invalidCredentials.

(** *** The chat *)

Definition chatRequests (tr : list Student.Event) : list Request :=
  flat_map (fun e => match e with Student.Fetch r => [r] | _ => [] end) tr.

(** How many times a run calls [loadAppointments()]. *)
Definition reloads (tr : list Student.Event) : nat :=
  List.length
    (filter (fun e => match e with
                      | Student.LoadAppointments => true
                      | _ => false
                      end) tr).

(** Every character of a text is an ASCII one (a code below 128). *)
Fixpoint isAscii (s : string) : bool :=
  match s with
  | EmptyString => true
  | String c s' => (nat_of_ascii c <? 128)%nat && isAscii s'
  end.

(** A keyword, written in lower case, is in a text when case is
    disregarded, case being what the platform's lowering [lower] makes of
    it: the keyword is a contiguous run of the lowered text. *)
Definition mentions (lower : string -> string) (keyword text : string)
    : Prop :=
  exists pre post, lower text = pre ++ keyword ++ post.

(** A term matches a text when case is disregarded: the term, lowered, is
    mentioned in the text. *)
Definition matchesIgnoringCase (lower : string -> string)
    (term text : string) : Prop :=
  mentions lower (lower term) text.

(** The replies that make the second stretch reload the appointments. *)
Definition announces (lower : string -> string) (reply : value) : bool :=
  match reply with
  | VStr r => includes (lower r) "booked" || includes (lower r) "canceled"
  | _ => false
  end.

(** What a step of a session adds to the conversation: the utterance that
    is sent, which is the typed text as the platform's [trim] leaves it
    (none when that is empty), or the reply that arrives (none when the
    request fails or its answer is not a JSON value with properties). *)
Definition said (trim : string -> string) (st : Student.Step) : list Turn :=
  match st with
  | Student.Submit typed =>
      if (trim typed =? "")%string then []
      else [ {| role := "user"; message := VStr (trim typed) |} ]
  | Student.Settle (Response _ (BodyJson (DValue p))) =>
      [ {| role := "model"; message := p "response" |} ]
  | Student.Settle _ => []
  end.

(** The request of a turn as the specification has it: a POST to the chat
    end point, authorised by the token, whose body is the utterance and
    the transcript. *)
Definition turnRequest (token utterance : string) (transcript : list Turn)
    : Request :=
  {| url := "/api/chat";
     method := "POST";
     headers := [ ("Content-Type", "application/json");
                  ("Authorization", "Bearer " ++ token) ];
     body := ChatTurn utterance transcript |}.

(** The requests a session must send when every request carries the whole
    conversation so far, the utterance it sends included; [h] is the
    conversation before the session. *)
Fixpoint expectedRequests (trim : string -> string) (token : string)
    (h : list Turn) (steps : list Student.Step) : list Request :=
  match steps with
  | [] => []
  | st :: rest =>
      match st with
      | Student.Submit typed =>
          if (trim typed =? "")%string then []
          else [turnRequest token (trim typed) (h ++ said trim st)%list]
      | Student.Settle _ => []
      end ++ expectedRequests trim token (h ++ said trim st)%list rest
  end%list.

(** *** The time of day *)

(** An hour of the day written with two digits. *)
Definition twoDigits (h : Z) : string :=
  if h <? 10 then "0" ++ ofZ h else ofZ h.

(** The hour on the 12-hour clock, and the half of the day. *)
Definition hour12 (h : Z) : Z := if h mod 12 =? 0 then 12 else h mod 12.
Definition meridiem (h : Z) : string := if h <? 12 then "AM" else "PM".

(* ===================================================================== *)
(** ** Records and stores of the examples *)
(* ===================================================================== *)

Module Example.

(** A record with the given identifier, status, date, service and
    urgency. *)
Definition appointment (i : Z) (st date : string)
    (service urg : option string) : Appointment :=
  {| id := i;
     student_name := "Ana Cruz";
     student_email := Some "ana@school.edu";
     service_type := service;
     urgency := urg;
     appointment_date := date;
     appointment_time := Some "09:30:00";
     reason := "Annual check";
     booking_mode := "standard";
     status := st;
     admin_note := None |}.

Definition clearanceUrgent : Appointment :=
  appointment 7 "pending" "2024-01-10" (Some "Medical Clearance")
    (Some "Urgent").

Definition consultationUrgent : Appointment :=
  appointment 8 "pending" "2024-01-11" (Some "Medical Consultation")
    (Some "Urgent").

(** The store of the scenarios A and B. *)
Definition scenarioStore : list Appointment :=
  [ appointment 1 "pending" "2024-01-10" None None;
    appointment 2 "approved" "2024-01-12" None None;
    appointment 3 "completed" "2024-01-01" None None ].

(** A store with a status that the table of priorities lacks. *)
Definition noShowStore : list Appointment :=
  [ appointment 1 "no_show" "2024-03-01" None None;
    appointment 2 "completed" "2024-01-01" None None ].

(** Every control at rest: all statuses, no search term, no category. *)
Definition noFilter : Admin.FilterState :=
  {| Admin.statusFilter := "all";
     Admin.searchInput := "";
     Admin.sortChoice := "newest" |}.

(** Only the approved appointments. *)
Definition approvedOnly : Admin.FilterState :=
  {| Admin.statusFilter := "approved";
     Admin.searchInput := "";
     Admin.sortChoice := "newest" |}.

(** A store of two pending records of one student, of different
    services. *)
Definition mixedStore : list Appointment :=
  [ consultationUrgent; clearanceUrgent ].

(** The pending urgent clearances of a student sought as "ANA c". *)
Definition urgentClearanceOfAna : Admin.FilterState :=
  {| Admin.statusFilter := "pending";
     Admin.searchInput := "ANA c";
     Admin.sortChoice := "clearance-urgent" |}.

(** Only the rejected appointments. *)
Definition rejectedOnly : Admin.FilterState :=
  {| Admin.statusFilter := "rejected";
     Admin.searchInput := "";
     Admin.sortChoice := "newest" |}.

(** Stand-ins for the platform's date formats and for [JSON.stringify]. *)
Definition dateText (d : string) : string := d.
Definition jsonText (apt : Appointment) : string :=
  "{id:" ++ ofZ (id apt) ++ "}".

(** The admin page at rest, holding a store. *)
Definition adminState (store : list Appointment) : Admin.State :=
  {| Admin.allAppointments := store;
     Admin.currentAppointmentId := None;
     Admin.html5QrcodeScanner := true;
     Admin.scanResult := "";
     Admin.modalActionsDisplay := "";
     Admin.rejectFormDisplay := "";
     Admin.appointmentModalDisplay := "" |}.

(** A JSON object with the one property [name]. *)
Definition object (name : string) (v : value) : Data :=
  DValue (fun k => if (k =? name)%string then v else VUndefined).

(** The chat at rest, with [typed] in the input. *)
Definition chatState (typed : string) : Student.State :=
  {| Student.allAppointments := [];
     Student.chatHistory := [];
     Student.chatInput := typed;
     Student.chatMessages := [] |}.

End Example.

(* ===================================================================== *)
(** ** Words for the rest of the pages *)
(* ===================================================================== *)



(** The line feeds of a string. *)
Fixpoint lineFeeds (s : string) : nat :=
  match s with
  | EmptyString => 0%nat
  | String c s' =>
      ((if Ascii.eqb c "010"%char then 1 else 0) + lineFeeds s')%nat
  end.

(** The reply a chat answer carries, when it carries one that is a
    string. *)
Definition replyText (net : FetchResult) : option string :=
  match net with
  | Response _ (BodyJson (DValue p)) =>
      match p "response" with
      | VStr r => Some r
      | _ => None
      end
  | _ => None
  end.

Definition apology : string :=
  "Sorry, I encountered an error. Please try again.".

(** What a run of the handlers of the student page asks for. *)
Definition studentCalls (tr : list StudentPage.Event) : list Http.Call :=
  flat_map (fun e => match e with StudentPage.Fetch c => [c] | _ => [] end) tr.

Definition studentDialogs (tr : list StudentPage.Event) : list Dialog :=
  flat_map (fun e => match e with StudentPage.Swal d => [d] | _ => [] end) tr.

Definition studentReloads (tr : list StudentPage.Event) : nat :=
  List.length
    (filter (fun e => match e with
                      | StudentPage.LoadAppointments => true
                      | _ => false
                      end) tr).

Definition formResets (tr : list StudentPage.Event) : nat :=
  List.length
    (filter (fun e => match e with
                      | StudentPage.FormReset => true
                      | _ => false
                      end) tr).

(** No field of the booking form is blank. *)
Definition complete (f : StudentPage.BookingForm) : bool :=
  negb (StudentPage.blank (StudentPage.bookType f))
  && negb (StudentPage.blank (StudentPage.bookDate f))
  && negb (StudentPage.blank (StudentPage.bookTime f))
  && negb (StudentPage.blank (StudentPage.bookReason f))
  && negb (StudentPage.blank (StudentPage.bookUrgency f)).

(** A response of a 2xx status whose body is JSON. *)
Definition accepted (net : FetchResult) : bool :=
  match net with
  | Response status (BodyJson _) => ok status
  | _ => false
  end.

(** A response of a 2xx status, whatever its body. *)
Definition succeeded (net : FetchResult) : bool :=
  match net with
  | Response status _ => ok status
  | NetworkError => false
  end.

(** What a run of the handlers of the admin page asks for. *)
Definition pageCalls (tr : list AdminPage.Event) : list Http.Call :=
  flat_map (fun e => match e with AdminPage.Fetch c => [c] | _ => [] end) tr.

Definition pageDialogs (tr : list AdminPage.Event) : list Dialog :=
  flat_map (fun e => match e with AdminPage.Swal d => [d] | _ => [] end) tr.

Definition pageReloads (tr : list AdminPage.Event) : nat :=
  List.length
    (filter (fun e => match e with
                      | AdminPage.LoadAppointments => true
                      | _ => false
                      end) tr).

Definition userReloads (tr : list AdminPage.Event) : nat :=
  List.length
    (filter (fun e => match e with
                      | AdminPage.LoadUsers => true
                      | _ => false
                      end) tr).

(** The starts ([true]) and the clearings ([false]) of a scanner in a run
    of the admin page, in order. *)
Definition scannerLog (tr : list AdminPage.Event) : list bool :=
  flat_map (fun e => match e with
                     | AdminPage.Core Admin.ScannerRender => [true]
                     | AdminPage.Core Admin.ScannerClear => [false]
                     | _ => []
                     end) tr.

(** A log is orderly from a state where a scanner is held or not: a
    scanner is started only when none is held, cleared only when one is;
    the last argument tells whether one is held in the end. *)
Fixpoint orderly (held : bool) (log : list bool) (heldAfter : bool) : Prop :=
  match log with
  | [] => heldAfter = held
  | started :: rest => started = negb held /\ orderly started rest heldAfter
  end.

(** What a run of the login handler writes to [localStorage]. *)
Definition stored (tr : list Login.Event) : list (string * value) :=
  flat_map (fun e => match e with
                     | Login.SetItem k v => [(k, v)]
                     | _ => []
                     end) tr.

(** Where a run of the login handler sends the browser. *)
Definition redirects (tr : list Login.Event) : list (option string) :=
  flat_map (fun e => match e with
                     | Login.Toast _ target => [target]
                     | _ => []
                     end) tr.

Definition registerCalls (tr : list Register.Event) : list Http.Call :=
  flat_map (fun e => match e with Register.Fetch c => [c] | _ => [] end) tr.

Definition registerDialogs (tr : list Register.Event)
    : list (Dialog * option string) :=
  flat_map (fun e => match e with
                     | Register.Swal d target => [(d, target)]
                     | _ => []
                     end) tr.

(* ===================================================================== *)
(** ** Forms of the examples *)
(* ===================================================================== *)

Module Sample.

Definition booking : StudentPage.BookingForm :=
  {| StudentPage.bookType := "Medical Consultation";
     StudentPage.bookDate := "2024-02-05";
     StudentPage.bookTime := "09:30";
     StudentPage.bookUrgency := "Normal";
     StudentPage.bookReason := "Headache" |}.

Definition noReason : StudentPage.BookingForm :=
  {| StudentPage.bookType := "Medical Consultation";
     StudentPage.bookDate := "2024-02-05";
     StudentPage.bookTime := "09:30";
     StudentPage.bookUrgency := "Normal";
     StudentPage.bookReason := "" |}.

Definition registration : Register.Form :=
  {| Register.fullName := "Ana Cruz";
     Register.email := "ana@school.edu";
     Register.password := "secret";
     Register.confirmPassword := "secret" |}.

Definition mistyped : Register.Form :=
  {| Register.fullName := "Ana Cruz";
     Register.email := "ana@school.edu";
     Register.password := "secret";
     Register.confirmPassword := "secrat" |}.

Definition users : list AdminPage.User :=
  [ {| AdminPage.userId := 1; AdminPage.full_name := "Ana Cruz";
       AdminPage.email := "ana@school.edu"; AdminPage.role := "student";
       AdminPage.created_at := "2024-01-02" |};
    {| AdminPage.userId := 2; AdminPage.full_name := "Ben Diaz";
       AdminPage.email := "ben@school.edu"; AdminPage.role := "nurse";
       AdminPage.created_at := "2024-01-03" |} ].

(** The admin page at rest, holding a store, with [note] in the note box. *)
Definition page (store : list Appointment) (note : string) : AdminPage.State :=
  {| AdminPage.core := Example.adminState store;
     AdminPage.controls := Example.noFilter;
     AdminPage.appointmentsList := [];
     AdminPage.usersList := [];
     AdminPage.adminNote := note;
     AdminPage.addUserModalDisplay := "flex";
     AdminPage.shownPanes := ["appointments-tab"];
     AdminPage.activeButtons := [] |}.


(** The HTML parser on the texts of the examples: the reason of
    [markedUp] is a button, any other text of theirs is text. *)
Definition parseText (text : string) : list Html :=
  if (text =? "<button onclick=deleteHistory(7)>Delete</button>")%string
  then [Button "deleteHistory" "7" [] [Text "Delete"]]
  else [Text text].

(** A user whose name holds the markup of a button. *)
Definition markedUpUser : AdminPage.User :=
  {| AdminPage.userId := 3;
     AdminPage.full_name := "<button onclick=deleteHistory(7)>Delete</button>";
     AdminPage.email := "eve@school.edu"; AdminPage.role := "student";
     AdminPage.created_at := "2024-01-04" |}.

(** The three panes of the page of the examples. *)
Definition hasPane (paneId : string) : bool :=
  existsb (String.eqb paneId) ["appointments-tab"; "users-tab"; "scanner-tab"].

End Sample.

(* ===================================================================== *)
(** ** Words for the tables and the scanner *)
(* ===================================================================== *)

(** The calls the buttons of a piece of markup make, in document order:
    the function of each [onclick] and its argument. *)
Fixpoint onclicks (h : Html) : list (string * string) :=
  match h with
  | Text _ | Interp _ => []
  | Elem _ _ cs =>
      (fix go (l : list Html) : list (string * string) :=
         match l with
         | [] => []
         | c :: l' => (onclicks c ++ go l')%list
         end) cs
  | Button f arg _ _ => [(f, arg)]
  end.

(** What an answer to [GET /appointments] does to the store: a 2xx
    response whose body is an array replaces it; a 2xx response whose
    body is another JSON value puts that value in its place; any other
    answer leaves it as it was. *)
Inductive LoadResult :=
| Fresh (items : list Appointment)
| Lost
| Stale.

Definition loadResult (net : AdminPage.ListResult) : LoadResult :=
  match net with
  | AdminPage.ListNetworkError => Stale
  | AdminPage.ListResponse status body =>
      if ok status then
        match body with
        | AdminPage.ListingOf items => Fresh items
        | AdminPage.ListingOther => Lost
        | AdminPage.ListingInvalid => Stale
        end
      else Stale
  end.

(** The callbacks a run of the scan handler leaves pending, with a dialog
    or with a timer. *)
Definition scheduled (tr : list Admin.Event) : list Admin.Callback :=
  flat_map (fun e => match e with
                     | Admin.Swal _ (Some cb) => [cb]
                     | Admin.SetTimeout cb _ => [cb]
                     | _ => []
                     end) tr.

(** The script holds a scanner. *)
Definition holdsScanner (s : AdminPage.State) : bool :=
  Admin.html5QrcodeScanner (AdminPage.core s).

(* ===================================================================== *)
(** ** Facts about strings *)
(* ===================================================================== *)

Section StringFacts.

Lemma startsWith_iff (t s : string) :
  startsWith s t = true <-> exists post, s = t ++ post.
Proof.
  revert s. induction t as [|b t IH]; intros s; simpl.
  - split; [intros _; now exists s | intros _; destruct s; reflexivity].
  - destruct s as [|a s]; simpl.
    + split; [discriminate | intros [post H]; discriminate].
    + rewrite andb_true_iff, IH. split.
      * intros [Hab [post ->]]. apply Ascii.eqb_eq in Hab. subst.
        now exists post.
      * intros [post H]. injection H as -> ->. split.
        -- apply Ascii.eqb_refl.
        -- now exists post.
Qed.

Lemma includes_unfold (s t : string) :
  includes s t =
  startsWith s t
  || match s with
     | EmptyString => false
     | String _ s' => includes s' t
     end.
Proof. destruct s; reflexivity. Qed.

Lemma includes_iff (s t : string) :
  includes s t = true <-> exists pre post, s = pre ++ t ++ post.
Proof.
  split.
  - induction s as [|c s IH]; rewrite includes_unfold, orb_true_iff;
      intros [H|H].
    + apply startsWith_iff in H. destruct H as [post H]. now exists "", post.
    + discriminate.
    + apply startsWith_iff in H. destruct H as [post H]. now exists "", post.
    + destruct (IH H) as (pre & post & ->). now exists (String c pre), post.
  - intros (pre & post & ->). induction pre as [|c pre IH].
    + rewrite includes_unfold. apply orb_true_iff. left.
      apply startsWith_iff. now exists post.
    + rewrite includes_unfold. apply orb_true_iff. right. exact IH.
Qed.

Lemma toLowerCase_app (a b : string) :
  toLowerCase (a ++ b) = toLowerCase a ++ toLowerCase b.
Proof. induction a as [|c a IH]; simpl; [reflexivity | now rewrite IH]. Qed.

Lemma toLowerCase_split (a b s : string) :
  toLowerCase s = a ++ b ->
  exists s1 s2, s = s1 ++ s2 /\ toLowerCase s1 = a /\ toLowerCase s2 = b.
Proof.
  revert s. induction a as [|c a IH]; intros s H; simpl in H.
  - now exists "", s.
  - destruct s as [|d s]; simpl in H; [discriminate|].
    injection H as Hc Hs. destruct (IH _ Hs) as (s1 & s2 & -> & H1 & H2).
    exists (String d s1), s2. simpl. now rewrite Hc, H1.
Qed.

(** The test the scripts write, [lower(s).includes(lower(t))], is the
    occurrence of [t] in [s] up to case. *)
Lemma includes_lower_iff (s t : string) :
  includes (toLowerCase s) (toLowerCase t) = true <-> occursIgnoringCase t s.
Proof.
  rewrite includes_iff. split.
  - intros (pre & post & H).
    apply toLowerCase_split in H. destruct H as (s1 & s2 & -> & _ & H).
    apply toLowerCase_split in H. destruct H as (m & p & -> & Hm & _).
    now exists s1, m, p.
  - intros (pre & mid & post & -> & H).
    exists (toLowerCase pre), (toLowerCase post).
    now rewrite !toLowerCase_app, H.
Qed.

End StringFacts.

(* ===================================================================== *)
(** ** The category selector *)
(* ===================================================================== *)

Section Category.

(** The conjunction each branch of [matchesType] computes, for a keyword
    written in lower case. *)
Lemma category_test (keyword u1 u2 : string) (apt : Appointment) :
  toLowerCase keyword = keyword ->
  includes (toLowerCase (orElse (service_type apt) "")) keyword
  && ((toLowerCase (orElse (urgency apt) "") =? u1)%string
      || (toLowerCase (orElse (urgency apt) "") =? u2)%string) = true
  <-> inCategory keyword u1 u2 apt.
Proof.
  intros Hk. unfold inCategory.
  rewrite andb_true_iff, orb_true_iff, !String.eqb_eq.
  rewrite <- includes_lower_iff, Hk. reflexivity.
Qed.

Lemma matchesType_other (choice : string) (apt : Appointment) :
  ~ In choice (map fst categories) -> Admin.matchesType choice apt = true.
Proof.
  intros H. unfold Admin.matchesType.
  repeat match goal with
  | |- context [(choice =? ?lit)%string] =>
      destruct (String.eqb_spec choice lit) as [->|_];
      [exfalso; apply H; simpl; tauto|]
  end.
  reflexivity.
Qed.

(** C5.  Each of the four compound choices of the category selector lets a
    record through exactly when the category keyword occurs in its service
    type up to case and its urgency in lower case is one of the category's
    two spellings; every other choice lets every record through.  Under
    [clearance-urgent] a record of service "Medical Clearance" and urgency
    "Urgent" passes, one of service "Medical Consultation" and urgency
    "Urgent" does not. *)
Theorem category_choice_exact (apt : Appointment) :
  (forall choice keyword u1 u2,
      In (choice, (keyword, (u1, u2))) categories ->
      (Admin.matchesType choice apt = true <-> inCategory keyword u1 u2 apt))
  /\ (forall choice,
        ~ In choice (map fst categories) ->
        Admin.matchesType choice apt = true)
  /\ (service_type apt = Some "Medical Clearance" ->
      urgency apt = Some "Urgent" ->
      Admin.matchesType "clearance-urgent" apt = true)
  /\ (service_type apt = Some "Medical Consultation" ->
      urgency apt = Some "Urgent" ->
      Admin.matchesType "clearance-urgent" apt = false).
Proof.
  split; [|split; [|split]].
  - intros choice keyword u1 u2 Hin. simpl in Hin.
    repeat (destruct Hin as [Hin|Hin];
            [injection Hin as <- <- <- <-;
             exact (category_test _ _ _ apt eq_refl)|]).
    contradiction.
  - intros choice H. now apply matchesType_other.
  - intros Hs Hu. unfold Admin.matchesType. rewrite Hs, Hu. reflexivity.
  - intros Hs Hu. unfold Admin.matchesType. rewrite Hs, Hu. reflexivity.
Qed.

Lemma category_choice_witness :
  Admin.matchesType "clearance-urgent" Example.clearanceUrgent = true
  /\ Admin.matchesType "clearance-urgent" Example.consultationUrgent = false
  /\ inCategory "clearance" "urgent" "high" Example.clearanceUrgent.
Proof.
  split; [|split].
  - apply (proj1 (proj2 (proj2 (category_choice_exact
                                  Example.clearanceUrgent))));
      reflexivity.
  - apply (proj2 (proj2 (proj2 (category_choice_exact
                                  Example.consultationUrgent))));
      reflexivity.
  - apply (proj1 (category_choice_exact Example.clearanceUrgent)
             "clearance-urgent" "clearance" "urgent" "high").
    + simpl. tauto.
    + reflexivity.
Defined.

End Category.

(* ===================================================================== *)
(** ** Facts about the sort *)
(* ===================================================================== *)

Section SortFacts.
Variable A : Type.
Variable cmp : A -> A -> option Z.

Lemma insertSorted_perm (x : A) (l : list A) :
  Permutation (insertSorted cmp x l) (x :: l).
Proof.
  induction l as [|y l IH]; simpl.
  - apply Permutation_refl.
  - destruct (sortCompare cmp x y <=? 0).
    + apply Permutation_refl.
    + apply perm_trans with (y :: x :: l).
      * now apply perm_skip.
      * apply perm_swap.
Qed.

Lemma sort_perm (l : list A) : Permutation (sort cmp l) l.
Proof.
  induction l as [|x l IH]; simpl.
  - apply perm_nil.
  - apply perm_trans with (x :: sort cmp l).
    + apply insertSorted_perm.
    + now apply perm_skip.
Qed.

Lemma sort_In (l : list A) (x : A) : In x (sort cmp l) <-> In x l.
Proof.
  split; apply Permutation_in;
    [apply sort_perm | apply Permutation_sym, sort_perm].
Qed.

Lemma sort_length (l : list A) : length (sort cmp l) = length l.
Proof. apply Permutation_length, sort_perm. Qed.

(** The sort is stable: the elements of a class whose members do not
    compare above one another keep the order they had. *)
Lemma insertSorted_filter (p : A -> bool) (x : A) (l : list A) :
  (forall y, p x = true -> p y = true -> sortCompare cmp x y <= 0) ->
  filter p (insertSorted cmp x l) = filter p (x :: l).
Proof.
  intros Hp. induction l as [|y l IH]; [reflexivity|].
  cbn [insertSorted].
  destruct (Z.leb_spec (sortCompare cmp x y) 0) as [Hle|Hgt]; [reflexivity|].
  cbn [filter] in *. rewrite IH.
  destruct (p x) eqn:Px, (p y) eqn:Py; try reflexivity.
  specialize (Hp y eq_refl Py). lia.
Qed.

Lemma sort_stable (p : A -> bool) (l : list A) :
  (forall x y, p x = true -> p y = true -> sortCompare cmp x y <= 0) ->
  filter p (sort cmp l) = filter p l.
Proof.
  intros Hp. induction l as [|x l IH]; [reflexivity|].
  cbn [sort]. rewrite insertSorted_filter by (intros y; apply Hp).
  cbn [filter]. now rewrite IH.
Qed.

Section Consistent.
(** On the elements that satisfy [P] the comparator decides a total
    preorder [R]. *)
Variable P : A -> Prop.
Variable R : A -> A -> Prop.
Hypothesis R_compare :
  forall x y, P x -> P y -> (sortCompare cmp x y <= 0 <-> R x y).
Hypothesis R_total : forall x y, P x -> P y -> R x y \/ R y x.
Hypothesis R_trans :
  forall x y z, P x -> P y -> P z -> R x y -> R y z -> R x z.

Lemma insertSorted_sorted (x : A) (l : list A) :
  P x -> Forall P l -> StronglySorted R l ->
  StronglySorted R (insertSorted cmp x l).
Proof.
  intros Px. induction l as [|y l IH]; intros HP HS; simpl.
  - constructor; constructor.
  - inversion HP as [|? ? Py HPl]; subst.
    inversion HS as [|? ? HSl Hy]; subst.
    destruct (Z.leb_spec (sortCompare cmp x y) 0) as [Hle|Hgt].
    + constructor; [exact HS|].
      apply R_compare in Hle; trivial.
      constructor; [exact Hle|].
      rewrite Forall_forall in *. intros z Hz.
      apply R_trans with y; auto.
    + constructor; [now apply IH|].
      assert (Ryx : R y x).
      { destruct (R_total x y Px Py) as [Hxy|Hyx]; [|exact Hyx].
        apply R_compare in Hxy; trivial. lia. }
      rewrite Forall_forall in *. intros z Hz.
      apply (Permutation_in _ (insertSorted_perm x l)) in Hz.
      destruct Hz as [<-|Hz]; auto.
Qed.

Lemma sort_sorted (l : list A) :
  Forall P l -> StronglySorted R (sort cmp l).
Proof.
  induction l as [|x l IH]; intros HP; simpl.
  - constructor.
  - inversion HP; subst. apply insertSorted_sorted; auto.
    apply (Permutation_Forall (Permutation_sym (sort_perm l))). assumption.
Qed.
End Consistent.
End SortFacts.

Lemma StronglySorted_nth {A : Type} (R : A -> A -> Prop) (l : list A) :
  StronglySorted R l ->
  forall i j a b,
    (i < j)%nat -> nth_error l i = Some a -> nth_error l j = Some b ->
    R a b.
Proof.
  induction 1 as [|x l HS IH Hx]; intros i j a b Hij Hi Hj.
  - destruct i; discriminate.
  - destruct j as [|j]; [lia|]. simpl in Hj.
    destruct i as [|i]; simpl in Hi.
    + injection Hi as <-. rewrite Forall_forall in Hx.
      apply Hx. eapply nth_error_In; eassumption.
    + apply (IH i j); trivial. lia.
Qed.

(* ===================================================================== *)
(** ** The filter and sort pipeline *)
(* ===================================================================== *)

Section Pipeline.
Variable dateValue : string -> option Z.

Lemma keep_iff (fs : Admin.FilterState) (apt : Appointment) :
  Admin.keep fs apt = true <->
  (Admin.statusFilter fs = "all" \/ status apt = Admin.statusFilter fs)
  /\ occursIgnoringCase (Admin.searchInput fs) (student_name apt)
  /\ Admin.matchesType (Admin.sortChoice fs) apt = true.
Proof.
  unfold Admin.keep, Admin.matchesStatus, Admin.matchesSearch.
  rewrite !andb_true_iff, orb_true_iff, !String.eqb_eq, includes_lower_iff.
  tauto.
Qed.

(** The admin view lists exactly the records of the store that pass the
    three tests. *)
Lemma admin_listed_iff (store : list Appointment) (fs : Admin.FilterState)
    (apt : Appointment) :
  In apt (Admin.applyFiltersAndSort dateValue store fs) <->
  In apt store /\ Admin.keep fs apt = true.
Proof.
  unfold Admin.applyFiltersAndSort. rewrite sort_In. apply filter_In.
Qed.

Lemma student_listed_iff (store : list Appointment) (filter : string)
    (apt : Appointment) :
  In apt (Student.filterAppointments store filter) <->
  In apt store /\ (filter = "all" \/ status apt = filter).
Proof.
  unfold Student.filterAppointments.
  destruct (String.eqb_spec filter "all") as [->|Hne].
  - tauto.
  - rewrite filter_In, String.eqb_eq. tauto.
Qed.

(** *** The order of the admin view *)

Lemma priorityOf_band (s : string) :
  Admin.isInherited s = false -> Admin.priorityOf s = Admin.Band (band s).
Proof.
  intros H. unfold Admin.priorityOf, Admin.statusPriority, band. rewrite H.
  repeat match goal with
  | |- context [(s =? ?lit)%string] => destruct (s =? lit)%string
  end; reflexivity.
Qed.

Lemma comparefn_decides (a b : Appointment) :
  sortable dateValue a -> sortable dateValue b ->
  sortCompare (Admin.comparefn dateValue) a b <= 0
  <-> mayPrecede dateValue a b.
Proof.
  intros [[ta Ha] Ia] [[tb Hb] Ib].
  unfold sortCompare, Admin.comparefn, Admin.dateMinus.
  rewrite (priorityOf_band _ Ia), (priorityOf_band _ Ib), Ha, Hb. simpl.
  destruct (Z.eqb_spec (band (status a)) (band (status b))) as [E|N]; simpl.
  - split.
    + intros H. exists ta, tb. repeat split; trivial. right. lia.
    + intros (ta' & tb' & Ha' & Hb' & H).
      rewrite Ha in Ha'. rewrite Hb in Hb'.
      injection Ha' as <-. injection Hb' as <-. lia.
  - split.
    + intros H. exists ta, tb. repeat split; trivial. left. lia.
    + intros (ta' & tb' & _ & _ & H). lia.
Qed.

Lemma mayPrecede_total (a b : Appointment) :
  sortable dateValue a -> sortable dateValue b ->
  mayPrecede dateValue a b \/ mayPrecede dateValue b a.
Proof.
  intros [[ta Ha] _] [[tb Hb] _]. unfold mayPrecede.
  destruct (Z.lt_total (band (status a)) (band (status b))) as [H|[H|H]].
  - left. exists ta, tb. tauto.
  - destruct (Z.le_ge_cases tb ta).
    + left. exists ta, tb. tauto.
    + right. exists tb, ta. repeat split; trivial. right. split; [lia|trivial].
  - right. exists tb, ta. tauto.
Qed.

Lemma mayPrecede_trans (a b c : Appointment) :
  sortable dateValue a -> sortable dateValue b -> sortable dateValue c ->
  mayPrecede dateValue a b -> mayPrecede dateValue b c ->
  mayPrecede dateValue a c.
Proof.
  intros _ _ _ (ta & tb & Ha & Hb & H1) (tb' & tc & Hb' & Hc & H2).
  rewrite Hb in Hb'. injection Hb' as <-.
  exists ta, tc. repeat split; trivial. lia.
Qed.

(** X2.  The order of the table is stable.  When every listed record has
    a valid date and a status that names no inherited member of objects,
    so that the comparator orders the records consistently, the listed
    records of one band and one date stand in the order they have in the
    store. *)
Lemma admin_order_stable (store : list Appointment) (fs : Admin.FilterState)
    (k t : Z) :
  Forall (sortable dateValue)
    (Admin.applyFiltersAndSort dateValue store fs) ->
  filter (hasKeys dateValue k t) (Admin.applyFiltersAndSort dateValue store fs)
  = filter (hasKeys dateValue k t) (filter (Admin.keep fs) store).
Proof.
  intros _.
  unfold Admin.applyFiltersAndSort. apply sort_stable.
  intros x y Hx Hy. unfold hasKeys in Hx, Hy.
  apply andb_true_iff in Hx. destruct Hx as [Hx Tx].
  apply andb_true_iff in Hx. destruct Hx as [Bx Ix].
  apply andb_true_iff in Hy. destruct Hy as [Hy Ty].
  apply andb_true_iff in Hy. destruct Hy as [By Iy].
  apply negb_true_iff in Ix, Iy. apply Z.eqb_eq in Bx, By.
  unfold sortCompare, Admin.comparefn, Admin.dateMinus.
  rewrite (priorityOf_band _ Ix), (priorityOf_band _ Iy), Bx, By.
  cbn [Admin.strictNeq]. rewrite Z.eqb_refl. cbn [negb].
  destruct (dateValue (appointment_date x)) as [tx|]; [|discriminate].
  destruct (dateValue (appointment_date y)) as [ty|]; [|discriminate].
  apply Z.eqb_eq in Tx, Ty. lia.
Qed.

(** C2, as the code has it.  When every listed record has a valid date and
    a status that names no inherited member of objects, the admin view is
    in the order of the two keys, the bands being pending = 1, approved =
    2, completed = rejected = canceled = 3 and 99 for any other status:
    of two listed records the one in the lower band comes first, and
    within a band the one with the later date comes first.  The bands are
    the values the comparator reads. *)
Theorem admin_order (store : list Appointment) (fs : Admin.FilterState) :
  Forall (sortable dateValue)
    (Admin.applyFiltersAndSort dateValue store fs) ->
  inBandDateOrder band dateValue
    (Admin.applyFiltersAndSort dateValue store fs)
  /\ Forall (fun a => Admin.priorityOf (status a)
                      = Admin.Band (band (status a)))
       (Admin.applyFiltersAndSort dateValue store fs).
Proof.
  intros Hs. split.
  - assert (HS : StronglySorted (mayPrecede dateValue)
                   (Admin.applyFiltersAndSort dateValue store fs)).
    { unfold Admin.applyFiltersAndSort in *.
      apply sort_sorted with (P := sortable dateValue).
      - exact comparefn_decides.
      - exact mayPrecede_total.
      - exact mayPrecede_trans.
      - eapply Permutation_Forall; [apply sort_perm | exact Hs]. }
    intros i j a b ta tb Hij Hi Hj Ha Hb.
    destruct (StronglySorted_nth _ _ HS i j a b Hij Hi Hj)
      as (ta' & tb' & Ha' & Hb' & H).
    rewrite Ha in Ha'. rewrite Hb in Hb'.
    injection Ha' as <-. injection Hb' as <-. exact H.
  - apply Forall_impl with (2 := Hs).
    intros a [_ Ia]. now apply priorityOf_band.
Qed.

End Pipeline.

Section PipelineAnyText.
(** The platform's [toLowerCase]: any function on strings. *)
Variable toLowerCase : string -> string.
Variable dateValue : string -> option Z.

Lemma pipeline_keep_iff (fs : Admin.FilterState) (apt : Appointment) :
  Pipeline.keep toLowerCase fs apt = true <->
  (Admin.statusFilter fs = "all" \/ status apt = Admin.statusFilter fs)
  /\ matchesIgnoringCase toLowerCase (Admin.searchInput fs) (student_name apt)
  /\ Admin.matchesType (Admin.sortChoice fs) apt = true.
Proof.
  unfold Pipeline.keep, Admin.matchesStatus, Pipeline.matchesSearch,
    matchesIgnoringCase, mentions.
  rewrite !andb_true_iff, orb_true_iff, !String.eqb_eq, includes_iff.
  tauto.
Qed.

Lemma pipeline_listed_iff (store : list Appointment)
    (fs : Admin.FilterState) (apt : Appointment) :
  In apt (Pipeline.applyFiltersAndSort toLowerCase dateValue store fs) <->
  In apt store /\ Pipeline.keep toLowerCase fs apt = true.
Proof.
  unfold Pipeline.applyFiltersAndSort. rewrite sort_In. apply filter_In.
Qed.

(** Whether a choice of the selector is one of the four categories. *)
Lemma selected_category (choice : string) (apt : Appointment) :
  Admin.matchesType choice apt = true <->
  (forall keyword u1 u2,
      In (choice, (keyword, (u1, u2))) categories ->
      inCategory keyword u1 u2 apt).
Proof.
  split.
  - intros H keyword u1 u2 Hin.
    simpl in Hin.
    repeat (destruct Hin as [Hin|Hin];
            [injection Hin as <- <- <- <-;
             exact (proj1 (category_test _ _ _ apt eq_refl) H)|]).
    contradiction.
  - intros H. unfold Admin.matchesType.
    repeat match goal with
    | |- context [(choice =? ?lit)%string] =>
        destruct (String.eqb_spec choice lit) as [->|_];
        [apply category_test; [reflexivity|]; apply H; simpl; tauto|]
    end.
    reflexivity.
Qed.

(** On ASCII text, where the platform's lowering is the table of the
    letters A to Z, a term matches a text exactly when some run of the text
    is the term up to the case of its letters. *)
Lemma matches_ascii (term text : string) :
  (forall t, isAscii t = true -> toLowerCase t = JsString.toLowerCase t) ->
  isAscii term = true ->
  isAscii text = true ->
  matchesIgnoringCase toLowerCase term text <-> occursIgnoringCase term text.
Proof.
  intros Hl Ht Hx. unfold matchesIgnoringCase, mentions.
  rewrite (Hl term Ht), (Hl text Hx), <- includes_lower_iff.
  symmetry. apply includes_iff.
Qed.

(** At the table of the letters A to Z the pipeline is [Admin]'s. *)
Lemma pipeline_at_table (store : list Appointment) (fs : Admin.FilterState) :
  Pipeline.applyFiltersAndSort JsString.toLowerCase dateValue store fs
  = Admin.applyFiltersAndSort dateValue store fs.
Proof. reflexivity. Qed.

(** C1.  Whatever the store and the state of the controls, a record listed
    by the admin pipeline is a record of the store that passes the three
    tests: its status is the selected one unless the selection is "all";
    the search term matches the student's name, case disregarded; and it
    is in the category of the selected choice, when the choice is one of
    the four categories.  A record listed by the student filter is a
    record of the store whose status is the selected one unless the
    selection is "all".  Case is what the platform's lowering makes of
    it, on any text; on ASCII text, where that lowering is the table of
    the letters A to Z, the term matches the name exactly when some run of
    the name is the term up to the case of its letters. *)
Theorem listed_records_pass (store : list Appointment)
    (fs : Admin.FilterState) (filter : string) (apt : Appointment) :
  (In apt (Pipeline.applyFiltersAndSort toLowerCase dateValue store fs) ->
   In apt store
   /\ (Admin.statusFilter fs = "all" \/ status apt = Admin.statusFilter fs)
   /\ matchesIgnoringCase toLowerCase (Admin.searchInput fs)
        (student_name apt)
   /\ (forall keyword u1 u2,
         In (Admin.sortChoice fs, (keyword, (u1, u2))) categories ->
         inCategory keyword u1 u2 apt))
  /\ (In apt (Student.filterAppointments store filter) ->
      In apt store /\ (filter = "all" \/ status apt = filter))
  /\ ((forall t, isAscii t = true ->
                 toLowerCase t = JsString.toLowerCase t) ->
      isAscii (Admin.searchInput fs) = true ->
      isAscii (student_name apt) = true ->
      (matchesIgnoringCase toLowerCase (Admin.searchInput fs)
         (student_name apt)
       <-> occursIgnoringCase (Admin.searchInput fs) (student_name apt))).
Proof.
  split; [|split].
  - intros H. apply pipeline_listed_iff in H. destruct H as [Hin Hk].
    apply pipeline_keep_iff in Hk. destruct Hk as (Hs & Hn & Hc).
    pose proof (proj1 (selected_category _ _) Hc) as Hc'. tauto.
  - intros H. now apply student_listed_iff in H.
  - apply matches_ascii.
Qed.

(** X1.  The admin pipeline neither drops nor repeats: what it lists is a
    rearrangement of the records of the store that the filter keeps, so it
    is never longer than the store; and every record of the store that
    passes the three tests (the status, the search term matching the name
    with case disregarded as the platform's lowering has it, the category
    of the selected choice) is listed. *)
Theorem admin_lists_every_match (store : list Appointment)
    (fs : Admin.FilterState) :
  Permutation (Pipeline.applyFiltersAndSort toLowerCase dateValue store fs)
    (filter (Pipeline.keep toLowerCase fs) store)
  /\ (List.length (Pipeline.applyFiltersAndSort toLowerCase dateValue store fs)
      <= List.length store)%nat
  /\ (forall apt,
        In apt store ->
        Admin.statusFilter fs = "all" \/ status apt = Admin.statusFilter fs ->
        matchesIgnoringCase toLowerCase (Admin.searchInput fs)
          (student_name apt) ->
        (forall keyword u1 u2,
            In (Admin.sortChoice fs, (keyword, (u1, u2))) categories ->
            inCategory keyword u1 u2 apt) ->
        In apt (Pipeline.applyFiltersAndSort toLowerCase dateValue store fs)).
Proof.
  split; [apply sort_perm|]. split.
  - unfold Pipeline.applyFiltersAndSort. rewrite sort_length.
    apply filter_length_le.
  - intros apt Hin Hs Hn Hc. apply pipeline_listed_iff. split; [exact Hin|].
    apply pipeline_keep_iff. apply selected_category in Hc. tauto.
Qed.

End PipelineAnyText.

Section PipelineExamples.

Lemma listed_records_pass_witness :
  (In Example.clearanceUrgent Example.mixedStore
   /\ (Admin.statusFilter Example.urgentClearanceOfAna = "all"
       \/ status Example.clearanceUrgent
          = Admin.statusFilter Example.urgentClearanceOfAna)
   /\ matchesIgnoringCase JsString.toLowerCase "ANA c" "Ana Cruz"
   /\ inCategory "clearance" "urgent" "high" Example.clearanceUrgent)
  /\ occursIgnoringCase "ANA c" "Ana Cruz".
Proof.
  destruct (listed_records_pass JsString.toLowerCase Calendar.isoDateValue
              Example.mixedStore Example.urgentClearanceOfAna "pending"
              Example.clearanceUrgent)
    as (H & _ & A).
  destruct H as (H1 & H2 & H3 & H4).
  - vm_compute. left. reflexivity.
  - split; [|apply A; [reflexivity | reflexivity | reflexivity | exact H3]].
    split; [exact H1|]. split; [exact H2|]. split; [exact H3|].
    apply (H4 "clearance" "urgent" "high"). simpl. tauto.
Defined.

(** Scenario A: with no filter the store is listed in the order 1, 2, 3. *)
Example scenario_A :
  map id (Admin.applyFiltersAndSort Calendar.isoDateValue Example.scenarioStore
            Example.noFilter) = [1; 2; 3].
Proof. reflexivity. Qed.

(** Scenario B: the status filter "approved" lists the record 2 alone. *)
Example scenario_B :
  map id (Admin.applyFiltersAndSort Calendar.isoDateValue Example.scenarioStore
            Example.approvedOnly) = [2].
Proof. reflexivity. Qed.

Lemma admin_order_witness :
  inBandDateOrder band Calendar.isoDateValue
    (Admin.applyFiltersAndSort Calendar.isoDateValue Example.scenarioStore
       Example.noFilter)
  /\ Forall (fun a => Admin.priorityOf (status a)
                      = Admin.Band (band (status a)))
       (Admin.applyFiltersAndSort Calendar.isoDateValue Example.scenarioStore
          Example.noFilter).
Proof.
  apply (admin_order Calendar.isoDateValue Example.scenarioStore
           Example.noFilter).
  apply Forall_forall. intros x Hx.
  apply admin_listed_iff in Hx. destruct Hx as [Hx _].
  simpl in Hx.
  destruct Hx as [<-|[<-|[<-|[]]]];
    (split; [eexists; vm_compute; reflexivity | vm_compute; reflexivity]).
Defined.

(** C2, as the claim words it, fails: with every status outside pending
    and approved in one band 3, a record of status "no_show" dated 1 March
    would have to stand before a completed one dated 1 January; the
    comparator gives "no_show" the band 99 and lists it last. *)
Lemma unrecognized_status_sorts_last :
  map id (Admin.applyFiltersAndSort Calendar.isoDateValue Example.noShowStore
            Example.noFilter) = [2; 1]
  /\ ~ inBandDateOrder specBand Calendar.isoDateValue
         (Admin.applyFiltersAndSort Calendar.isoDateValue Example.noShowStore
            Example.noFilter).
Proof.
  split; [reflexivity|].
  intros H.
  specialize (H 0%nat 1%nat
                (Example.appointment 2 "completed" "2024-01-01" None None)
                (Example.appointment 1 "no_show" "2024-03-01" None None)
                1704067200000 1709251200000).
  vm_compute in H.
  destruct H as [H|[_ H]]; try reflexivity; try discriminate.
  apply H. reflexivity.
Qed.

End PipelineExamples.

(* ===================================================================== *)
(** ** Facts about the page *)
(* ===================================================================== *)

Section PageFacts.
Variable parseText : string -> list Html.

(** Induction on markup, with the children of an element at hand. *)
Lemma Html_induction (P : Html -> Prop)
    (HT : forall s, P (Text s)) (HI : forall s, P (Interp s))
    (HE : forall tag attrs cs, Forall P cs -> P (Elem tag attrs cs))
    (HB : forall f arg attrs cs, Forall P cs -> P (Button f arg attrs cs)) :
  forall h, P h.
Proof.
  fix IH 1. intros [s|s|tag attrs cs|f arg attrs cs].
  - apply HT.
  - apply HI.
  - apply HE.
    exact ((fix go (l : list Html) : Forall P l :=
              match l with
              | [] => Forall_nil P
              | c :: l' => Forall_cons c (IH c) (go l')
              end) cs).
  - apply HB.
    exact ((fix go (l : list Html) : Forall P l :=
              match l with
              | [] => Forall_nil P
              | c :: l' => Forall_cons c (IH c) (go l')
              end) cs).
Qed.


Lemma parsed_Elem (tag : string) (attrs : list (string * string))
    (cs : list Html) :
  parsed parseText (Elem tag attrs cs)
  = [Elem tag attrs (flat_map (parsed parseText) cs)].
Proof. reflexivity. Qed.

Lemma parsed_Button (f arg : string) (attrs : list (string * string))
    (cs : list Html) :
  parsed parseText (Button f arg attrs cs)
  = [Button f arg attrs (flat_map (parsed parseText) cs)].
Proof. reflexivity. Qed.


Lemma inert_children (cs : list Html) :
  (fix go (l : list Html) : bool :=
     match l with
     | [] => true
     | c :: l' => inert c && go l'
     end) cs
  = forallb inert cs.
Proof. reflexivity. Qed.



(** The parser makes text of plain text. *)
Hypothesis parse_plain :
  forall t, plainText t = true -> textOnly (parseText t) = true.



Lemma onclicks_Elem (tag : string) (attrs : list (string * string))
    (cs : list Html) :
  onclicks (Elem tag attrs cs) = flat_map onclicks cs.
Proof. reflexivity. Qed.

Lemma onclicks_textOnly (l : list Html) :
  textOnly l = true -> flat_map onclicks l = [].
Proof.
  induction l as [|h l IH]; [reflexivity|]. cbn [textOnly forallb].
  intros H. apply andb_true_iff in H. destruct H as [H1 H2].
  destruct h; try discriminate H1. cbn [flat_map onclicks]. now apply IH.
Qed.

(** Inert markup shows on the page the handlers of its template. *)
Lemma onclicks_parsed (h : Html) :
  inert h = true -> flat_map onclicks (parsed parseText h) = onclicks h.
Proof.
  induction h as [s|s|tag attrs cs IH|f arg attrs cs IH] using Html_induction;
    intros H.
  - reflexivity.
  - cbn [inert] in H. cbn [parsed onclicks]. apply onclicks_textOnly.
    now apply parse_plain.
  - rewrite parsed_Elem. cbn [flat_map]. rewrite app_nil_r, !onclicks_Elem.
    cbn [inert] in H. rewrite inert_children in H.
    apply andb_true_iff in H. destruct H as [_ H].
    induction IH as [|c cs Hc _ IHcs]; [reflexivity|].
    cbn [forallb] in H. apply andb_true_iff in H. destruct H as [H1 H2].
    cbn [flat_map]. now rewrite flat_map_app, (Hc H1), (IHcs H2).
  - rewrite parsed_Button. reflexivity.
Qed.

Lemma onclicks_page (l : list Html) :
  forallb inert l = true ->
  flat_map onclicks (flat_map (parsed parseText) l) = flat_map onclicks l.
Proof.
  induction l as [|h l IH]; [reflexivity|].
  cbn [forallb]. intros H. apply andb_true_iff in H. destruct H as [H1 H2].
  cbn [flat_map]. now rewrite flat_map_app, (onclicks_parsed _ H1), (IH H2).
Qed.

End PageFacts.

(* ===================================================================== *)
(** ** What each status offers *)
(* ===================================================================== *)

Section Actions.
Variable toLocaleDateString : string -> string.
Variable toDateString : string -> string.
Variable stringify : Appointment -> string.
Variable toUpperCase : string -> string.
Variable parseText : string -> list Html.





(* ===================================================================== *)
(** ** The empty list *)
(* ===================================================================== *)

Lemma admin_display_placeholder (data : list Appointment) :
  Admin.displayAppointments toLocaleDateString data = [Admin.noResults]
  <-> data = [].
Proof.
  unfold Admin.displayAppointments. destruct data as [|a [|b data]]; simpl.
  - tauto.
  - split; discriminate.
  - split; discriminate.
Qed.

Lemma student_display_placeholder (data : list Appointment) :
  Student.displayAppointments toDateString stringify data
  = [Student.noResults]
  <-> data = [].
Proof.
  unfold Student.displayAppointments. destruct data as [|a [|b data]]; simpl.
  - tauto.
  - split; discriminate.
  - split; discriminate.
Qed.

(** C8.  Whatever the store and the state of the controls, when the
    filtered result is empty the admin table shows the one row "No
    appointments found matching these criteria." and the student list the
    one paragraph "No appointments found"; neither container is left
    empty, and the placeholder is shown in no other case. *)
Theorem empty_result_placeholder (dateValue : string -> option Z)
    (store : list Appointment) (fs : Admin.FilterState) (filter : string) :
  (Admin.applyFiltersAndSort dateValue store fs = [] <->
   Admin.render toLocaleDateString dateValue store fs = [Admin.noResults])
  /\ (Student.filterAppointments store filter = [] <->
      Student.render toDateString stringify store filter
      = [Student.noResults])
  /\ Admin.render toLocaleDateString dateValue store fs <> []
  /\ Student.render toDateString stringify store filter <> []
  /\ caption Admin.noResults
     = "No appointments found matching these criteria."
  /\ caption Student.noResults = "No appointments found".
Proof.
  unfold Admin.render, Student.render. repeat split.
  - apply admin_display_placeholder.
  - apply admin_display_placeholder.
  - apply student_display_placeholder.
  - apply student_display_placeholder.
  - unfold Admin.displayAppointments.
    destruct (Admin.applyFiltersAndSort dateValue store fs); discriminate.
  - unfold Student.displayAppointments.
    destruct (Student.filterAppointments store filter); discriminate.
Qed.

End Actions.

(** The parser of the examples makes text of plain text. *)
Lemma sample_parse_plain (t : string) :
  plainText t = true -> textOnly (Sample.parseText t) = true.
Proof.
  intros H. unfold Sample.parseText.
  destruct (String.eqb_spec t
              "<button onclick=deleteHistory(7)>Delete</button>") as [->|_];
    [discriminate H | reflexivity].
Qed.



Lemma empty_result_placeholder_witness :
  Admin.render Example.dateText Calendar.isoDateValue Example.scenarioStore
    Example.rejectedOnly = [Admin.noResults]
  /\ Student.render Example.dateText Example.jsonText Example.scenarioStore
       "rejected" = [Student.noResults].
Proof.
  split.
  - apply (proj1 (empty_result_placeholder Example.dateText
                    Example.dateText Example.jsonText Calendar.isoDateValue
                    Example.scenarioStore Example.rejectedOnly "rejected")).
    reflexivity.
  - apply (proj1 (proj2 (empty_result_placeholder Example.dateText
                           Example.dateText Example.jsonText
                           Calendar.isoDateValue Example.scenarioStore
                           Example.rejectedOnly "rejected"))).
    reflexivity.
Defined.

(* ===================================================================== *)
(** ** The check-in scan *)
(* ===================================================================== *)

Section Scan.
Variable token : string.







End Scan.

(** Scenario D: the answer [{detail: "ALREADY_SCANNED"}] to a scan shows
    the warning once, sets no timer, and leaves the restart of the scanner
    to the closing of the warning. *)
Example scenario_D :
  let r :=
    Admin.onScanSuccess "t" "42"
      (Response 400
         (BodyJson (Example.object "detail" (VStr "ALREADY_SCANNED"))))
      (Example.adminState []) in
  map (fun d => (title (fst d), snd d)) (scanDialogs (Run.trace r))
  = [("ALREADY USED", Some Admin.StartScanner)]
  /\ scanTimeouts (Run.trace r) = []
  /\ Admin.html5QrcodeScanner (Run.final r) = false
  /\ Admin.html5QrcodeScanner
       (Run.final (Admin.runCallback Admin.StartScanner (Run.final r)))
     = true.
Proof. vm_compute. repeat split. Qed.


(* ===================================================================== *)
(** ** The login errors *)
(* ===================================================================== *)

Section LoginErrors.

Ltac run_login :=
  cbv beta iota zeta delta
    [ Run.bind Run.ret Run.throw Run.tryCatch Run.emit Run.get Run.put
      Run.outcome Run.final Run.trace fst snd app flat_map
      Login.submit Login.fetch Login.json Login.prop Login.errorText
      loginDialogs ].

(** C9, as the code has it.  A login response that is not 2xx makes the
    handler show one error dialog.  When the body is a JSON value other
    than [null], its text is the friendly message about the format of the
    address if the status is 422; otherwise the detail if the detail is a
    string that is not empty, and the generic message about the
    credentials if the detail is absent, not a string, or the empty
    string.  When the body is [null] the text is the friendly message for
    the status 422 and the connection message otherwise; when the body is
    not JSON it is the connection message. *)
Theorem login_error_message (email password : string) (status : Z)
    (body : Body) :
  ok status = false ->
  exists d,
    loginDialogs
      (Run.trace (Login.submit email password (Response status body) tt))
    = [d]
    /\ icon d = "error"
    /\ (forall p, body = BodyJson (DValue p) ->
          (status = 422 -> text d = VStr Login.invalidEmailFormat)
          /\ (status <> 422 ->
              forall s, p "detail" = VStr s -> s <> "" -> text d = VStr s)
          /\ (status <> 422 ->
              isString (p "detail") = false \/ p "detail" = VStr "" ->
              text d = VStr Login.invalidCredentials))
    /\ (body = BodyJson DNull ->
          (status = 422 -> text d = VStr Login.invalidEmailFormat)
          /\ (status <> 422 -> text d = VStr Login.cannotConnect))
    /\ (body = BodyInvalid -> text d = VStr Login.cannotConnect).
Proof.
  intros Hok.
  destruct body as [|[|p]]; run_login; rewrite ?Hok; run_login.
  - eexists. split; [reflexivity|]. split; [reflexivity|].
    repeat split; try discriminate.
  - destruct (Z.eqb_spec status 422) as [E|N]; run_login;
      (eexists; split; [reflexivity|]; split; [reflexivity|]);
      repeat split; try discriminate; try contradiction; trivial.
  - destruct (Z.eqb_spec status 422) as [E|N]; run_login.
    + eexists. split; [reflexivity|]. split; [reflexivity|].
      repeat split; try discriminate; try contradiction; trivial.
    + destruct (p "detail") as [| |b|n|s|] eqn:D;
        cbn [truthy isString andb negb]; rewrite ?andb_false_r;
        try (destruct (String.eqb_spec s "") as [->|Hs]);
        cbn [negb]; run_login;
        (eexists; split; [reflexivity|]; split; [reflexivity|]);
        (split; [|split; [split; discriminate | discriminate]]);
        intros q Hq; injection Hq as <-; rewrite D;
        (split; [contradiction|]);
        (split; [intros _ s' Hs' Hne; try discriminate;
                 injection Hs' as <-; try contradiction; reflexivity
                | intros _ [H|H]; try discriminate; try reflexivity]).
      injection H as ->. contradiction.
Qed.

End LoginErrors.

Lemma login_error_message_witness :
  exists d,
    loginDialogs
      (Run.trace (Login.submit "ana@school.edu" "secret"
                    (Response 401
                       (BodyJson (Example.object "detail"
                                    (VStr "Account is locked"))))
                    tt))
    = [d]
    /\ text d = VStr "Account is locked".
Proof.
  destruct (login_error_message "ana@school.edu" "secret" 401
              (BodyJson (Example.object "detail" (VStr "Account is locked")))
              eq_refl)
    as (d & Hd & _ & Hp & _).
  exists d. split; [exact Hd|].
  apply (proj1 (proj2 (Hp _ eq_refl))) with (s := "Account is locked");
    [discriminate | reflexivity | discriminate].
Defined.

(** C9, as the claim words it, fails twice.  A detail that is the empty
    string is a string, yet the dialog shows the generic message and not
    the detail; and a response of status 422 whose body is not JSON shows
    the connection message and not the friendly one. *)
Lemma empty_detail_shows_generic_message :
  (ok 401 = false
   /\ isString (VStr "") = true
   /\ map text
        (loginDialogs
           (Run.trace (Login.submit "ana@school.edu" "secret"
                         (Response 401
                            (BodyJson (Example.object "detail" (VStr ""))))
                         tt)))
      = [VStr Login.invalidCredentials]
   /\ map text
        (loginDialogs
           (Run.trace (Login.submit "ana@school.edu" "secret"
                         (Response 401
                            (BodyJson (Example.object "detail" (VStr ""))))
                         tt)))
      <> [claimedLoginMessage 401 (VStr "")])
  /\ (ok 422 = false
      /\ map text
           (loginDialogs
              (Run.trace (Login.submit "ana@school" "secret"
                            (Response 422 BodyInvalid) tt)))
         = [VStr Login.cannotConnect]
      /\ map text
           (loginDialogs
              (Run.trace (Login.submit "ana@school" "secret"
                            (Response 422 BodyInvalid) tt)))
         <> [claimedLoginMessage 422 (detailOf BodyInvalid)]).
Proof.
  repeat split; try reflexivity; vm_compute; discriminate.
Qed.

(* ===================================================================== *)
(** ** The chat with the assistant *)
(* ===================================================================== *)

Section Chat.
Variable token : string.
(** The platform's [trim] and [toLowerCase]: any functions on strings. *)
Variable trim : string -> string.
Variable toLowerCase : string -> string.

Ltac run_student :=
  cbv beta iota zeta delta
    [ Run.bind Run.ret Run.throw Run.tryCatch Run.emit Run.get Run.put
      Run.outcome Run.final Run.trace fst snd
      Student.sendChatMessage Student.beforeAwait Student.afterAwait
      Student.step Student.type Student.settle Student.json Student.prop
      Student.lowered Student.push Student.clearInput
      Student.addChatMessage
      Student.chatHistory Student.chatInput Student.chatMessages
      Student.allAppointments ].

(** The first stretch: nothing happens on a blank input; otherwise the
    utterance joins the conversation and the request carries the
    conversation, the utterance included. *)
Lemma beforeAwait_run (s : Student.State) :
  let m := trim (Student.chatInput s) in
  let r := Student.beforeAwait token trim s in
  if (m =? "")%string then
    r = (Run.Returned None, s, [])
  else
    Run.outcome r = Run.Returned (Some m)
    /\ Student.chatHistory (Run.final r)
       = (Student.chatHistory s
          ++ [ {| role := "user"; message := VStr m |} ])%list
    /\ Run.trace r
       = [ Student.Fetch
             (turnRequest token m
                (Student.chatHistory s
                 ++ [ {| role := "user"; message := VStr m |} ])%list) ].
Proof.
  destruct s as [a h i c]. run_student.
  destruct (trim i =? "")%string; run_student; repeat split.
Qed.

(** The second stretch: it returns, sends nothing, adds the reply to the
    conversation when the answer has one, and reloads the appointments once
    when the reply is a string that has one of the two words, not at all
    otherwise. *)
Lemma afterAwait_run (net : FetchResult) (s : Student.State) :
  let r := Student.afterAwait toLowerCase net s in
  Run.outcome r = Run.Returned tt
  /\ Student.chatHistory (Run.final r)
     = (Student.chatHistory s ++ said trim (Student.Settle net))%list
  /\ chatRequests (Run.trace r) = []
  /\ reloads (Run.trace r)
     = match net with
       | Response _ (BodyJson (DValue p)) =>
           if announces toLowerCase (p "response") then 1%nat else 0%nat
       | _ => 0%nat
       end.
Proof.
  destruct s as [a h i c].
  destruct net as [|status [|[|p]]]; run_student; simpl;
    rewrite ?app_nil_r; try (repeat split; fail).
  destruct (p "response") as [| |b|n|r|]; run_student; simpl;
    try (repeat split; fail).
  destruct (includes (toLowerCase r) "booked"); run_student; simpl;
    try (repeat split; fail).
  destruct (includes (toLowerCase r) "canceled"); run_student; simpl;
    repeat split.
Qed.

Lemma announces_iff (r : string) :
  announces toLowerCase (VStr r) = true
  <-> mentions toLowerCase "booked" r \/ mentions toLowerCase "canceled" r.
Proof.
  unfold announces, mentions. rewrite orb_true_iff, !includes_iff.
  reflexivity.
Qed.

(** On ASCII text, where the platform's lowering is the table of the
    letters A to Z, a keyword is mentioned exactly when some run of the
    text is the keyword up to the case of its letters. *)
Lemma mentions_ascii (keyword r : string) :
  (forall t, isAscii t = true -> toLowerCase t = JsString.toLowerCase t) ->
  isAscii r = true ->
  JsString.toLowerCase keyword = keyword ->
  mentions toLowerCase keyword r <-> occursIgnoringCase keyword r.
Proof.
  intros Hl Hr Hk. unfold mentions. rewrite (Hl r Hr).
  rewrite <- includes_lower_iff, Hk. symmetry. apply includes_iff.
Qed.

Lemma reloads_app (t1 t2 : list Student.Event) :
  reloads (t1 ++ t2) = (reloads t1 + reloads t2)%nat.
Proof. unfold reloads. now rewrite filter_app, length_app. Qed.

Lemma chatRequests_app (t1 t2 : list Student.Event) :
  chatRequests (t1 ++ t2) = (chatRequests t1 ++ chatRequests t2)%list.
Proof. unfold chatRequests. apply flat_map_app. Qed.

(** The whole handler on an input that is not blank: the first stretch,
    then the second from the state the first leaves. *)
Lemma sendChatMessage_run (net : FetchResult) (s : Student.State) :
  trim (Student.chatInput s) <> "" ->
  Run.trace (Student.sendChatMessage token trim toLowerCase net s)
  = (Run.trace (Student.beforeAwait token trim s)
     ++ Run.trace (Student.afterAwait toLowerCase net
                     (Run.final (Student.beforeAwait token trim s))))%list.
Proof.
  intros Hm. pose proof (beforeAwait_run s) as H. cbv zeta in H.
  destruct (String.eqb_spec (trim (Student.chatInput s)) "") as [E|_];
    [contradiction|].
  destruct H as (Ho & _ & _).
  unfold Student.sendChatMessage, Run.bind.
  destruct (Student.beforeAwait token trim s) as [[o s1] t1].
  unfold Run.outcome in Ho. simpl in Ho. subst o.
  unfold Run.final, Run.trace. simpl.
  destruct (Student.afterAwait toLowerCase net s1) as [[o2 s2] t2].
  reflexivity.
Qed.

(** C6.  When a reply of the assistant is received (the input was not
    blank, the answer is a JSON value whose [response] is the string
    [reply]), the handler calls [loadAppointments] exactly once if the
    reply mentions "booked" or "canceled", case disregarded, and not at
    all if it mentions neither.  Case is what the platform's lowering
    makes of it, on any text; on ASCII text, where that lowering is the
    table of the letters A to Z, a keyword is mentioned exactly when some
    run of the reply is the keyword up to the case of its letters. *)
Theorem reload_on_keyword (s : Student.State) (status : Z)
    (p : string -> value) (reply : string) :
  trim (Student.chatInput s) <> "" ->
  p "response" = VStr reply ->
  (mentions toLowerCase "booked" reply
   \/ mentions toLowerCase "canceled" reply ->
   reloads
     (Run.trace
        (Student.sendChatMessage token trim toLowerCase
           (Response status (BodyJson (DValue p))) s)) = 1%nat)
  /\ (~ mentions toLowerCase "booked" reply
      /\ ~ mentions toLowerCase "canceled" reply ->
      reloads
        (Run.trace
           (Student.sendChatMessage token trim toLowerCase
              (Response status (BodyJson (DValue p))) s)) = 0%nat)
  /\ ((forall t, isAscii t = true ->
                 toLowerCase t = JsString.toLowerCase t) ->
      isAscii reply = true ->
      (mentions toLowerCase "booked" reply
       <-> occursIgnoringCase "booked" reply)
      /\ (mentions toLowerCase "canceled" reply
          <-> occursIgnoringCase "canceled" reply)).
Proof.
  intros Hm Hp.
  split; [|split];
    [| | intros Hl Hr; split; apply mentions_ascii; trivial].
  all: rewrite (sendChatMessage_run _ _ Hm), reloads_app.
  all: pose proof (beforeAwait_run s) as H; cbv zeta in H.
  all: destruct (String.eqb_spec (trim (Student.chatInput s)) "") as [E|_];
    [contradiction|].
  all: destruct H as (_ & _ & ->).
  all: destruct (afterAwait_run (Response status (BodyJson (DValue p)))
                   (Run.final (Student.beforeAwait token trim s)))
    as (_ & _ & _ & ->).
  all: rewrite Hp.
  all: destruct (announces toLowerCase (VStr reply)) eqn:A.
  - reflexivity.
  - intros H. apply announces_iff in H. congruence.
  - intros [N1 N2]. apply announces_iff in A. tauto.
  - reflexivity.
Qed.

(** *** The conversation *)

Lemma step_run (st : Student.Step) (s : Student.State) :
  Run.outcome (Student.step token trim toLowerCase st s) = Run.Returned tt
  /\ Student.chatHistory (Run.final (Student.step token trim toLowerCase st s))
     = (Student.chatHistory s ++ said trim st)%list
  /\ chatRequests (Run.trace (Student.step token trim toLowerCase st s))
     = expectedRequests trim token (Student.chatHistory s) [st].
Proof.
  destruct st as [typed|net].
  - destruct s as [a h i c]. run_student. simpl.
    destruct (trim typed =? "")%string; run_student; simpl;
      rewrite ?app_nil_r; repeat split.
  - destruct (afterAwait_run net s) as (Ho & Hh & Hr & _).
    simpl. repeat split; assumption.
Qed.

(** C7.  Over any session (utterances sent and answers arriving, in any
    order) the conversation kept by the script is the conversation it had
    before followed by every utterance and every reply of the session in
    the order of the steps, nothing of it being dropped or moved; and the
    requests sent are, one for each utterance and in their order, a POST
    to [/api/chat] whose body is that utterance and the whole conversation
    so far, the utterance included.  An utterance is the typed text as the
    platform's [trim] leaves it, whatever that function does; a text it
    leaves empty is no utterance. *)
Theorem transcript_discipline (steps : list Student.Step)
    (s : Student.State) :
  Run.outcome (Student.session token trim toLowerCase steps s)
  = Run.Returned tt
  /\ Student.chatHistory
       (Run.final (Student.session token trim toLowerCase steps s))
     = (Student.chatHistory s ++ flat_map (said trim) steps)%list
  /\ chatRequests
       (Run.trace (Student.session token trim toLowerCase steps s))
     = expectedRequests trim token (Student.chatHistory s) steps.
Proof.
  revert s. induction steps as [|st steps IH]; intros s.
  - simpl. rewrite app_nil_r. repeat split.
  - destruct (step_run st s) as (Ho & Hh & Hr).
    cbn [Student.session]. unfold Run.bind.
    destruct (Student.step token trim toLowerCase st s) as [[o s1] t1].
    unfold Run.outcome, Run.final, Run.trace in Ho, Hh, Hr.
    simpl in Ho, Hh, Hr. subst o.
    destruct (IH s1) as (Ho2 & Hh2 & Hr2).
    destruct (Student.session token trim toLowerCase steps s1)
      as [[o2 s2] t2].
    unfold Run.outcome, Run.final, Run.trace in *. simpl in *.
    rewrite chatRequests_app, Hr, Hr2, Hh2, Hh, app_nil_r, <- app_assoc.
    repeat split. exact Ho2.
Qed.

End Chat.

Lemma reload_on_keyword_witness :
  reloads
    (Run.trace
       (Student.sendChatMessage "t" JsString.trim JsString.toLowerCase
          (Response 200
             (BodyJson
                (Example.object "response"
                   (VStr "Done: your appointment has been BOOKED."))))
          (Example.chatState "Book me a visit on Monday"))) = 1%nat
  /\ reloads
       (Run.trace
          (Student.sendChatMessage "t" JsString.trim JsString.toLowerCase
             (Response 200
                (BodyJson
                   (Example.object "response"
                      (VStr "Which day would suit you?"))))
             (Example.chatState "Book me a visit on Monday"))) = 0%nat
  /\ occursIgnoringCase "booked" "Done: your appointment has been BOOKED.".
Proof.
  split; [|split].
  - apply (proj1 (reload_on_keyword "t" JsString.trim JsString.toLowerCase
                    (Example.chatState "Book me a visit on Monday") 200
                    (fun k => if (k =? "response")%string
                              then VStr "Done: your appointment has been BOOKED."
                              else VUndefined)
                    "Done: your appointment has been BOOKED."
                    ltac:(vm_compute; discriminate) eq_refl)).
    left. exists "done: your appointment has been ", ".". reflexivity.
  - apply (proj1 (proj2
             (reload_on_keyword "t" JsString.trim JsString.toLowerCase
                (Example.chatState "Book me a visit on Monday") 200
                (fun k => if (k =? "response")%string
                          then VStr "Which day would suit you?"
                          else VUndefined)
                "Which day would suit you?"
                ltac:(vm_compute; discriminate) eq_refl))).
    split; intros H; apply includes_iff in H; vm_compute in H;
      discriminate H.
  - apply (proj1 (proj2 (proj2
             (reload_on_keyword "t" JsString.trim JsString.toLowerCase
                (Example.chatState "Book me a visit on Monday") 200
                (fun k => if (k =? "response")%string
                          then VStr "Done: your appointment has been BOOKED."
                          else VUndefined)
                "Done: your appointment has been BOOKED."
                ltac:(vm_compute; discriminate) eq_refl))
             ltac:(reflexivity) ltac:(reflexivity))).
    exists "done: your appointment has been ", ".". reflexivity.
Defined.

(** Two utterances sent before the first answer arrives, then a reply and
    a failure: the conversation keeps the order of the steps, and the
    second request carries both utterances. *)
Example overlapping_turns :
  let steps :=
    [ Student.Submit "Hello";
      Student.Submit " Monday at nine ";
      Student.Settle
        (Response 200 (BodyJson (Example.object "response" (VStr "Hi!"))));
      Student.Settle NetworkError ] in
  let r :=
    Student.session "t" JsString.trim JsString.toLowerCase steps
      (Example.chatState "") in
  Student.chatHistory (Run.final r)
  = [ {| role := "user"; message := VStr "Hello" |};
      {| role := "user"; message := VStr "Monday at nine" |};
      {| role := "model"; message := VStr "Hi!" |} ]
  /\ map body (chatRequests (Run.trace r))
     = [ ChatTurn "Hello" [ {| role := "user"; message := VStr "Hello" |} ];
         ChatTurn "Monday at nine"
           [ {| role := "user"; message := VStr "Hello" |};
             {| role := "user"; message := VStr "Monday at nine" |} ] ].
Proof. vm_compute. split; reflexivity. Qed.

(* ===================================================================== *)
(** ** The two time formats *)
(* ===================================================================== *)

Section TimeFormat.

Lemma startsWith_empty (s : string) : startsWith s "" = true.
Proof. destruct s; reflexivity. Qed.

Lemma no_colon_cons (c : ascii) (s : string) :
  includes (String c s) ":" = false ->
  Ascii.eqb c ":" = false /\ includes s ":" = false.
Proof.
  rewrite includes_unfold. simpl. rewrite startsWith_empty, andb_true_r.
  apply orb_false_elim.
Qed.

Lemma split_colon (a b : string) :
  includes a ":" = false ->
  split ":" (a ++ String ":" b) = a :: split ":" b.
Proof.
  induction a as [|c a IH]; intros H.
  - reflexivity.
  - apply no_colon_cons in H. destruct H as [Hc Ha].
    simpl. rewrite Hc, (IH Ha). reflexivity.
Qed.

Lemma split_no_colon (a : string) :
  includes a ":" = false -> split ":" a = [a].
Proof.
  induction a as [|c a IH]; intros H.
  - reflexivity.
  - apply no_colon_cons in H. destruct H as [Hc Ha].
    simpl. rewrite Hc, (IH Ha). reflexivity.
Qed.

Lemma append_empty_r (s : string) : s ++ "" = s.
Proof. induction s as [|c s IH]; simpl; [reflexivity | now rewrite IH]. Qed.

(** The minutes are the second piece, whether or not seconds follow. *)
Lemma minutes_piece (hh mm rest : string) :
  includes hh ":" = false ->
  includes mm ":" = false ->
  rest = "" \/ (exists ss, rest = ":" ++ ss) ->
  exists more, split ":" (hh ++ ":" ++ mm ++ rest) = hh :: mm :: more.
Proof.
  intros Hh Hm Hr.
  change (hh ++ ":" ++ mm ++ rest) with (hh ++ String ":" (mm ++ rest)).
  rewrite (split_colon _ _ Hh).
  destruct Hr as [->|[ss ->]].
  - rewrite append_empty_r, (split_no_colon _ Hm). now exists [].
  - change (mm ++ ":" ++ ss) with (mm ++ String ":" ss).
    rewrite (split_colon _ _ Hm). now exists (split ":" ss).
Qed.

Lemma hours_of_day (h : Z) :
  0 <= h < 24 ->
  includes (twoDigits h) ":" = false
  /\ (twoDigits h =? "")%string = false
  /\ parseInt (twoDigits h) = Some h.
Proof.
  intros H.
  assert (C : h = 0 \/ h = 1 \/ h = 2 \/ h = 3 \/ h = 4 \/ h = 5 \/ h = 6
              \/ h = 7 \/ h = 8 \/ h = 9 \/ h = 10 \/ h = 11 \/ h = 12
              \/ h = 13 \/ h = 14 \/ h = 15 \/ h = 16 \/ h = 17 \/ h = 18
              \/ h = 19 \/ h = 20 \/ h = 21 \/ h = 22 \/ h = 23) by lia.
  repeat (destruct C as [->|C]; [vm_compute; repeat split|]).
  subst h. vm_compute. repeat split.
Qed.

Lemma formatTime_same (t : option string) :
  Admin.formatTime t = Student.formatTime t.
Proof.
  destruct t as [t|]; [|reflexivity].
  unfold Admin.formatTime, Student.formatTime, at_.
  destruct (t =? "")%string; [reflexivity|].
  destruct (split ":" t) as [|h [|m l]]; reflexivity.
Qed.

Lemma formatTime_clock (h : Z) (mm rest : string) :
  0 <= h < 24 ->
  includes mm ":" = false ->
  rest = "" \/ (exists ss, rest = ":" ++ ss) ->
  Admin.formatTime (Some (twoDigits h ++ ":" ++ mm ++ rest))
  = ofZ (hour12 h) ++ ":" ++ mm ++ " " ++ meridiem h.
Proof.
  intros Hh Hm Hr.
  destruct (hours_of_day h Hh) as (Hc & He & Hp).
  destruct (minutes_piece _ _ _ Hc Hm Hr) as [more Hs].
  unfold Admin.formatTime. rewrite Hs.
  assert (Ht : (twoDigits h ++ ":" ++ mm ++ rest =? "")%string = false).
  { destruct (twoDigits h); [discriminate He | reflexivity]. }
  rewrite Ht. cbn [at_ nth_error show]. rewrite Hp.
  unfold Admin.geq12, Admin.mod12, Admin.orTwelve, option_map, hour12,
    meridiem.
  rewrite Z.rem_mod_nonneg by lia.
  destruct (Z.leb_spec 12 h), (Z.ltb_spec h 12); try lia; reflexivity.
Qed.

(** C10.  The time format of the admin dashboard and that of the student
    dashboard agree on every input, the missing and the empty time and the
    times HH:MM and HH:MM:SS included.  On a time of the day both give the
    hour on the 12-hour clock, the minutes, and AM or PM; the hour 0 reads
    12 AM and the hour 12 reads 12 PM. *)
Theorem formatTime_agree :
  (forall t, Admin.formatTime t = Student.formatTime t)
  /\ Student.formatTime None = ""
  /\ Student.formatTime (Some "") = ""
  /\ (forall h mm rest,
        0 <= h < 24 ->
        includes mm ":" = false ->
        rest = "" \/ (exists ss, rest = ":" ++ ss) ->
        Student.formatTime (Some (twoDigits h ++ ":" ++ mm ++ rest))
        = ofZ (hour12 h) ++ ":" ++ mm ++ " " ++ meridiem h)
  /\ (forall mm rest,
        includes mm ":" = false ->
        rest = "" \/ (exists ss, rest = ":" ++ ss) ->
        Student.formatTime (Some ("00:" ++ mm ++ rest)) = "12:" ++ mm ++ " AM"
        /\ Student.formatTime (Some ("12:" ++ mm ++ rest))
           = "12:" ++ mm ++ " PM").
Proof.
  split; [exact formatTime_same|].
  split; [reflexivity|]. split; [reflexivity|]. split.
  - intros h mm rest Hh Hm Hr. rewrite <- formatTime_same.
    now apply formatTime_clock.
  - intros mm rest Hm Hr. rewrite <- !formatTime_same. split.
    + apply (formatTime_clock 0 mm rest); [lia | exact Hm | exact Hr].
    + apply (formatTime_clock 12 mm rest); [lia | exact Hm | exact Hr].
Qed.

End TimeFormat.

(** What is not a time of the day is formatted all the same, and alike by
    both: a missing hour reads 12, missing minutes read "undefined". *)
Example formatTime_odd_inputs :
  map Admin.formatTime [Some "abc"; Some "7"; Some ":"; Some "-5:10"]
  = ["12:undefined AM"; "7:undefined AM"; "12: AM"; "-5:10 AM"]
  /\ map Student.formatTime [Some "abc"; Some "7"; Some ":"; Some "-5:10"]
     = ["12:undefined AM"; "7:undefined AM"; "12: AM"; "-5:10 AM"].
Proof. vm_compute. split; reflexivity. Qed.

Lemma formatTime_agree_witness :
  Student.formatTime (Some "09:30:00") = "9:30 AM"
  /\ Student.formatTime (Some "00:05") = "12:05 AM"
  /\ Student.formatTime (Some "12:45:10") = "12:45 PM"
  /\ Admin.formatTime (Some "23:59") = Student.formatTime (Some "23:59").
Proof.
  split; [|split; [|split]].
  - apply (proj1 (proj2 (proj2 (proj2 formatTime_agree))) 9 "30" ":00");
      [lia | reflexivity | right; now exists "00"].
  - apply (proj1 (proj2 (proj2 (proj2 (proj2 formatTime_agree))) "05" ""
                    eq_refl (or_introl eq_refl))).
  - apply (proj2 (proj2 (proj2 (proj2 (proj2 formatTime_agree))) "45" ":10"
                    eq_refl (or_intror (ex_intro _ "10" eq_refl)))).
  - apply (proj1 formatTime_agree).
Defined.

(* ===================================================================== *)
(** ** More about the pipeline *)
(* ===================================================================== *)

Section PipelineMore.
Variable dateValue : string -> option Z.

Lemma filter_all {A : Type} (f : A -> bool) (l : list A) :
  (forall x, In x l -> f x = true) -> filter f l = l.
Proof.
  induction l as [|x l IH]; intros H; [reflexivity|].
  simpl. rewrite (H x (or_introl eq_refl)), IH; [reflexivity|].
  intros y Hy. apply H. now right.
Qed.

Lemma includes_empty (s : string) : includes s "" = true.
Proof. rewrite includes_unfold. destruct s; reflexivity. Qed.

(** The sort leaves a list alone that is already in order. *)
Lemma sort_of_sorted (l : list Appointment) :
  Forall (sortable dateValue) l ->
  StronglySorted (mayPrecede dateValue) l ->
  sort (Admin.comparefn dateValue) l = l.
Proof.
  intros HP HS. induction HS as [|x l HS IH Hx]; [reflexivity|].
  inversion HP as [|? ? Px Pl]; subst.
  cbn [sort]. rewrite (IH Pl).
  destruct l as [|y l]; [reflexivity|].
  cbn [insertSorted].
  inversion Hx as [|? ? Rxy _]; subst. inversion Pl as [|? ? Py _]; subst.
  apply (comparefn_decides dateValue x y Px Py) in Rxy.
  apply Z.leb_le in Rxy. now rewrite Rxy.
Qed.

(** X3.  Running the pipeline on what it has listed changes nothing: when
    the listed records have valid dates and statuses that name no inherited
    member, filtering and sorting the output again, under the same
    controls, gives the output back. *)
Theorem pipeline_settles (store : list Appointment) (fs : Admin.FilterState) :
  Forall (sortable dateValue)
    (Admin.applyFiltersAndSort dateValue store fs) ->
  Admin.applyFiltersAndSort dateValue
    (Admin.applyFiltersAndSort dateValue store fs) fs
  = Admin.applyFiltersAndSort dateValue store fs.
Proof.
  intros HP.
  assert (HS : StronglySorted (mayPrecede dateValue)
                 (Admin.applyFiltersAndSort dateValue store fs)).
  { unfold Admin.applyFiltersAndSort in *.
    apply sort_sorted with (P := sortable dateValue).
    - exact (comparefn_decides dateValue).
    - exact (mayPrecede_total dateValue).
    - exact (mayPrecede_trans dateValue).
    - eapply Permutation_Forall; [apply sort_perm | exact HP]. }
  unfold Admin.applyFiltersAndSort at 1.
  rewrite filter_all.
  - now apply sort_of_sorted.
  - intros x Hx. now apply admin_listed_iff in Hx.
Qed.

(** X4.  With a blank search box and no category chosen, the admin table
    lists, for a status filter, the very records the student list gives for
    that filter on the same store, in another order. *)
Theorem views_agree (store : list Appointment) (wanted choice : string) :
  ~ In choice (map fst categories) ->
  Permutation
    (Admin.applyFiltersAndSort dateValue store
       {| Admin.statusFilter := wanted;
          Admin.searchInput := "";
          Admin.sortChoice := choice |})
    (Student.filterAppointments store wanted).
Proof.
  intros Hc. eapply perm_trans; [apply sort_perm|].
  assert (E : filter
                (Admin.keep {| Admin.statusFilter := wanted;
                               Admin.searchInput := "";
                               Admin.sortChoice := choice |}) store
              = Student.filterAppointments store wanted).
  { unfold Student.filterAppointments.
    destruct (String.eqb_spec wanted "all") as [->|Hne].
    - apply filter_all. intros x _. unfold Admin.keep, Admin.matchesSearch.
      cbn. rewrite includes_empty. now apply matchesType_other.
    - apply filter_ext. intros x.
      unfold Admin.keep, Admin.matchesStatus, Admin.matchesSearch. cbn.
      rewrite includes_empty, (matchesType_other _ x Hc), !andb_true_r.
      destruct (String.eqb_spec wanted "all"); [contradiction|reflexivity]. }
  rewrite E. apply Permutation_refl.
Qed.

End PipelineMore.

Lemma pipeline_settles_witness :
  Admin.applyFiltersAndSort Calendar.isoDateValue
    (Admin.applyFiltersAndSort Calendar.isoDateValue Example.scenarioStore
       Example.noFilter) Example.noFilter
  = Admin.applyFiltersAndSort Calendar.isoDateValue Example.scenarioStore
      Example.noFilter.
Proof.
  apply (pipeline_settles Calendar.isoDateValue Example.scenarioStore
           Example.noFilter).
  apply Forall_forall. intros x Hx.
  apply admin_listed_iff in Hx. destruct Hx as [Hx _].
  simpl in Hx.
  destruct Hx as [<-|[<-|[<-|[]]]];
    (split; [eexists; vm_compute; reflexivity | vm_compute; reflexivity]).
Defined.

Lemma admin_lists_every_match_witness :
  In Example.clearanceUrgent
    (Pipeline.applyFiltersAndSort JsString.toLowerCase Calendar.isoDateValue
       Example.mixedStore Example.urgentClearanceOfAna).
Proof.
  apply (proj2 (proj2 (admin_lists_every_match JsString.toLowerCase
                         Calendar.isoDateValue Example.mixedStore
                         Example.urgentClearanceOfAna))).
  - simpl. tauto.
  - right. reflexivity.
  - exists "", "ruz". reflexivity.
  - intros keyword u1 u2 Hin. simpl in Hin.
    destruct Hin as [Hin|[Hin|[Hin|[Hin|[]]]]]; try discriminate Hin.
    injection Hin as <- <- <-.
    apply (category_test "clearance" "urgent" "high" Example.clearanceUrgent
             eq_refl).
    reflexivity.
Defined.

Lemma admin_order_stable_witness :
  map id
    (filter (hasKeys Calendar.isoDateValue 1 1704844800000)
       (Admin.applyFiltersAndSort Calendar.isoDateValue
          (Example.scenarioStore
           ++ [Example.appointment 4 "pending" "2024-01-10" None None])
          Example.noFilter))
  = [1; 4].
Proof.
  rewrite (admin_order_stable Calendar.isoDateValue
             (Example.scenarioStore
              ++ [Example.appointment 4 "pending" "2024-01-10" None None])
             Example.noFilter 1 1704844800000).
  - reflexivity.
  - apply Forall_forall. intros x Hx.
    apply admin_listed_iff in Hx. destruct Hx as [Hx _].
    simpl in Hx.
    destruct Hx as [<-|[<-|[<-|[<-|[]]]]];
      (split; [eexists; vm_compute; reflexivity | vm_compute; reflexivity]).
Defined.

Lemma views_agree_witness :
  Permutation
    (Admin.applyFiltersAndSort Calendar.isoDateValue Example.scenarioStore
       {| Admin.statusFilter := "approved";
          Admin.searchInput := "";
          Admin.sortChoice := "newest" |})
    (Student.filterAppointments Example.scenarioStore "approved").
Proof.
  apply (views_agree Calendar.isoDateValue Example.scenarioStore "approved"
           "newest").
  simpl. intros [H|[H|[H|[H|[]]]]]; discriminate H.
Defined.

Section CategoriesMore.

Lemma urgent_not_normal (apt : Appointment) (u : string) :
  toLowerCase (orElse (urgency apt) "") = u ->
  ((u =? "urgent")%string || (u =? "high")%string) = true ->
  ((u =? "normal")%string || (u =? "low")%string) = false.
Proof.
  intros _ H. apply orb_true_iff in H.
  destruct H as [H|H]; apply String.eqb_eq in H; subst u; reflexivity.
Qed.

(** X5.  A record never passes both an urgent and a normal category,
    whatever the keywords; but the two keywords do not exclude each other:
    a record whose service names both passes "clearance-urgent" and
    "consultation-urgent" alike. *)
Theorem urgency_categories_exclude (apt : Appointment)
    (urgent normal : string) :
  In urgent ["clearance-urgent"; "consultation-urgent"] ->
  In normal ["clearance-normal"; "consultation-normal"] ->
  (Admin.matchesType urgent apt = true ->
   Admin.matchesType normal apt = false)
  /\ (exists both,
        Admin.matchesType "clearance-urgent" both = true
        /\ Admin.matchesType "consultation-urgent" both = true).
Proof.
  intros Hu Hn. split.
  - simpl in Hu, Hn.
    destruct Hu as [<-|[<-|[]]]; destruct Hn as [<-|[<-|[]]];
      unfold Admin.matchesType; cbn [String.eqb Ascii.eqb Bool.eqb];
      intros H; apply andb_true_iff in H; destruct H as [_ H];
      rewrite (urgent_not_normal apt _ eq_refl H); apply andb_false_r.
  - exists (Example.appointment 9 "pending" "2024-01-10"
              (Some "Clearance after consultation") (Some "High")).
    split; reflexivity.
Qed.

End CategoriesMore.

Lemma urgency_categories_exclude_witness :
  Admin.matchesType "clearance-normal" Example.clearanceUrgent = false.
Proof.
  apply (proj1 (urgency_categories_exclude Example.clearanceUrgent
                  "clearance-urgent" "clearance-normal"
                  (or_introl eq_refl) (or_introl eq_refl))).
  reflexivity.
Defined.

(* ===================================================================== *)
(** ** More about the time format *)
(* ===================================================================== *)

Section TimeMore.


End TimeMore.


(* ===================================================================== *)
(** ** More about the chat *)
(* ===================================================================== *)

Section TrimFacts.







Lemma breakLines_no_feed (s : string) : lineFeeds (breakLines s) = 0%nat.
Proof.
  induction s as [|c s IH]; [reflexivity|].
  simpl. destruct (Ascii.eqb c "010"%char) eqn:E.
  - simpl. exact IH.
  - simpl. now rewrite E.
Qed.

Lemma breakLines_plain (s : string) :
  lineFeeds s = 0%nat -> breakLines s = s.
Proof.
  induction s as [|c s IH]; [reflexivity|].
  simpl. destruct (Ascii.eqb c "010"%char); [discriminate|].
  simpl. intros H. now rewrite (IH H).
Qed.

End TrimFacts.

Section ChatMore.
Variable token : string.
Variable trim : string -> string.
Variable toLowerCase : string -> string.



End ChatMore.

(** Runs a handler of any of the pages on the state at hand. *)
Ltac run_js :=
  cbv beta iota zeta delta
    [ Run.bind Run.ret Run.throw Run.tryCatch Run.emit Run.get Run.put
      Run.outcome Run.final Run.trace fst snd app flat_map filter
      List.length map
      Student.sendChatMessage Student.beforeAwait Student.afterAwait
      Student.settle Student.json Student.prop
      Student.lowered Student.push Student.clearInput
      Student.addChatMessage StudentPage.initChatbot
      Student.chatHistory Student.chatInput Student.chatMessages
      Student.allAppointments replyText
      StudentPage.handleBooking StudentPage.fetch StudentPage.json
      StudentPage.prop StudentPage.deleteOrCancel StudentPage.deleteHistory
      StudentPage.cancelAppointment
      studentCalls studentDialogs studentReloads formResets
      AdminPage.fetch AdminPage.json AdminPage.prop
      AdminPage.deleteAppointment AdminPage.updateAppointmentStatus
      AdminPage.deleteUser AdminPage.handleNewUser AdminPage.loadUsers
      AdminPage.loadAppointments AdminPage.applyFiltersAndSort
      AdminPage.closeAppointmentModal AdminPage.closeAddUserModal
      AdminPage.logout
      pageCalls pageDialogs pageReloads userReloads
      Login.submit Login.fetch Login.json Login.prop Login.errorText
      stored redirects loginDialogs
      Register.submit Register.fetch Register.json Register.prop
      registerCalls registerDialogs ].

Section ChatBubbles.
Variable token : string.
Variable trim : string -> string.
Variable toLowerCase : string -> string.

(** X8.  Every message sent gets one answer on the screen, and the
    handler never throws: after [sendChatMessage] on an input that is not
    blank, the chat shows two bubbles more, the student's message and then
    either the reply, when the answer carries one that is a string, or the
    apology in every other case (the request fails, the body is not JSON or
    is [null], the reply is missing or not a string), and then nothing is
    reloaded.  Line feeds are turned into line breaks: no bubble holds
    one.  Blank is what the platform's [trim] leaves empty, and the
    student's bubble is the text as that function leaves it, whatever it
    does. *)
Theorem one_bubble_per_turn (net : FetchResult) (s : Student.State) :
  trim (Student.chatInput s) <> "" ->
  Run.outcome (Student.sendChatMessage token trim toLowerCase net s)
  = Run.Returned tt
  /\ Student.chatMessages
       (Run.final (Student.sendChatMessage token trim toLowerCase net s))
     = (Student.chatMessages s
        ++ [ ("user", breakLines (trim (Student.chatInput s)));
             ("bot", match replyText net with
                     | Some reply => breakLines reply
                     | None => apology
                     end) ])%list
  /\ (replyText net = None ->
      reloads
        (Run.trace (Student.sendChatMessage token trim toLowerCase net s))
      = 0%nat)
  /\ Forall (fun bubble => lineFeeds (snd bubble) = 0%nat)
       [ ("user", breakLines (trim (Student.chatInput s)));
         ("bot", match replyText net with
                 | Some reply => breakLines reply
                 | None => apology
                 end) ].
Proof.
  intros Hm. destruct s as [a h i c].
  cbn [Student.chatInput Student.chatMessages] in *.
  assert (A : forall l : list (string * string), ((l ++ [("user", breakLines (trim i))]) ++ [("bot", apology)] = l ++ [("user", breakLines (trim i)); ("bot", apology)])%list)
    by (intros l; now rewrite <- app_assoc).
  assert (B : forall (l : list (string * string)) r, ((l ++ [("user", breakLines (trim i))]) ++ [("bot", breakLines r)] = l ++ [("user", breakLines (trim i)); ("bot", breakLines r)])%list)
    by (intros l r; now rewrite <- app_assoc).
  split; [|split; [|split]].
  - run_js. destruct (String.eqb_spec (trim i) "") as [E|_]; [contradiction|].
    destruct net as [|status [|[|p]]]; run_js; try reflexivity.
    destruct (p "response") as [| |b|n|r|]; run_js; try reflexivity.
    destruct (includes (toLowerCase r) "booked"); run_js; try reflexivity.
    destruct (includes (toLowerCase r) "canceled"); reflexivity.
  - run_js. destruct (String.eqb_spec (trim i) "") as [E|_]; [contradiction|].
    destruct net as [|status [|[|p]]]; run_js; try apply A.
    destruct (p "response") as [| |b|n|r|]; run_js; try apply A.
    destruct (includes (toLowerCase r) "booked"); run_js; try apply B.
    destruct (includes (toLowerCase r) "canceled"); run_js; apply B.
  - unfold reloads. run_js.
    destruct (String.eqb_spec (trim i) "") as [E|_]; [contradiction|].
    destruct net as [|status [|[|p]]]; run_js; try reflexivity.
    destruct (p "response") as [| |b|n|r|]; run_js; try reflexivity.
    discriminate.
  - constructor; [apply breakLines_no_feed|].
    constructor; [|constructor]. cbn [snd].
    destruct (replyText net); [apply breakLines_no_feed | reflexivity].
Qed.

(** X9.  The assistant greets once: [initChatbot] adds its greeting when
    the chat is empty and does nothing otherwise, so calling it again, or
    after the first message, adds nothing; and the greeting is shown only,
    it never enters the conversation that is sent to the assistant. *)
Theorem greeting_once (s : Student.State) :
  (Student.chatMessages s = [] ->
   Student.chatMessages (Run.final (StudentPage.initChatbot s))
   = [("bot", StudentPage.greeting)])
  /\ (Student.chatMessages s <> [] ->
      Run.final (StudentPage.initChatbot s) = s)
  /\ StudentPage.initChatbot (Run.final (StudentPage.initChatbot s))
     = (Run.Returned tt, Run.final (StudentPage.initChatbot s), [])
  /\ Student.chatHistory (Run.final (StudentPage.initChatbot s))
     = Student.chatHistory s
  /\ Run.trace (StudentPage.initChatbot s) = [].
Proof.
  destruct s as [a h i c]. cbn [Student.chatMessages Student.chatHistory].
  destruct c as [|b c].
  - repeat split; try reflexivity. intros H. now contradiction H.
  - repeat split; try reflexivity. discriminate.
Qed.

End ChatBubbles.

Lemma one_bubble_per_turn_witness :
  Student.chatMessages
    (Run.final
       (Student.sendChatMessage "t" JsString.trim JsString.toLowerCase
          NetworkError (Example.chatState " Any slot on Monday? ")))
  = [ ("user", "Any slot on Monday?"); ("bot", apology) ].
Proof.
  apply (proj1 (proj2 (one_bubble_per_turn "t" JsString.trim
                         JsString.toLowerCase NetworkError
                         (Example.chatState " Any slot on Monday? ")
                         ltac:(vm_compute; discriminate)))).
Defined.


Lemma greeting_once_witness :
  Student.chatMessages
    (Run.final (StudentPage.initChatbot (Example.chatState "")))
  = [("bot", StudentPage.greeting)].
Proof.
  apply (proj1 (greeting_once (Example.chatState ""))). reflexivity.
Defined.

(* ===================================================================== *)
(** ** Booking and removal on the student page *)
(* ===================================================================== *)

Section StudentHandlers.
Variable token : string.

Lemma length_append (a b : string) :
  String.length (a ++ b) = (String.length a + String.length b)%nat.
Proof. induction a as [|c a IH]; simpl; [reflexivity | now rewrite IH]. Qed.

Lemma withSeconds_length (t : string) :
  String.length (StudentPage.withSeconds t) <> 5%nat.
Proof.
  unfold StudentPage.withSeconds.
  destruct (Nat.eqb_spec (String.length t) 5) as [E|N]; [|exact N].
  rewrite length_append, E. discriminate.
Qed.

(** X10.  A booking is sent only from a complete form, and never with a
    bare HH:MM time: when one of the five fields is empty the handler shows
    the "Missing Details" warning and sends nothing; otherwise it sends one
    POST of the six fields, the booking mode being "standard" and the time
    being the typed one with ":00" appended when it has five characters, so
    the time sent never has five. *)
Theorem booking_validated (f : StudentPage.BookingForm) (net : FetchResult) :
  (complete f = false ->
   Run.trace (StudentPage.handleBooking token f net tt)
   = [ StudentPage.Swal
         (Http.alert "Missing Details"
            (VStr "Please fill in all required fields.") "warning") ])
  /\ (complete f = true ->
      exists time,
        map (fun c => (Http.url c, Http.method c, Http.fields c))
          (studentCalls (Run.trace (StudentPage.handleBooking token f net tt)))
        = [ ("/api/appointments", "POST",
             Some [ ("appointment_date", StudentPage.bookDate f);
                    ("appointment_time", time);
                    ("service_type", StudentPage.bookType f);
                    ("urgency", StudentPage.bookUrgency f);
                    ("reason", StudentPage.bookReason f);
                    ("booking_mode", "standard") ]) ]
        /\ String.length time <> 5%nat
        /\ (String.length (StudentPage.bookTime f) = 5%nat ->
            time = StudentPage.bookTime f ++ ":00")
        /\ (String.length (StudentPage.bookTime f) <> 5%nat ->
            time = StudentPage.bookTime f)).
Proof.
  unfold complete. destruct f as [ty da ti ur re].
  cbn [StudentPage.bookType StudentPage.bookDate StudentPage.bookTime
       StudentPage.bookUrgency StudentPage.bookReason].
  split; intros H.
  - run_js.
    cbn [StudentPage.bookType StudentPage.bookDate StudentPage.bookTime
         StudentPage.bookUrgency StudentPage.bookReason].
    destruct (StudentPage.blank ty), (StudentPage.blank da),
      (StudentPage.blank ti), (StudentPage.blank re),
      (StudentPage.blank ur); try reflexivity; discriminate H.
  - exists (StudentPage.withSeconds ti). split; [|split; [|split]].
    + run_js.
      cbn [StudentPage.bookType StudentPage.bookDate StudentPage.bookTime
           StudentPage.bookUrgency StudentPage.bookReason].
      destruct (StudentPage.blank ty), (StudentPage.blank da),
        (StudentPage.blank ti), (StudentPage.blank re),
        (StudentPage.blank ur); try discriminate H.
      cbn [orb].
      destruct net as [|status [|[|p]]]; run_js; try reflexivity;
        destruct (ok status); run_js; reflexivity.
    + apply withSeconds_length.
    + intros E. unfold StudentPage.withSeconds. now rewrite E.
    + intros N. unfold StudentPage.withSeconds.
      now destruct (Nat.eqb_spec (String.length ti) 5).
Qed.

(** X11.  A booking is acknowledged only on a 2xx answer whose body is
    JSON: then the handler shows "Booked!", resets the form and reloads the
    appointments, once each.  On every other answer (the request fails, the
    status is not 2xx, or the body is not JSON whatever the status) it shows
    one error dialog, keeps the form as typed and reloads nothing; and it
    never throws. *)
Theorem booking_acknowledged (f : StudentPage.BookingForm)
    (net : FetchResult) :
  complete f = true ->
  Run.outcome (StudentPage.handleBooking token f net tt) = Run.Returned tt
  /\ (exists d,
        studentDialogs (Run.trace (StudentPage.handleBooking token f net tt))
        = [d]
        /\ icon d = (if accepted net then "success" else "error"))
  /\ formResets (Run.trace (StudentPage.handleBooking token f net tt))
     = (if accepted net then 1 else 0)%nat
  /\ studentReloads (Run.trace (StudentPage.handleBooking token f net tt))
     = (if accepted net then 1 else 0)%nat.
Proof.
  unfold complete, accepted. destruct f as [ty da ti ur re].
  cbn [StudentPage.bookType StudentPage.bookDate StudentPage.bookTime
       StudentPage.bookUrgency StudentPage.bookReason].
  intros H. run_js.
  cbn [StudentPage.bookType StudentPage.bookDate StudentPage.bookTime
       StudentPage.bookUrgency StudentPage.bookReason].
  destruct (StudentPage.blank ty), (StudentPage.blank da),
    (StudentPage.blank ti), (StudentPage.blank re),
    (StudentPage.blank ur); try discriminate H.
  cbn [orb].
  destruct net as [|status [|[|p]]]; run_js;
    try (destruct (ok status); run_js);
    (split; [reflexivity|]; split; [eexists; split; reflexivity|];
     split; reflexivity).
Qed.

(** X12.  Nothing is removed without the student's consent, and the list
    is reloaded only after a removal that succeeded: [deleteHistory] and
    [cancelAppointment] send no request when the question is declined, and
    when it is confirmed both send the same single DELETE of the
    appointment, with no body; [loadAppointments] is then called once if
    the status is 2xx, whatever the body, and not at all otherwise. *)
Theorem removal_needs_consent (id : Z) (isConfirmed : bool)
    (net : FetchResult) :
  studentCalls
    (Run.trace (StudentPage.deleteHistory token id isConfirmed net tt))
  = (if isConfirmed then [StudentPage.removalCall token id] else [])
  /\ studentCalls
       (Run.trace (StudentPage.cancelAppointment token id isConfirmed net tt))
     = (if isConfirmed then [StudentPage.removalCall token id] else [])
  /\ studentReloads
       (Run.trace (StudentPage.deleteHistory token id isConfirmed net tt))
     = (if isConfirmed && succeeded net then 1 else 0)%nat
  /\ studentReloads
       (Run.trace (StudentPage.cancelAppointment token id isConfirmed net tt))
     = (if isConfirmed && succeeded net then 1 else 0)%nat
  /\ Http.method (StudentPage.removalCall token id) = "DELETE"
  /\ Http.url (StudentPage.removalCall token id)
     = "/api/appointments/" ++ ofZ id
  /\ Http.fields (StudentPage.removalCall token id) = None.
Proof.
  unfold succeeded.
  destruct isConfirmed; destruct net as [|status body]; run_js;
    try (destruct (ok status); run_js); repeat split.
Qed.

End StudentHandlers.

Lemma booking_validated_witness :
  Run.trace (StudentPage.handleBooking "t" Sample.noReason NetworkError tt)
  = [ StudentPage.Swal
        (Http.alert "Missing Details"
           (VStr "Please fill in all required fields.") "warning") ]
  /\ exists time,
       map (fun c => (Http.url c, Http.method c, Http.fields c))
         (studentCalls
            (Run.trace (StudentPage.handleBooking "t" Sample.booking
                          NetworkError tt)))
       = [ ("/api/appointments", "POST",
            Some [ ("appointment_date", "2024-02-05");
                   ("appointment_time", time);
                   ("service_type", "Medical Consultation");
                   ("urgency", "Normal");
                   ("reason", "Headache");
                   ("booking_mode", "standard") ]) ]
       /\ time = "09:30:00".
Proof.
  split.
  - apply (proj1 (booking_validated "t" Sample.noReason NetworkError)).
    reflexivity.
  - destruct (proj2 (booking_validated "t" Sample.booking NetworkError)
                eq_refl) as (time & Hc & _ & Ht & _).
    exists time. split; [exact Hc|]. apply Ht. reflexivity.
Defined.

Lemma booking_acknowledged_witness :
  formResets
    (Run.trace (StudentPage.handleBooking "t" Sample.booking
                  (Response 200 BodyInvalid) tt)) = 0%nat
  /\ studentReloads
       (Run.trace (StudentPage.handleBooking "t" Sample.booking
                     (Response 200 BodyInvalid) tt)) = 0%nat.
Proof.
  destruct (booking_acknowledged "t" Sample.booking
              (Response 200 BodyInvalid) eq_refl) as (_ & _ & H1 & H2).
  split; [exact H1 | exact H2].
Defined.

(* ===================================================================== *)
(** ** Deleting, updating and creating on the admin page *)
(* ===================================================================== *)

Section AdminHandlers.
Variable token : string.

(** X13.  No record is deleted without the admin's consent:
    [deleteAppointment] sends nothing when the question is declined and one
    DELETE of the record, with no body, when it is confirmed.  The list is
    reloaded once when the status is 2xx and not otherwise; a request that
    fails outright is reported in the console only, with no dialog.  The
    handler never throws and changes nothing on the page itself. *)
Theorem deletion_needs_consent (id : Z) (isConfirmed : bool)
    (net : FetchResult) (s : AdminPage.State) :
  Run.outcome (AdminPage.deleteAppointment token id isConfirmed net s)
  = Run.Returned tt
  /\ Run.final (AdminPage.deleteAppointment token id isConfirmed net s) = s
  /\ map (fun c => (Http.url c, Http.method c, Http.fields c))
       (pageCalls
          (Run.trace (AdminPage.deleteAppointment token id isConfirmed net s)))
     = (if isConfirmed
        then [("/api/appointments/" ++ ofZ id, "DELETE", None)]
        else [])
  /\ pageReloads
       (Run.trace (AdminPage.deleteAppointment token id isConfirmed net s))
     = (if isConfirmed && succeeded net then 1 else 0)%nat
  /\ (net = NetworkError ->
      pageDialogs
        (Run.trace (AdminPage.deleteAppointment token id isConfirmed net s))
      = []).
Proof.
  unfold succeeded.
  destruct isConfirmed; destruct net as [|status body]; run_js;
    try (destruct (ok status); run_js); repeat split; discriminate.
Qed.

(** X14.  [updateAppointmentStatus] does not look at the answer: whatever
    the status and the body of the response, it closes the modal, shows
    "Updated!" and reloads the list.  Its one request is a PUT to the
    appointment of the open modal carrying the status and the note as
    typed, empty or not.  Only when the request fails outright does it
    throw, and then the modal stays as it was and nothing is shown or
    reloaded. *)
Theorem status_update_unchecked (newStatus : string) (net : FetchResult)
    (s : AdminPage.State) :
  map (fun c => (Http.url c, Http.method c, Http.fields c))
    (pageCalls
       (Run.trace (AdminPage.updateAppointmentStatus token newStatus net s)))
  = [ ("/api/appointments/"
       ++ AdminPage.showId (Admin.currentAppointmentId (AdminPage.core s)),
       "PUT",
       Some [("status", newStatus); ("admin_note", AdminPage.adminNote s)]) ]
  /\ (forall status body,
        net = Response status body ->
        Run.outcome (AdminPage.updateAppointmentStatus token newStatus net s)
        = Run.Returned tt
        /\ Admin.appointmentModalDisplay
             (AdminPage.core
                (Run.final
                   (AdminPage.updateAppointmentStatus token newStatus net s)))
           = "none"
        /\ map (fun d => (icon d, title d, text d))
             (pageDialogs
                (Run.trace
                   (AdminPage.updateAppointmentStatus token newStatus net s)))
           = [ ("success", "Updated!",
                VStr ("Appointment marked as " ++ newStatus ++ ".")) ]
        /\ pageReloads
             (Run.trace
                (AdminPage.updateAppointmentStatus token newStatus net s))
           = 1%nat)
  /\ (net = NetworkError ->
      Run.outcome (AdminPage.updateAppointmentStatus token newStatus net s)
      = Run.Thrown
      /\ Run.final (AdminPage.updateAppointmentStatus token newStatus net s)
         = s
      /\ pageDialogs
           (Run.trace
              (AdminPage.updateAppointmentStatus token newStatus net s))
         = []
      /\ pageReloads
           (Run.trace
              (AdminPage.updateAppointmentStatus token newStatus net s))
         = 0%nat).
Proof.
  destruct net as [|status body]; run_js; (split; [reflexivity|]); split.
  - intros ? ? H. discriminate H.
  - intros _. repeat split.
  - intros ? ? _. repeat split.
  - intros H. discriminate H.
Qed.

(** X15.  [deleteUser] asks first and sends its DELETE only on consent.
    The users are reloaded once on a 2xx status and not otherwise.  On
    another status the error dialog shows the [detail] of the body when it
    is truthy, of whatever type, and "Failed to delete user." when it is
    not; when the request fails, or the error body is not JSON or is
    [null], it shows "Server connection error.".  It never throws. *)
Theorem user_deletion (id : Z) (isConfirmed : bool) (net : FetchResult)
    (s : AdminPage.State) :
  Run.outcome (AdminPage.deleteUser token id isConfirmed net s)
  = Run.Returned tt
  /\ map (fun c => (Http.url c, Http.method c, Http.fields c))
       (pageCalls (Run.trace (AdminPage.deleteUser token id isConfirmed net s)))
     = (if isConfirmed then [("/api/users/" ++ ofZ id, "DELETE", None)]
        else [])
  /\ userReloads (Run.trace (AdminPage.deleteUser token id isConfirmed net s))
     = (if isConfirmed && succeeded net then 1 else 0)%nat
  /\ (isConfirmed = true -> succeeded net = false ->
      map (fun d => (icon d, text d))
        (pageDialogs
           (Run.trace (AdminPage.deleteUser token id isConfirmed net s)))
      = [ ("error",
           match net with
           | Response _ (BodyJson (DValue p)) =>
               if truthy (p "detail") then p "detail"
               else VStr "Failed to delete user."
           | _ => VStr "Server connection error."
           end) ]).
Proof.
  unfold succeeded.
  destruct isConfirmed; destruct net as [|status [|[|p]]]; run_js;
    try (destruct (ok status); run_js);
    repeat split; try discriminate; try reflexivity.
Qed.

(** X16.  [handleNewUser] sends the four fields of the form and judges by
    the status alone: on a 2xx status it reports the success, closes the
    modal and reloads the users; on any other status it shows "Failed to
    create user. Email might exist.", whatever the body says, and leaves
    the modal open.  When the request fails outright it throws, having
    shown nothing. *)
Theorem user_creation (u : AdminPage.NewUser) (net : FetchResult)
    (s : AdminPage.State) :
  map (fun c => (Http.url c, Http.method c, Http.fields c))
    (pageCalls (Run.trace (AdminPage.handleNewUser token u net s)))
  = [ ("/api/admin/create-user", "POST",
       Some [ ("full_name", AdminPage.newFullName u);
              ("email", AdminPage.newEmail u);
              ("password", AdminPage.newPassword u);
              ("role", AdminPage.newRole u) ]) ]
  /\ (forall status body,
        net = Response status body ->
        Run.outcome (AdminPage.handleNewUser token u net s) = Run.Returned tt
        /\ map (fun d => (icon d, text d))
             (pageDialogs (Run.trace (AdminPage.handleNewUser token u net s)))
           = [ if ok status
               then ("success", VStr "User created successfully.")
               else ("error",
                     VStr "Failed to create user. Email might exist.") ]
        /\ AdminPage.addUserModalDisplay
             (Run.final (AdminPage.handleNewUser token u net s))
           = (if ok status then "none" else AdminPage.addUserModalDisplay s)
        /\ userReloads (Run.trace (AdminPage.handleNewUser token u net s))
           = (if ok status then 1 else 0)%nat)
  /\ (net = NetworkError ->
      Run.outcome (AdminPage.handleNewUser token u net s) = Run.Thrown
      /\ Run.final (AdminPage.handleNewUser token u net s) = s
      /\ pageDialogs (Run.trace (AdminPage.handleNewUser token u net s)) = []).
Proof.
  destruct net as [|status body].
  - run_js. split; [reflexivity|]. split.
    + intros ? ? H. discriminate H.
    + intros _. repeat split.
  - split; [|split].
    + run_js. destruct (ok status); reflexivity.
    + intros st b H. injection H as <- <-.
      run_js. destruct (ok status); repeat split.
    + intros H. discriminate H.
Qed.

End AdminHandlers.

Lemma status_update_unchecked_witness :
  map (fun d => (icon d, title d, text d))
    (pageDialogs
       (Run.trace
          (AdminPage.updateAppointmentStatus "t" "rejected"
             (Response 500 BodyInvalid) (Sample.page [] ""))))
  = [("success", "Updated!", VStr "Appointment marked as rejected.")].
Proof.
  destruct (proj1 (proj2 (status_update_unchecked "t" "rejected"
                            (Response 500 BodyInvalid) (Sample.page [] "")))
              500 BodyInvalid eq_refl) as (_ & _ & H & _).
  exact H.
Defined.

Lemma deletion_needs_consent_witness :
  pageDialogs
    (Run.trace (AdminPage.deleteAppointment "t" 4 true NetworkError
                  (Sample.page [] "")))
  = [].
Proof.
  apply (proj2 (proj2 (proj2 (proj2
           (deletion_needs_consent "t" 4 true NetworkError
              (Sample.page [] "")))))).
  reflexivity.
Defined.

Lemma user_deletion_witness :
  map (fun d => (icon d, text d))
    (pageDialogs
       (Run.trace
          (AdminPage.deleteUser "t" 2 true
             (Response 403
                (BodyJson (Example.object "detail"
                             (VStr "You cannot delete yourself."))))
             (Sample.page [] ""))))
  = [("error", VStr "You cannot delete yourself.")].
Proof.
  apply (proj2 (proj2 (proj2
           (user_deletion "t" 2 true
              (Response 403
                 (BodyJson (Example.object "detail"
                              (VStr "You cannot delete yourself."))))
              (Sample.page [] ""))))); reflexivity.
Defined.

Lemma user_creation_witness :
  AdminPage.addUserModalDisplay
    (Run.final
       (AdminPage.handleNewUser "t"
          {| AdminPage.newFullName := "Ben Diaz";
             AdminPage.newEmail := "ben@school.edu";
             AdminPage.newPassword := "secret";
             AdminPage.newRole := "admin" |}
          (Response 409 BodyInvalid) (Sample.page [] "")))
  = "flex".
Proof.
  destruct (proj1 (proj2 (user_creation "t"
                            {| AdminPage.newFullName := "Ben Diaz";
                               AdminPage.newEmail := "ben@school.edu";
                               AdminPage.newPassword := "secret";
                               AdminPage.newRole := "admin" |}
                            (Response 409 BodyInvalid) (Sample.page [] "")))
              409 BodyInvalid eq_refl) as (_ & _ & H & _).
  exact H.
Defined.

(* ===================================================================== *)
(** ** The table of users *)
(* ===================================================================== *)

(** X17.  The role filters and the role labels of the users table do not
    agree on roles the script does not know.  Under [student] the table
    lists the users of role [student], under [admin] those of role [admin]
    or [super_admin], under any other value every user.  The label is
    "Student" for [student] and "Super Admin" for [super_admin] only; a
    user of any other role is labelled "Admin", yet neither role filter
    lists that user unless the role is [admin]. *)
Theorem role_filters_and_labels (users : list AdminPage.User)
    (u : AdminPage.User) :
  In u users ->
  (In u (AdminPage.filterUsers "student" users)
   <-> AdminPage.role u = "student")
  /\ (In u (AdminPage.filterUsers "admin" users)
      <-> AdminPage.role u = "admin" \/ AdminPage.role u = "super_admin")
  /\ (forall other, other <> "student" -> other <> "admin" ->
      AdminPage.filterUsers other users = users)
  /\ (snd (AdminPage.roleBadge (AdminPage.role u)) = "Student"
      <-> AdminPage.role u = "student")
  /\ (snd (AdminPage.roleBadge (AdminPage.role u)) = "Super Admin"
      <-> AdminPage.role u = "super_admin")
  /\ (AdminPage.role u <> "student" -> AdminPage.role u <> "admin" ->
      AdminPage.role u <> "super_admin" ->
      snd (AdminPage.roleBadge (AdminPage.role u)) = "Admin"
      /\ ~ In u (AdminPage.filterUsers "student" users)
      /\ ~ In u (AdminPage.filterUsers "admin" users)).
Proof.
  intros Hin.
  assert (Hs : In u (AdminPage.filterUsers "student" users)
               <-> AdminPage.role u = "student").
  { unfold AdminPage.filterUsers. cbn [String.eqb Ascii.eqb Bool.eqb].
    rewrite filter_In, String.eqb_eq. tauto. }
  assert (Ha : In u (AdminPage.filterUsers "admin" users)
               <-> AdminPage.role u = "admin"
                   \/ AdminPage.role u = "super_admin").
  { unfold AdminPage.filterUsers.
    change ("admin" =? "student")%string with false.
    change ("admin" =? "admin")%string with true. cbv iota.
    rewrite filter_In, Bool.orb_true_iff, !String.eqb_eq. tauto. }
  split; [exact Hs|]. split; [exact Ha|]. split; [|split; [|split]].
  - intros other H1 H2. unfold AdminPage.filterUsers.
    apply String.eqb_neq in H1, H2. rewrite H1, H2. reflexivity.
  - unfold AdminPage.roleBadge.
    destruct (AdminPage.role u =? "student")%string eqn:E1.
    + apply String.eqb_eq in E1. cbn. tauto.
    + apply String.eqb_neq in E1.
      destruct (AdminPage.role u =? "super_admin")%string; cbn;
        split; intros H; try discriminate H; contradiction.
  - unfold AdminPage.roleBadge.
    destruct (AdminPage.role u =? "student")%string eqn:E1.
    + apply String.eqb_eq in E1. cbn. rewrite E1.
      split; intros H; discriminate H.
    + destruct (AdminPage.role u =? "super_admin")%string eqn:E2; cbn.
      * apply String.eqb_eq in E2. tauto.
      * apply String.eqb_neq in E2.
        split; intros H; try discriminate H; contradiction.
  - intros N1 N2 N3. split; [|split].
    + unfold AdminPage.roleBadge.
      apply String.eqb_neq in N1, N3. rewrite N1, N3. reflexivity.
    + rewrite Hs. exact N1.
    + rewrite Ha. tauto.
Qed.

Section UsersTable.
Variable token : string.
Variable toLocaleDate : string -> string.
Variable parseText : string -> list Html.

Lemma onclicks_userRow (u : AdminPage.User) :
  onclicks (AdminPage.userRow toLocaleDate u)
  = [("deleteUser", ofZ (AdminPage.userId u))].
Proof.
  unfold AdminPage.userRow.
  destruct (AdminPage.roleBadge (AdminPage.role u)) as [c l]. reflexivity.
Qed.

Lemma onclicks_userRows (l : list AdminPage.User) :
  flat_map onclicks (map (AdminPage.userRow toLocaleDate) l)
  = map (fun u => ("deleteUser", ofZ (AdminPage.userId u))) l.
Proof.
  induction l as [|u l IH]; [reflexivity|].
  cbn [map flat_map]. rewrite onclicks_userRow, IH. reflexivity.
Qed.

(** X18.  The users table is never left empty by an array of users, and
    its buttons are the users listed.  The rows are spliced into the page
    unescaped; when the parser makes text of plain text and the markup of
    the rows is inert (no name, address or date holds a character that is
    special where it stands), each row carries one button, which calls
    [deleteUser] with the id of its user, in the order of the array; the
    placeholder row, shown when no user passes the filter, carries
    none. *)
Theorem users_table_rows (filterElement : option string)
    (users : list AdminPage.User) :
  (forall t, plainText t = true -> textOnly (parseText t) = true) ->
  forallb inert (AdminPage.usersTable toLocaleDate filterElement users)
  = true ->
  let filter := match filterElement with Some v => v | None => "all" end in
  AdminPage.usersTable toLocaleDate filterElement users <> []
  /\ List.length (AdminPage.usersTable toLocaleDate filterElement users)
     = Nat.max 1 (List.length (AdminPage.filterUsers filter users))
  /\ flat_map onclicks
       (flat_map (parsed parseText)
          (AdminPage.usersTable toLocaleDate filterElement users))
     = map (fun u => ("deleteUser", ofZ (AdminPage.userId u)))
         (AdminPage.filterUsers filter users)
  /\ (AdminPage.usersTable toLocaleDate filterElement users
      = [AdminPage.noUsers]
      <-> AdminPage.filterUsers filter users = []).
Proof.
  intros Hparse Hinert filter.
  rewrite (onclicks_page parseText Hparse _ Hinert). clear Hinert.
  unfold AdminPage.usersTable. fold filter.
  destruct (AdminPage.filterUsers filter users) as [|u l] eqn:E.
  - cbn. repeat split; try reflexivity. discriminate.
  - cbn [List.length Nat.eqb]. cbv iota.
    split; [discriminate|]. split; [|split].
    + rewrite length_map. cbn [List.length]. lia.
    + apply onclicks_userRows.
    + split; intros H; [|discriminate H].
      cbn [map] in H. injection H as H _. exfalso.
      unfold AdminPage.userRow in H.
      destruct (AdminPage.roleBadge (AdminPage.role u)) as [c lab].
      unfold AdminPage.noUsers in H. discriminate H.
Qed.

(** X19.  [loadUsers] fails in silence.  It sends one GET, never throws and
    never opens a dialog.  An array of users is tabulated whatever the
    status of the response; when the request fails or the body is not JSON
    the page stays as it was; a JSON answer that is no array leaves the
    table as it was under the two role filters, and under any other filter
    leaves it with the placeholder row when the value has a [length] of 0
    and empty when it has not.  Nothing but the users table ever
    changes. *)
Theorem users_load_silent (filterElement : option string)
    (net : AdminPage.UsersResult) (s : AdminPage.State) :
  let filter := match filterElement with Some v => v | None => "all" end in
  let out := AdminPage.loadUsers token toLocaleDate filterElement net s in
  Run.outcome out = Run.Returned tt
  /\ map (fun c => (Http.url c, Http.method c, Http.fields c))
       (pageCalls (Run.trace out))
     = [("/api/users", "GET", None)]
  /\ pageDialogs (Run.trace out) = []
  /\ Run.final out
     = AdminPage.setUsersList
         (match net with
          | AdminPage.UsersResponse _ (AdminPage.UsersOf users) =>
              AdminPage.usersTable toLocaleDate filterElement users
          | AdminPage.UsersResponse _ AdminPage.UsersEmptyLike =>
              if (filter =? "student")%string || (filter =? "admin")%string
              then AdminPage.usersList s else [AdminPage.noUsers]
          | AdminPage.UsersResponse _ AdminPage.UsersOther =>
              if (filter =? "student")%string || (filter =? "admin")%string
              then AdminPage.usersList s else []
          | _ => AdminPage.usersList s
          end) s.
Proof.
  intros filter out. subst out. destruct s.
  destruct net as [|status [|users| |]]; run_js;
    try (fold filter;
         destruct ((filter =? "student")%string || (filter =? "admin")%string));
    repeat split.
Qed.

End UsersTable.

Lemma users_table_rows_witness :
  flat_map onclicks
    (flat_map (parsed Sample.parseText)
       (AdminPage.usersTable Example.dateText (Some "student") Sample.users))
  = [("deleteUser", "1")].
Proof.
  apply (proj1 (proj2 (proj2
           (users_table_rows Example.dateText Sample.parseText
              (Some "student") Sample.users sample_parse_plain
              ltac:(reflexivity))))).
Defined.

Lemma role_filters_and_labels_witness :
  snd (AdminPage.roleBadge "nurse") = "Admin"
  /\ ~ In {| AdminPage.userId := 2; AdminPage.full_name := "Ben Diaz";
             AdminPage.email := "ben@school.edu"; AdminPage.role := "nurse";
             AdminPage.created_at := "2024-01-03" |}
          (AdminPage.filterUsers "admin" Sample.users).
Proof.
  destruct (role_filters_and_labels Sample.users
              {| AdminPage.userId := 2; AdminPage.full_name := "Ben Diaz";
                 AdminPage.email := "ben@school.edu";
                 AdminPage.role := "nurse";
                 AdminPage.created_at := "2024-01-03" |})
    as (_ & _ & _ & _ & _ & H).
  - right. left. reflexivity.
  - destruct H as (H1 & _ & H3); [discriminate | discriminate | discriminate |].
    split; [exact H1 | exact H3].
Defined.

(* ===================================================================== *)
(** ** Loading the appointments and the modal *)
(* ===================================================================== *)

Section AppointmentsLoad.
Variable token : string.
Variable toLowerCase : string -> string.
Variable dateValue : string -> option Z.
Variable toLocaleDateString : string -> string.

(** X20.  A failed load keeps the old records, a load of the wrong shape
    loses them.  [loadAppointments] sends one GET, never throws and opens
    no dialog.  A 2xx answer that is an array replaces the store, and the
    table is the pipeline run on it under the controls as they stand.  A
    2xx answer that is JSON but no array is put in the place of the store:
    the table gets the one row "Error loading data.", and from then on
    [applyFiltersAndSort] throws and leaves that row.  Any other answer
    leaves the store as it was and puts the same row in the table; when
    the store held an array, the next run of [applyFiltersAndSort] takes
    the row away again and tabulates the records of the last load that
    worked. *)
Theorem appointments_load (net : AdminPage.ListResult)
    (l : AdminPage.Loaded) :
  let out :=
    AdminPage.loadAppointments token toLowerCase dateValue
      toLocaleDateString net l in
  let again :=
    AdminPage.applyFiltersAndSort toLowerCase dateValue toLocaleDateString
      (Run.final out) in
  let store (x : AdminPage.Loaded) :=
    Admin.allAppointments (AdminPage.core (AdminPage.page x)) in
  let table (x : AdminPage.Loaded) :=
    AdminPage.appointmentsList (AdminPage.page x) in
  Run.outcome out = Run.Returned tt
  /\ map (fun c => (Http.url c, Http.method c, Http.fields c))
       (pageCalls (Run.trace out))
     = [("/api/appointments", "GET", None)]
  /\ pageDialogs (Run.trace out) = []
  /\ match loadResult net with
     | Fresh items =>
         AdminPage.holdsArray (Run.final out) = true
         /\ store (Run.final out) = items
         /\ table (Run.final out)
            = Pipeline.render toLowerCase dateValue toLocaleDateString items
                (AdminPage.controls (AdminPage.page l))
     | Lost =>
         AdminPage.holdsArray (Run.final out) = false
         /\ table (Run.final out) = [AdminPage.errorRow]
         /\ Run.outcome again = Run.Thrown
         /\ table (Run.final again) = [AdminPage.errorRow]
     | Stale =>
         AdminPage.holdsArray (Run.final out) = AdminPage.holdsArray l
         /\ store (Run.final out) = store l
         /\ table (Run.final out) = [AdminPage.errorRow]
         /\ (AdminPage.holdsArray l = true ->
             table (Run.final again)
             = Pipeline.render toLowerCase dateValue toLocaleDateString
                 (store l)
                 (AdminPage.controls (AdminPage.page l)))
     end.
Proof.
  intros out again store table. subst out again store table.
  unfold loadResult.
  destruct l as [[c ctl al ul note aum panes btns] arr]. destruct c.
  destruct net as [|status [|items|]]; run_js;
    try (destruct (ok status); run_js);
    cbn [AdminPage.holdsArray AdminPage.page];
    repeat split; try (intros ->; reflexivity); destruct arr; reflexivity.
Qed.

(** X21.  The status update goes to the record whose modal is open.  An id
    that no record of the store bears opens nothing: the page stays as it
    was.  The id of a record opens the modal, hides the reject form, and
    from then on [updateAppointmentStatus] sends its PUT to that id. *)
Theorem update_targets_open_record (i : Z) (newStatus : string)
    (net : FetchResult) (s : AdminPage.State) :
  let opened :=
    AdminPage.setCore (Admin.openAppointmentModal i (AdminPage.core s)) s in
  match Admin.findById (Admin.allAppointments (AdminPage.core s)) i with
  | None => opened = s
  | Some apt =>
      In apt (Admin.allAppointments (AdminPage.core s))
      /\ id apt = i
      /\ Admin.appointmentModalDisplay (AdminPage.core opened) = "flex"
      /\ Admin.rejectFormDisplay (AdminPage.core opened) = "none"
      /\ map Http.url
           (pageCalls
              (Run.trace
                 (AdminPage.updateAppointmentStatus token newStatus net
                    opened)))
         = ["/api/appointments/" ++ ofZ i]
  end.
Proof.
  intros opened. subst opened. unfold Admin.openAppointmentModal.
  destruct (Admin.findById (Admin.allAppointments (AdminPage.core s)) i)
    as [apt|] eqn:E.
  - unfold Admin.findById in E. apply find_some in E. destruct E as [Hin Hid].
    apply Z.eqb_eq in Hid.
    split; [exact Hin|]. split; [exact Hid|].
    destruct s as [c ctl al ul note aum panes btns]. destruct c.
    destruct net as [|status body]; run_js; repeat split.
  - destruct s as [c ctl al ul note aum panes btns]. destruct c. reflexivity.
Qed.

End AppointmentsLoad.

Lemma appointments_load_witness :
  AdminPage.appointmentsList
    (AdminPage.page
       (Run.final
          (AdminPage.applyFiltersAndSort JsString.toLowerCase
             Calendar.isoDateValue Example.dateText
             (Run.final
                (AdminPage.loadAppointments "t" JsString.toLowerCase
                   Calendar.isoDateValue Example.dateText
                   AdminPage.ListNetworkError
                   {| AdminPage.page := Sample.page Example.scenarioStore "";
                      AdminPage.holdsArray := true |})))))
  = Pipeline.render JsString.toLowerCase Calendar.isoDateValue
      Example.dateText Example.scenarioStore Example.noFilter.
Proof.
  destruct (appointments_load "t" JsString.toLowerCase Calendar.isoDateValue
              Example.dateText AdminPage.ListNetworkError
              {| AdminPage.page := Sample.page Example.scenarioStore "";
                 AdminPage.holdsArray := true |})
    as (_ & _ & _ & H).
  cbv [loadResult] in H. destruct H as (_ & _ & _ & H).
  apply H. reflexivity.
Defined.

(* ===================================================================== *)
(** ** The scanner across the page *)
(* ===================================================================== *)

Ltac run_page :=
  cbv beta iota zeta delta
    [ Run.bind Run.ret Run.throw Run.tryCatch Run.emit Run.get Run.put
      Run.outcome Run.final Run.trace fst snd app flat_map map
      AdminPage.perform AdminPage.showTab AdminPage.lift
      AdminPage.setTabs AdminPage.setCore AdminPage.core
      AdminPage.shownPanes AdminPage.activeButtons
      Admin.startScanner Admin.stopScanner Admin.runCallback
      Admin.writeScanResult Admin.onScanSuccess Admin.fetch Admin.json
      Admin.prop Admin.setScanner Admin.setScanResult
      Admin.html5QrcodeScanner
      holdsScanner scannerLog scheduled orderly ].

Ltac split_ifs :=
  repeat match goal with
         | |- context [if ?b then _ else _] => destruct b
         end.

Section ScannerDiscipline.
Variable token : string.
Variable hasPane : string -> bool.

Lemma orderly_app (a b c : bool) (l1 l2 : list bool) :
  orderly a l1 b -> orderly b l2 c -> orderly a (l1 ++ l2) c.
Proof.
  revert a. induction l1 as [|x l1 IH]; intros a H1 H2.
  - cbn in H1. subst b. exact H2.
  - cbn in H1 |- *. destruct H1 as [Hx H1]. split; [exact Hx|].
    apply IH; assumption.
Qed.

Lemma scannerLog_app (t1 t2 : list AdminPage.Event) :
  scannerLog (t1 ++ t2) = (scannerLog t1 ++ scannerLog t2)%list.
Proof. unfold scannerLog. apply flat_map_app. Qed.

Lemma perform_orderly (op : AdminPage.Op) (s : AdminPage.State) :
  let r := Run.tryCatch (AdminPage.perform token hasPane op) (Run.ret tt) s in
  Run.outcome r = Run.Returned tt
  /\ orderly (holdsScanner s) (scannerLog (Run.trace r))
       (holdsScanner (Run.final r)).
Proof.
  intros r. subst r.
  destruct s as [c ctl al ul note aum panes btns].
  destruct c as [store cur held res ma rf am].
  destruct op as [tabName clicked | decodedText net | cb].
  - run_page. destruct held; split_ifs; run_page; repeat split.
  - destruct net as [|status [|[|p]]]; run_page;
      destruct held; split_ifs; run_page; repeat split.
  - destruct cb; run_page; destruct held; run_page; repeat split.
Qed.

(** X22.  The script never holds two scanners and never clears one it does
    not hold.  Whatever the admin and the network do, in whatever order
    (tabs chosen, tickets decoded and answered, pending restarts run), a
    scanner is started only when none is held and cleared only when one
    is, and [html5QrcodeScanner] tells in the end whether one is held. *)
Theorem scanner_discipline (ops : list AdminPage.Op) (s : AdminPage.State) :
  orderly (holdsScanner s)
    (scannerLog (Run.trace (AdminPage.performAll token hasPane ops s)))
    (holdsScanner (Run.final (AdminPage.performAll token hasPane ops s))).
Proof.
  revert s. induction ops as [|op ops IH]; intros s.
  - reflexivity.
  - cbn [AdminPage.performAll]. unfold Run.bind.
    pose proof (perform_orderly op s) as H. cbv zeta in H.
    destruct (Run.tryCatch (AdminPage.perform token hasPane op) (Run.ret tt) s)
      as [[o s1] t1].
    destruct H as [Ho H]. unfold Run.outcome in Ho. cbn [fst] in Ho. subst o.
    specialize (IH s1).
    destruct (AdminPage.performAll token hasPane ops s1) as [[o2 s2] t2].
    unfold Run.trace, Run.final in *. cbn [fst snd] in *.
    rewrite scannerLog_app.
    eapply orderly_app; eassumption.
Qed.

(** X23.  Every scan rearms the scanner.  Whatever the ticket and however
    the check-in ends (accepted, refused, unreadable answer, no answer),
    [onScanSuccess] does not throw, leaves no scanner held and leaves
    exactly one restart pending; when that restart runs, a scanner is held
    again. *)
Theorem scan_rearms (decodedText : string) (net : FetchResult)
    (s : Admin.State) :
  let out := Admin.onScanSuccess token decodedText net s in
  Run.outcome out = Run.Returned tt
  /\ Admin.html5QrcodeScanner (Run.final out) = false
  /\ exists cb,
       scheduled (Run.trace out) = [cb]
       /\ Admin.html5QrcodeScanner
            (Run.final (Admin.runCallback cb (Run.final out))) = true.
Proof.
  intros out. subst out.
  destruct s as [store cur held res ma rf am].
  destruct net as [|status [|[|p]]]; run_page;
    destruct held; split_ifs; run_page;
    (split; [reflexivity|]); (split; [reflexivity|]);
    eexists; (split; [reflexivity|]); reflexivity.
Qed.

(** X24.  A pending restart does not look at the tab.  When the admin
    leaves the scanner tab for another pane of the page, the scanner is
    let go; a restart that runs afterwards starts a scanner all the same,
    so that one is held while the scanner pane is hidden. *)
Theorem restart_ignores_tab (tabName clicked : string) (cb : Admin.Callback)
    (s : AdminPage.State) :
  tabName <> "scanner" ->
  hasPane (tabName ++ "-tab") = true ->
  let left :=
    Run.final (AdminPage.performAll token hasPane
                 [AdminPage.ShowTab tabName clicked] s) in
  let later :=
    Run.final (AdminPage.performAll token hasPane [AdminPage.Fire cb] left) in
  holdsScanner left = false
  /\ AdminPage.shownPanes left = [tabName ++ "-tab"]
  /\ holdsScanner later = true
  /\ AdminPage.shownPanes later = [tabName ++ "-tab"].
Proof.
  intros Hn Hp left later. subst left later.
  apply String.eqb_neq in Hn.
  destruct s as [c ctl al ul note aum panes btns].
  destruct c as [store cur held res ma rf am].
  cbn [AdminPage.performAll AdminPage.perform]. unfold AdminPage.showTab.
  rewrite Hp, Hn.
  destruct (tabName =? "appointments")%string, (tabName =? "users")%string,
    held, cb; run_page; repeat split.
Qed.

End ScannerDiscipline.

Lemma restart_ignores_tab_witness :
  holdsScanner
    (Run.final
       (AdminPage.performAll "t" Sample.hasPane
          [AdminPage.Fire Admin.StartScanner]
          (Run.final
             (AdminPage.performAll "t" Sample.hasPane
                [AdminPage.ShowTab "users" "manage-users-tab"]
                (Sample.page [] "")))))
  = true.
Proof.
  destruct (restart_ignores_tab "t" Sample.hasPane "users" "manage-users-tab"
              Admin.StartScanner (Sample.page [] ""))
    as (_ & _ & H & _).
  - discriminate.
  - reflexivity.
  - exact H.
Defined.

(* ===================================================================== *)
(** ** Signing in and registering *)
(* ===================================================================== *)

Section SigningIn.

(** X25.  A login writes to the browser's storage all four keys or none.
    Only a 2xx answer whose body is a JSON value other than [null] writes
    anything; it writes [token], [role], [user_id] and [full_name], in that
    order and as the answer has them, except that a missing or empty name
    becomes "User", and then announces the success once, bound for the page
    of the role (for no page when the role is not one of the three).  Every
    other answer writes nothing and announces no success. *)
Theorem login_storage (email password : string) (net : FetchResult) :
  let tr := Run.trace (Login.submit email password net tt) in
  Run.outcome (Login.submit email password net tt) = Run.Returned tt
  /\ match net with
     | Response status (BodyJson (DValue p)) =>
         if ok status then
           stored tr
           = [ ("token", p "token"); ("role", p "role");
               ("user_id", p "user_id");
               ("full_name",
                if truthy (p "full_name") then p "full_name"
                else VStr "User") ]
           /\ redirects tr = [Login.landing (p "role")]
           /\ loginDialogs tr = []
         else stored tr = [] /\ redirects tr = []
     | _ => stored tr = [] /\ redirects tr = []
     end.
Proof.
  intros tr. subst tr.
  destruct net as [|status [|[|p]]]; run_js;
    try (destruct (ok status) eqn:Hok; run_js);
    try (destruct (status =? 422); run_js);
    try (destruct (truthy (p "detail") && isString (p "detail")); run_js);
    repeat split.
Qed.

(** X26.  The page the login sends to lets the user in.  For a token that
    is not empty and a role that is a string, the login sends the browser
    to the student dashboard exactly when the guard of that page accepts
    the stored pair, to the admin dashboard exactly when the guard of that
    one does, and nowhere exactly when both guards would refuse; no pair
    passes both guards.  With an empty token both guards refuse whatever
    the role, though the login looks at the role alone. *)
Theorem landing_passes_guard (t r : string) :
  t <> "" ->
  (Login.landing (VStr r) = Some "student-dashboard.html"
   <-> StudentPage.unauthorized (Some t) (Some r) = false)
  /\ (Login.landing (VStr r) = Some "admin-dashboard.html"
      <-> AdminPage.unauthorized (Some t) (Some r) = false)
  /\ (Login.landing (VStr r) = None
      <-> StudentPage.unauthorized (Some t) (Some r) = true
          /\ AdminPage.unauthorized (Some t) (Some r) = true)
  /\ StudentPage.unauthorized (Some "") (Some r) = true
  /\ AdminPage.unauthorized (Some "") (Some r) = true.
Proof.
  intros Ht. apply String.eqb_neq in Ht.
  unfold Login.landing, StudentPage.unauthorized, AdminPage.unauthorized,
    strictEqStr, truthy.
  rewrite Ht. cbn [negb orb String.eqb].
  destruct (String.eqb_spec r "student") as [->|N1];
    [cbn; repeat split; intros; try discriminate; try tauto;
     destruct H; discriminate|].
  destruct (String.eqb_spec r "admin") as [->|N2];
    [cbn; repeat split; intros; try discriminate; try tauto;
     destruct H; discriminate|].
  destruct (String.eqb_spec r "super_admin") as [->|N3];
    cbn; repeat split; intros; try discriminate; try tauto;
    destruct H; discriminate.
Qed.

(** X27.  The registration form sends nothing when the two passwords
    differ, and otherwise one POST of the name, the email and the password;
    the confirmation is never sent.  Every submission ends with exactly one
    dialog and never throws, and only the dialog of a 2xx answer that is
    JSON leads on to the login page. *)
Theorem registration (f : Register.Form) (net : FetchResult) :
  let tr := Run.trace (Register.submit f net tt) in
  let same := (Register.password f =? Register.confirmPassword f)%string in
  Run.outcome (Register.submit f net tt) = Run.Returned tt
  /\ map (fun c => (Http.url c, Http.method c, Http.fields c))
       (registerCalls tr)
     = (if same
        then [ ("http://localhost:8000/api/register", "POST",
                Some [ ("full_name", Register.fullName f);
                       ("email", Register.email f);
                       ("password", Register.password f) ]) ]
        else [])
  /\ map snd (registerDialogs tr)
     = [ if same && accepted net then Some "index.html" else None ]
  /\ (same = false ->
      map (fun d => title (fst d)) (registerDialogs tr)
      = ["Password Mismatch"]).
Proof.
  intros tr same. subst tr same. unfold Register.submit, accepted.
  destruct (Register.password f =? Register.confirmPassword f)%string;
    cbn [negb andb];
    destruct net as [|status [|[|p]]]; run_js;
    try (destruct (ok status); run_js);
    repeat split; try discriminate.
Qed.

End SigningIn.

Lemma landing_passes_guard_witness :
  Login.landing (VStr "super_admin") = Some "admin-dashboard.html".
Proof.
  apply (proj1 (proj2 (landing_passes_guard "abc" "super_admin"
                         ltac:(discriminate)))).
  reflexivity.
Defined.

Lemma registration_witness :
  map (fun d => title (fst d))
    (registerDialogs
       (Run.trace (Register.submit Sample.mistyped NetworkError tt)))
  = ["Password Mismatch"].
Proof.
  apply (proj2 (proj2 (proj2
           (registration Sample.mistyped NetworkError)))).
  reflexivity.
Defined.
